(** * ova2stemcell: patch, extract, edit and package under cancellation

    A shallow embedding of the Go sources of [ova2stemcell] ([main.go],
    [rdiff/rdiff.go] and their tests) together with the properties the
    design document states about them.

    Conventions of the embedding:
    - the file system is a finite map from path names to nodes, keyed by
      the names in the form the kernel resolves them to (absolute and
      clean, [OS.resolved]); a name is looked up as it is written, so a
      statement about a name the caller supplies is a statement about a
      name in that form; every function that touches the disk takes the
      file system and returns the new one;
    - a Go [error] result is a value of [Error]; a Go [panic] is a
      separate outcome, never an [Error];
    - Go channels that are only ever closed (the [stop] channel) live in a
      heap of channel cells, so that the copies of a channel held by
      [Config], [CancelReader] and [CancelWriter] alias one cell;
    - third-party code (the rsync library, [archive/tar], [compress/gzip],
      the hash functions) is taken as section variables. *)

From Stdlib Require Import ZArith Lia List Ascii String.
From Stdlib Require Strings.Byte.
From stdpp Require Import gmap strings list fin_maps pretty.

Local Open Scope Z_scope.

(** ** Bytes, errors and outcomes *)

Abbreviation byte := Byte.byte.
Abbreviation bytes := (list Byte.byte).

Global Instance byte_eq_dec : EqDecision Byte.byte := Byte.byte_eq_dec.

Definition bytes_of (s : string) : bytes := String.list_byte_of_string s.

(** The error values the program returns.  [fmt.Errorf] results are kept
    structured: one constructor per format string of the source. *)
Inductive Error : Type :=
  (* os *)
  | ENOENT (path : string)            (* open: no such file or directory *)
  | EEXIST (path : string)            (* open: file exists *)
  | EISDIR (path : string)            (* open: is a directory *)
  | ENOTDIR (path : string)           (* open: not a directory *)
  (* io *)
  | EOF                                (* io.EOF *)
  | ErrUnexpectedEOF                   (* io.ErrUnexpectedEOF *)
  | ErrOther (msg : string)            (* any other error of a collaborator *)
  (* main.go *)
  | ErrInterupt                        (* errors.New("interupt") *)
  | ErrTarRead (ova : string) (e : Error)      (* "tar: reading from archive (%s): %s" *)
  | ErrTarSubdirectory (name : string)         (* "tar: archive contains subdirectory: %s" *)
  | ErrTarFileMode (name : string) (mode : Z)  (* "tar: unexpected file mode (%s): %s" *)
  | ErrTarOpen (path : string) (e : Error)     (* "tar: opening file (%s): %s" *)
  | ErrTarWrite (path : string) (e : Error)    (* "tar: writing file (%s): %s" *)
  | ErrTarTooManyFiles                         (* "tar: too many files in archive" *)
  | ErrTempDirOpen (dir : string)              (* "opening temp directory: %s" *)
  | ErrTempDirCreate (e : Error)               (* "creating temp directory: %s" *)
  | ErrManifestCreate (path : string) (e : Error) (* "creating stemcell.MF (%s): %s" *)
  | ErrManifestWrite (path : string) (e : Error)  (* "writing stemcell.MF (%s): %s" *)
  | ErrCreatingStemcell (e : Error)            (* "creating stemcell: %s" *)
  | ErrOpeningOva (name : string) (e : Error)  (* "opening ova file (%s): %s" *)
  | ErrImageCreate (path : string) (e : Error) (* "creating image file (%s): %s" *)
  | ErrImageWrite (path : string) (e : Error)  (* "writing image (%s): %s" *)
  (* rdiff *)
  | NoTargetSumError                   (* "Checksum request but missing target hash." *)
  | HashNoMatchError.                  (* "Final data hash does not match." *)

Global Instance Error_eq_dec : EqDecision Error.
Proof. solve_decision. Defined.

(** What a call does: return [nil], return an error, or panic. *)
Inductive Outcome : Type :=
  | Ok
  | Err (e : Error)
  | Panic (msg : string).

Global Instance Outcome_eq_dec : EqDecision Outcome.
Proof. solve_decision. Defined.

Definition failed (o : Outcome) : bool :=
  match o with Ok => false | _ => true end.

(** ** Path names ([path/filepath], Unix) *)

Module Path.

Definition IsPathSeparator (c : ascii) : bool := Ascii.eqb c "/".

Fixpoint drop_separators (l : list ascii) : list ascii :=
  match l with
  | c :: l' => if IsPathSeparator c then drop_separators l' else l
  | [] => []
  end.

Fixpoint drop_element (l : list ascii) : list ascii :=
  match l with
  | c :: l' => if IsPathSeparator c then l else drop_element l'
  | [] => []
  end.

Fixpoint take_element (l : list ascii) : list ascii :=
  match l with
  | c :: l' => if IsPathSeparator c then [] else c :: take_element l'
  | [] => []
  end.

(** [filepath.Base]: the last element of [path]; trailing separators are
    removed first; "." for the empty path, "/" for a path of separators. *)
Definition Base (path : string) : string :=
  if decide (path = "") then "."
  else
    (* strip trailing slashes, then keep what follows the last separator *)
    let stripped := drop_separators (reverse (list_ascii_of_string path)) in
    let elem := string_of_list_ascii (reverse (take_element stripped)) in
    if decide (elem = "") then "/" else elem.

(** [strings.Split s "/"], with an accumulator for the current element. *)
Fixpoint split_go (cur : list ascii) (s : list ascii) : list string :=
  match s with
  | [] => [string_of_list_ascii (reverse cur)]
  | c :: s' =>
      if IsPathSeparator c
      then string_of_list_ascii (reverse cur) :: split_go [] s'
      else split_go (c :: cur) s'
  end.

Definition split (s : string) : list string := split_go [] (list_ascii_of_string s).

Fixpoint join_sep (l : list string) : string :=
  match l with
  | [] => ""
  | [x] => x
  | x :: l' => x +:+ "/" +:+ join_sep l'
  end.

(** One element of the path seen by [Clean]; [out] is the output so far,
    last element first. *)
Definition clean_step (rooted : bool) (out : list string) (elem : string) : list string :=
  if decide (elem = "") then out            (* empty path element *)
  else if decide (elem = ".") then out      (* . element *)
  else if decide (elem = "..") then
    match out with
    | top :: rest =>
        if decide (top = "..") then elem :: out   (* leading ../.. prefix *)
        else rest                                 (* can backtrack *)
    | [] => if rooted then [] else [elem]
    end
  else elem :: out.                         (* real path element *)

(** [filepath.Clean], lexical processing only. *)
Definition Clean (path : string) : string :=
  if decide (path = "") then "."
  else
    let rooted := match path with String c _ => IsPathSeparator c | _ => false end in
    let out := foldl (clean_step rooted) [] (split path) in
    let body := join_sep (reverse out) in
    let r := if rooted then "/" +:+ body else body in
    if decide (r = "") then "." else r.

(** [filepath.Dir]: all but the last element of [path], cleaned. *)
Definition Dir (path : string) : string :=
  let upto := reverse (drop_element (reverse (list_ascii_of_string path))) in
  Clean (string_of_list_ascii upto).

(** [filepath.Join] of two elements: empty elements are ignored and the
    result is cleaned. *)
Definition Join (dir name : string) : string :=
  if decide (dir = "") then
    if decide (name = "") then "" else Clean name
  else Clean (dir +:+ "/" +:+ name).

(** [filepath.IsAbs] (Unix): the path begins with a separator. *)
Definition IsAbs (path : string) : bool :=
  match path with
  | String c _ => IsPathSeparator c
  | EmptyString => false
  end.

End Path.

(** ** The file system ([os]) *)

Module OS.

(** [os.FileMode]: the permission bits in the low 9 bits, the type of the
    file in the high bits. *)
Definition ModeDir        : Z := Z.shiftl 1 31.
Definition ModeSymlink    : Z := Z.shiftl 1 27.
Definition ModeDevice     : Z := Z.shiftl 1 26.
Definition ModeNamedPipe  : Z := Z.shiftl 1 25.
Definition ModeSocket     : Z := Z.shiftl 1 24.
Definition ModeCharDevice : Z := Z.shiftl 1 21.
Definition ModeIrregular  : Z := Z.shiftl 1 19.
Definition ModeType : Z :=
  Z.lor ModeDir (Z.lor ModeSymlink (Z.lor ModeNamedPipe
    (Z.lor ModeSocket (Z.lor ModeDevice (Z.lor ModeCharDevice ModeIrregular))))).
Definition ModePerm : Z := 511. (* 0777 *)

Definition ModeSetuid     : Z := Z.shiftl 1 23.
Definition ModeSetgid     : Z := Z.shiftl 1 22.
Definition ModeSticky     : Z := Z.shiftl 1 20.

(** [FileMode.IsRegular]: no type bit is set. *)
Definition IsRegular (m : Z) : bool := Z.land m ModeType =? 0.
(** [FileMode.Perm] *)
Definition Perm (m : Z) : Z := Z.land m ModePerm.

Definition has (flag bit : Z) : bool := negb (Z.land flag bit =? 0).

(** [syscallMode]: the mode bits handed to [open(2)], that is the
    permission bits and the setuid, setgid and sticky bits.  The umask
    of the process is not modelled. *)
Definition syscallMode (m : Z) : Z :=
  Z.lor (Perm m)
    (Z.lor (if has m ModeSetuid then 2048 else 0)
       (Z.lor (if has m ModeSetgid then 1024 else 0)
          (if has m ModeSticky then 512 else 0))).

(** What a path names: a directory, or a file with its mode bits and
    its bytes. *)
Inductive Node : Type :=
  | Dir
  | File (perm : Z) (data : bytes).

Global Instance Node_eq_dec : EqDecision Node.
Proof. solve_decision. Defined.

Abbreviation FS := (gmap string Node).

(** Flags of [os.OpenFile] (values of the Linux [syscall] package). *)
Definition O_RDONLY : Z := 0.
Definition O_WRONLY : Z := 1.
Definition O_RDWR   : Z := 2.
Definition O_CREATE : Z := 64.
Definition O_EXCL   : Z := 128.
Definition O_TRUNC  : Z := 512.

(** [os.OpenFile path flag perm], for a file opened for writing.  With
    [O_CREATE|O_EXCL] an existing path of any kind is an error; without
    [O_EXCL] an existing file is opened, and emptied under [O_TRUNC].  A
    new file needs its directory to be there.  Failures of the operating
    system that do not depend on the path (permissions, quota,
    descriptors) are outside the model. *)
Definition OpenFile (fs : FS) (path : string) (flag perm : Z) : Error + FS :=
  match fs !! path with
  | Some n =>
      if has flag O_CREATE && has flag O_EXCL then inl (EEXIST path)
      else match n with
           | Dir => inl (EISDIR path)
           | File p d =>
               if has flag O_TRUNC then inr (<[path := File p []]> fs) else inr fs
           end
  | None =>
      if has flag O_CREATE then
        match fs !! Path.Dir path with
        | Some Dir => inr (<[path := File (syscallMode perm) []]> fs)
        | Some (File _ _) => inl (ENOTDIR path)
        | None => inl (ENOENT path)
        end
      else inl (ENOENT path)
  end.

(** [os.Create name] is [OpenFile(name, O_RDWR|O_CREATE|O_TRUNC, 0666)]. *)
Definition Create (fs : FS) (path : string) : Error + FS :=
  OpenFile fs path (Z.lor O_RDWR (Z.lor O_CREATE O_TRUNC)) 438.

(** The directories above [path], the nearest first: [filepath.Dir]
    taken again and again until it gives nothing new (the root, or "."
    for a relative name). *)
Fixpoint dirs_above_go (fuel : nat) (path : string) : list string :=
  match fuel with
  | O => []
  | S fuel' =>
      let d := Path.Dir path in
      if decide (d = path) then [] else d :: dirs_above_go fuel' d
  end.

Definition dirs_above (path : string) : list string :=
  dirs_above_go (String.length path) path.

Definition is_file (fs : FS) (path : string) : bool :=
  match fs !! path with
  | Some (File _ _) => true
  | _ => false
  end.

(** The error of the kernel for a name under which there is nothing:
    [ENOTDIR] when the walk to it meets a regular file where it needs a
    directory, [ENOENT] otherwise.  [os.IsNotExist] holds of the second
    only. *)
Definition missing (fs : FS) (path : string) : Error :=
  if existsb (is_file fs) (dirs_above path) then ENOTDIR path else ENOENT path.

(** [os.Open name]: open for reading; the node read is returned. *)
Definition Open (fs : FS) (path : string) : Error + Node :=
  match fs !! path with
  | Some n => inr n
  | None => inl (missing fs path)
  end.

(** [os.Stat name] *)
Definition Stat (fs : FS) (path : string) : Error + Node := Open fs path.

(** Bytes appended to an open file. *)
Definition append_file (fs : FS) (path : string) (p : bytes) : FS :=
  match fs !! path with
  | Some (File perm d) => <[path := File perm (d ++ p)]> fs
  | _ => fs
  end.

(** [os.Remove name]: the error is ignored everywhere in the sources. *)
Definition Remove (fs : FS) (path : string) : FS :=
  match fs !! path with
  | Some (File _ _) => delete path fs
  | _ => fs   (* a directory is only removed when empty; not used on one *)
  end.

Definition under (dir path : string) : bool :=
  bool_decide (path = dir) || String.prefix (dir +:+ "/") path.

(** *** Names in resolved form

    The disk is keyed by the names the kernel resolves to, and the
    functions above look a name up as it is written.  What they say of
    a name is therefore what the program does for a name that the
    kernel takes as it stands: an absolute name that [filepath.Clean]
    leaves alone (no empty, [.] or [..] element, no separator at the
    end), without a NUL byte and within the limits of Linux on the
    length of a name and of its elements.  Other spellings of a name
    (relative to the working directory, through [.] and [..] or a
    doubled separator) reach the same node, and symbolic and hard links
    give a node more than one name; none of that is modelled. *)
Definition NAME_MAX : nat := 255.
Definition PATH_MAX : nat := 4096.

Definition resolved (path : string) : bool :=
  Path.IsAbs path
  && bool_decide (Path.Clean path = path)
  && forallb (fun c => negb (Ascii.eqb c "000")) (list_ascii_of_string path)
  && (String.length path <? PATH_MAX)%nat
  && forallb (fun elem => (String.length elem <=? NAME_MAX)%nat) (Path.split path).

(** [os.RemoveAll path]: the path and everything below it. *)
Definition RemoveAll (fs : FS) (dir : string) : FS :=
  filter (fun kv => under dir kv.1 = false) fs.

End OS.

(** ** Archives ([archive/tar]) and [ExtractOVA] *)

Module Tar.

(** What [tar.Reader.Next] and the following reads deliver for one entry:
    [Name] is [h.Name], [Mode] is [h.FileInfo().Mode()], [Body] the bytes
    the reader yields for the entry and [BodyErr] the error (if any) that
    ends them instead of a clean end of the entry. *)
Record Entry : Type := mkEntry {
  Name : string;
  Mode : Z;
  Body : bytes;
  BodyErr : option Error;
}.

(** An archive as the reader sees it: the entries in order, then either
    [io.EOF] ([trailer = None]) or the error [Next] fails with. *)
Record Archive : Type := mkArchive {
  entries : list Entry;
  trailer : option Error;
}.

End Tar.

Module Ova.
Import Tar.

Definition excl_flags : Z := Z.lor OS.O_CREATE (Z.lor OS.O_EXCL OS.O_WRONLY).

Section ExtractOVA.

(** [tar.NewReader] applied to the opened archive file. *)
Variable tarNewReader : OS.Node -> Archive.

Section Loop.
Variables (ova dirname : string) (eof : option Error).

(** The body of [for ; limit >= 0; limit--]; [inr limit] is the value
    of [limit] when the loop is left by its condition or by [break],
    [inl e] is a [return e] from inside the loop. *)
Fixpoint extract_loop (limit : Z) (es : list Entry) (fs : OS.FS)
  {struct es} : (Error + Z) * OS.FS :=
  if limit <? 0 then (inr limit, fs)
  else
    match es with
    | [] =>
        (* h, err := tr.Next(); err != nil *)
        match eof with
        | Some err => (inl (ErrTarRead ova err), fs)
        | None => (inr limit, fs)            (* break *)
        end
    | e :: es' =>
        let name := Name e in
        (* expect a flat archive *)
        if negb (bool_decide (Path.Base name = name)) then
          (inl (ErrTarSubdirectory name), fs)
        (* only allow regular files *)
        else if negb (OS.IsRegular (Mode e)) then
          (inl (ErrTarFileMode name (Mode e)), fs)
        else
          let path := Path.Join dirname name in
          match OS.OpenFile fs path excl_flags (Mode e) with
          | inl err => (inl (ErrTarOpen path err), fs)
          | inr fs1 =>
              (* io.Copy(f, tr) *)
              let fs2 := OS.append_file fs1 path (Body e) in
              match BodyErr e with
              | Some err => (inl (ErrTarWrite path err), fs2)
              | None => extract_loop (limit - 1) es' fs2
              end
          end
    end.
End Loop.

Definition ExtractOVA (ova dirname : string) (fs : OS.FS) : Outcome * OS.FS :=
  match OS.Open fs ova with
  | inl err => (Err err, fs)
  | inr tf =>
      let tr := tarNewReader tf in
      match extract_loop ova dirname (trailer tr) 100 (entries tr) fs with
      | (inl err, fs') => (Err err, fs')
      | (inr limit, fs') =>
          if limit <=? 0 then (Err ErrTarTooManyFiles, fs') else (Ok, fs')
      end
  end.

End ExtractOVA.

(** *** Specification vocabulary *)

(** The path an entry is written to. *)
Definition dest (dirname : string) (e : Entry) : string := Path.Join dirname (Name e).

(** The file an accepted entry leaves behind. *)
Definition file_of (e : Entry) : OS.Node := OS.File (OS.syscallMode (Mode e)) (Body e).

(** The destination after the entries [es] have all been written. *)
Definition write_entries (dirname : string) (es : list Entry) (fs : OS.FS) : OS.FS :=
  foldl (fun fs e => <[dest dirname e := file_of e]> fs) fs es.

(** A flat regular-file entry whose body can be read to its end. *)
Definition flat_regular (e : Entry) : Prop :=
  Path.Base (Name e) = Name e /\ OS.IsRegular (Mode e) = true /\ BodyErr e = None.

(** Entries that can all be extracted into [fs]: flat regular files whose
    destinations are pairwise distinct, not yet taken, and lie in a
    directory that exists. *)
Definition extractable (dirname : string) (es : list Entry) (fs : OS.FS) : Prop :=
  Forall flat_regular es /\
  NoDup (dest dirname <$> es) /\
  Forall (fun e => fs !! dest dirname e = None /\
                   fs !! Path.Dir (dest dirname e) = Some OS.Dir) es.

Global Instance flat_regular_dec e : Decision (flat_regular e).
Proof. unfold flat_regular. apply _. Defined.

Global Instance extractable_dec dirname es fs : Decision (extractable dirname es fs).
Proof. unfold extractable. apply _. Defined.

End Ova.

(** ** Patch application ([rdiff.Patch]) *)

Module RDiff.

(** [rsync.OpType] and [rsync.Operation].  [Data] is a Go slice: [None]
    is the [nil] slice, which [Patch] tells apart from an empty one. *)
Inductive OpType : Type := OpBlock | OpData | OpHash | OpBlockRange.

Record Operation : Type := mkOperation {
  Type_ : OpType;
  BlockIndex : Z;
  BlockIndexEnd : Z;
  Data : option bytes;
}.

(** The zero value of [rsync.Operation], which a receive on a closed and
    drained channel yields. *)
Definition zero_Operation : Operation :=
  {| Type_ := OpBlock; BlockIndex := 0; BlockIndexEnd := 0; Data := None |}.

(** What the decoding goroutine does with the rest of the delta: the
    operations it sends on [ops], the checksum records it sends on
    [hashOps], and the error [ReadOperations] returns. *)
Record Decoded : Type := mkDecoded {
  sent_ops : list Operation;
  sent_hashes : list Operation;
  decode_error : option Error;
}.

(** [hashOp := <-hashOps], executed after the decoder has returned and
    closed the channel: the first record sent, or the zero value. *)
Definition recv_hash (d : Decoded) : Operation :=
  match sent_hashes d with
  | op :: _ => op
  | [] => zero_Operation
  end.

(** [bytes.Equal] *)
Definition bytes_Equal (a b : bytes) : bool := bool_decide (a = b).

Section Patch.

(** The rsync library ([bitbucket.org/kardianos/rsync] and its [proto]
    package) and [crypto/md5], none of which is part of this repository.
    - [Header f] reads the delta header from the opened delta file: the
      block size and the unread rest, or an error;
    - [ReadOperations rest] decodes the rest of the delta;
    - [ApplyDelta bs basis ops] applies the operations: the bytes it
      wrote to the target (and to the hasher, when there is one) and
      the error it returns;
    - [md5sum] is [md5.New()] followed by [Sum(nil)] on the bytes
      written. *)
Variable Header : OS.Node -> Error + (Z * bytes).
Variable ReadOperations : bytes -> Decoded.
Variable ApplyDelta : Z -> OS.Node -> list Operation -> bytes * option Error.
Variable md5sum : bytes -> bytes.

(** [Patch(basis, delta, newfile, checkFile)].  The basis and the delta
    are read through descriptors opened before the target is created,
    so they are looked up again after [os.Create]: a target path equal
    to one of them is read back truncated. *)
Definition Patch (basis delta newfile : string) (checkFile : bool)
    (fs : OS.FS) : Outcome * OS.FS :=
  match OS.Open fs basis with
  | inl err => (Err err, fs)
  | inr _ =>
  match OS.Open fs delta with
  | inl err => (Err err, fs)
  | inr _ =>
  match OS.Create fs newfile with
  | inl err => (Err err, fs)
  | inr fs1 =>
  match fs1 !! basis, fs1 !! delta with
  | Some basisFile, Some deltaFile =>
      match Header deltaFile with
      | inl err =>
          (Err (match err with EOF => ErrUnexpectedEOF | _ => err end), fs1)
      | inr (blockSize, rest) =>
          let decoded := ReadOperations rest in
          let '(written, applyErr) := ApplyDelta blockSize basisFile (sent_ops decoded) in
          let fs2 := OS.append_file fs1 newfile written in
          match applyErr with
          | Some err => (Err err, fs2)
          | None =>
          match decode_error decoded with
          | Some err => (Err err, fs2)
          | None =>
              if negb checkFile then (Ok, fs2)
              else
                let hashOp := recv_hash decoded in
                match Data hashOp with
                | None => (Err NoTargetSumError, fs2)
                | Some sum =>
                    if negb (bytes_Equal sum (md5sum written))
                    then (Err HashNoMatchError, fs2)
                    else (Ok, fs2)
                end
          end
          end
      end
  | _, _ => (Err (ENOENT basis), fs1)   (* not reached: both were opened *)
  end
  end
  end
  end.

End Patch.

(** *** A small instance of the library, for evaluation

    The delta is one byte of block size followed by the literal data; a
    first data byte [x01] announces a 1-byte checksum record, [x00] none.
    The checksum of a byte string is its length modulo 256. *)
Definition toy_Header (f : OS.Node) : Error + (Z * bytes) :=
  match f with
  | OS.Dir => inl (ErrOther "read: is a directory")
  | OS.File _ [] => inl EOF
  | OS.File _ (b :: rest) => inr (Z.of_N (Byte.to_N b), rest)
  end.

Definition toy_md5sum (data : bytes) : bytes :=
  match Byte.of_N (N.of_nat (length data) mod 256) with
  | Some b => [b]
  | None => []
  end.

Definition toy_ReadOperations (rest : bytes) : Decoded :=
  match rest with
  | Byte.x01 :: sum :: lit =>
      {| sent_ops := [mkOperation OpData 0 0 (Some lit)];
         sent_hashes := [mkOperation OpHash 0 0 (Some [sum])];
         decode_error := None |}
  | _ :: lit =>
      {| sent_ops := [mkOperation OpData 0 0 (Some lit)];
         sent_hashes := [];
         decode_error := None |}
  | [] => {| sent_ops := []; sent_hashes := []; decode_error := None |}
  end.

Definition toy_ApplyDelta (bs : Z) (basis : OS.Node) (ops : list Operation)
    : bytes * option Error :=
  (concat (omap Data ops), None).

Definition toy_Patch := Patch toy_Header toy_ReadOperations toy_ApplyDelta toy_md5sum.

End RDiff.

(** ** Cooperative cancellation ([CancelReader], [CancelWriter]) *)

Module Chan.

(** A channel value is [nil] or a reference to a cell of the heap; copies
    of a channel share the cell.  The program never sends on [stop], so a
    cell only records whether the channel has been closed. *)
Inductive chan : Type := nil_chan | chan_at (addr : nat).

Abbreviation Heap := (gmap nat bool).

(** Whether [case <-c:] of a [select] with a [default] branch is taken: a
    receive succeeds at once exactly on a closed channel. *)
Definition closed (h : Heap) (c : chan) : bool :=
  match c with
  | nil_chan => false
  | chan_at a => bool_decide (h !! a = Some true)
  end.

(** [close(c)]: panics on a nil and on a closed channel. *)
Definition close (h : Heap) (c : chan) : string + Heap :=
  match c with
  | nil_chan => inl "close of nil channel"
  | chan_at a =>
      if closed h c then inl "close of closed channel"
      else inr (<[a := true]> h)
  end.

(** [make(chan struct{})] *)
Definition make (h : Heap) : chan * Heap :=
  let a := fresh (dom h) in (chan_at a, <[a := false]> h).

End Chan.

Module Cancel.

(** [io.Writer] and [io.Reader]: a call takes the stream to its next
    state.  [Read] is given [len(p)] and returns the bytes stored in [p]. *)
Class Writer (W : Type) := Write : W -> bytes -> W * (Z * option Error).
Class Reader (R : Type) := Read : R -> nat -> R * (bytes * option Error).

Record CancelWriter (W : Type) : Type := mkCancelWriter {
  cw_w : W;
  cw_stop : Chan.chan;
}.
Record CancelReader (R : Type) : Type := mkCancelReader {
  cr_r : R;
  cr_stop : Chan.chan;
}.
Arguments mkCancelWriter {W} _ _.
Arguments cw_w {W} _.
Arguments cw_stop {W} _.
Arguments mkCancelReader {R} _ _.
Arguments cr_r {R} _.
Arguments cr_stop {R} _.

(** [func (w *CancelWriter) Write(p []byte) (int, error)] *)
Definition CancelWriter_Write {W} `{Writer W} (h : Chan.Heap)
    (w : CancelWriter W) (p : bytes) : CancelWriter W * (Z * option Error) :=
  if Chan.closed h (cw_stop w) then (w, (0, Some ErrInterupt))
  else
    let '(w', r) := Write (cw_w w) p in
    (mkCancelWriter w' (cw_stop w), r).

(** [func (r *CancelReader) Read(p []byte) (int, error)] *)
Definition CancelReader_Read {R} `{Reader R} (h : Chan.Heap)
    (r : CancelReader R) (n : nat) : CancelReader R * (bytes * option Error) :=
  if Chan.closed h (cr_stop r) then (r, ([], Some ErrInterupt))
  else
    let '(r', res) := Read (cr_r r) n in
    (mkCancelReader r' (cr_stop r), res).

(** *** A program using one wrapped writer and one wrapped reader

    The calls a program can make on the wrappers, interleaved with
    [close] of a channel by whoever raises the signal.  A [close] that
    panics ends the program. *)
Inductive Call : Type :=
  | CallWrite (p : bytes)
  | CallRead (n : nat)
  | CallClose (c : Chan.chan).

Inductive Obs : Type :=
  | ObsWrite (n : Z) (err : option Error)
  | ObsRead (data : bytes) (err : option Error)
  | ObsClosed
  | ObsPanic (msg : string).

Record Sys (W R : Type) : Type := mkSys {
  heap : Chan.Heap;
  wr : CancelWriter W;
  rd : CancelReader R;
}.
Arguments mkSys {W R} _ _ _.
Arguments heap {W R} _.
Arguments wr {W R} _.
Arguments rd {W R} _.

Section Run.
Context {W R : Type} `{Writer W} `{Reader R}.

Definition step (s : Sys W R) (c : Call) : option (Sys W R) * Obs :=
  match c with
  | CallWrite p =>
      let '(w', (n, err)) := CancelWriter_Write (heap s) (wr s) p in
      (Some (mkSys (heap s) w' (rd s)), ObsWrite n err)
  | CallRead n =>
      let '(r', (data, err)) := CancelReader_Read (heap s) (rd s) n in
      (Some (mkSys (heap s) (wr s) r'), ObsRead data err)
  | CallClose c =>
      match Chan.close (heap s) c with
      | inr h' => (Some (mkSys h' (wr s) (rd s)), ObsClosed)
      | inl msg => (None, ObsPanic msg)
      end
  end.

(** The observations of a sequence of calls and the state it ends in
    (the state before the panic, when one ends it). *)
Fixpoint run (s : Sys W R) (cs : list Call) : list Obs * Sys W R :=
  match cs with
  | [] => ([], s)
  | c :: cs' =>
      match step s c with
      | (Some s', o) => let '(os, s'') := run s' cs' in (o :: os, s'')
      | (None, o) => ([o], s)
      end
  end.
End Run.

(** Whether an observation is acceptable once the channel of the writer
    ([ww]) or of the reader ([rr]) has been closed. *)
Definition interrupted (ww rr : bool) (o : Obs) : bool :=
  match o with
  | ObsWrite n err => negb ww || (bool_decide (n = 0) && bool_decide (err = Some ErrInterupt))
  | ObsRead data err => negb rr || (bool_decide (data = []) && bool_decide (err = Some ErrInterupt))
  | _ => true
  end.

(** Every write, resp. read, among the observations was interrupted. *)
Definition writes_interrupted (os : list Obs) : Prop :=
  Forall (fun o => forall k err, o = ObsWrite k err -> k = 0 /\ err = Some ErrInterupt) os.
Definition reads_interrupted (os : list Obs) : Prop :=
  Forall (fun o => forall data err, o = ObsRead data err ->
                     data = [] /\ err = Some ErrInterupt) os.

(** A stream that counts how often it is called. *)
Record Counter : Type := mkCounter { calls : nat }.
Global Instance Counter_Writer : Writer Counter :=
  fun c p => (mkCounter (S (calls c)), (Z.of_nat (length p), None)).
Global Instance Counter_Reader : Reader Counter :=
  fun c n => (mkCounter (S (calls c)), (replicate n Byte.x00, None)).

End Cancel.

(** ** The pipeline stages of [Config] *)

Module Pipeline.
Import OS.

Record Config : Type := mkConfig {
  Image : string;
  Stemcell : string;
  Manifest : string;
  Sha1sum : string;
  tmpdir : string;
  stop : Chan.chan;
}.

Definition set_Image (c : Config) (s : string) : Config :=
  mkConfig s (Stemcell c) (Manifest c) (Sha1sum c) (tmpdir c) (stop c).
Definition set_Stemcell (c : Config) (s : string) : Config :=
  mkConfig (Image c) s (Manifest c) (Sha1sum c) (tmpdir c) (stop c).
Definition set_Manifest (c : Config) (s : string) : Config :=
  mkConfig (Image c) (Stemcell c) s (Sha1sum c) (tmpdir c) (stop c).
Definition set_Sha1sum (c : Config) (s : string) : Config :=
  mkConfig (Image c) (Stemcell c) (Manifest c) s (tmpdir c) (stop c).
Definition set_tmpdir (c : Config) (s : string) : Config :=
  mkConfig (Image c) (Stemcell c) (Manifest c) (Sha1sum c) s (stop c).

(** The disk and the channel cells. *)
Record World : Type := mkWorld {
  fs : FS;
  chans : Chan.Heap;
}.

(** [func (c *Config) Cleanup()] *)
Definition Cleanup (c : Config) (fs : FS) : FS :=
  if decide (tmpdir c <> "") then RemoveAll fs (tmpdir c) else fs.

(** [func (c *Config) Stop()]: [close(c.stop)] under a deferred
    [c.Cleanup()], which also runs when [close] panics. *)
Definition Stop (c : Config) (w : World) : Outcome * World :=
  match Chan.close (chans w) (stop c) with
  | inr h' => (Ok, mkWorld (Cleanup c (fs w)) h')
  | inl msg => (Panic msg, mkWorld (Cleanup c (fs w)) (chans w))
  end.

(** [c := Config{stop: make(chan struct{})}] of [main]. *)
Definition new_Config (h : Chan.Heap) : Config * Chan.Heap :=
  let '(ch, h') := Chan.make h in (mkConfig "" "" "" "" "" ch, h').

(** What has become of the process: still running, left through
    [os.Exit], or brought down by a panic. *)
Inductive Process : Type :=
  | Running
  | Exited (code : Z)
  | Crashed (msg : string).

(** The goroutine of [main] that receives the signals:
    [[
      stopping := false
      for sig := range ch {
        if stopping { ...; os.Exit(1) }
        stopping = true
        ...
        c.Stop()
      }
    ]]
    The last component counts the calls of [c.Stop]. *)
Fixpoint signal_loop (c : Config) (stopping : bool) (sigs : list Z)
    (w : World) (stops : nat) : Process * World * nat :=
  match sigs with
  | [] => (Running, w, stops)
  | _ :: sigs' =>
      if stopping then (Exited 1, w, stops)
      else
        match Stop c w with
        | (Panic msg, w') => (Crashed msg, w', S stops)
        | (_, w') => signal_loop c true sigs' w' (S stops)
        end
  end.

Definition signal_handler (c : Config) (sigs : list Z) (w : World) :=
  signal_loop c false sigs w 0%nat.

(** [StemcellFilename] *)
Definition StemcellFilename (version : string) : string :=
  "bosh-stemcell-" +:+ version +:+ "-vsphere-esxi-windows2012R2-go_agent.tgz".

Definition nl : string := String "010"%char "".

(** [fmt.Sprintf(format, version, sha1)] for the manifest template. *)
Definition manifest_text (version sha1 : string) : string :=
  "---" +:+ nl +:+
  "name: bosh-vsphere-esxi-windows-2012R2-go_agent" +:+ nl +:+
  "version: " +:+ version +:+ nl +:+
  "sha1: " +:+ sha1 +:+ nl +:+
  "operating_system: windows2012R2" +:+ nl +:+
  "cloud_properties:" +:+ nl +:+
  "  infrastructure: vsphere" +:+ nl +:+
  "  hypervisor: esxi" +:+ nl.

(** An [*os.File] opened for writing, as an [io.Writer]. *)
Global Instance File_Writer : Cancel.Writer (FS * string) :=
  fun f p => ((append_file f.1 f.2 p, f.2), (Z.of_nat (length p), None)).

Section Stages.

(** The global [Version]; [ioutil.TempDir("", "ova2stemcell-")], which
    picks the name of the directory it creates; [compress/gzip];
    [archive/tar] (the archive of the named files, in order) and
    [crypto/sha1] printed with [%x]. *)
Variable Version : string.
Variable ioutil_TempDir : FS -> Error + string.
Variable gzip : bytes -> bytes.
Variable tar : list (string * Node) -> bytes.
Variable sha1hex : bytes -> string.

(** [func (c *Config) TempDir() (string, error)] *)
Definition TempDir (c : Config) (fs : FS) : (Error + string) * Config * FS :=
  if decide (tmpdir c <> "") then
    match Stat fs (tmpdir c) with
    | inl _ => (inl (ErrTempDirOpen (tmpdir c)), c, fs)
    | inr _ => (inr (tmpdir c), c, fs)
    end
  else
    match ioutil_TempDir fs with
    | inl err => (inl (ErrTempDirCreate err), c, fs)
    | inr name => (inr name, set_tmpdir c name, <[name := Dir]> fs)
    end.

(** [func (c *Config) WriteManifest() error] *)
Definition WriteManifest (c : Config) (fs : FS) : Outcome * Config * FS :=
  (* programming error - this should never happen... *)
  if decide (Manifest c <> "") then
    (Panic ("already created manifest: " +:+ Manifest c), c, fs)
  else
    match TempDir c fs with
    | (inl err, c1, fs1) => (Err err, c1, fs1)
    | (inr tmp, c1, fs1) =>
        let c2 := set_Manifest c1 (Path.Join tmp "stemcell.MF") in
        match OpenFile fs1 (Manifest c2) Ova.excl_flags 420 with
        | inl err => (Err (ErrManifestCreate (Manifest c2) err), c2, fs1)
        | inr fs2 =>
            (Ok, c2,
             append_file fs2 (Manifest c2)
               (bytes_of (manifest_text Version (Sha1sum c2))))
        end
    end.

(** [func (c *Config) AddTarFile(tr *tar.Writer, name string) error]:
    the file is read through [c.Reader(f)], whose first [Read] fails
    once the signal has been raised.  The signal is raised by another
    goroutine; its state is sampled once per stage. *)
Definition AddTarFile (c : Config) (w : World) (name : string)
    : Error + (string * Node) :=
  match Open (fs w) name with
  | inl err => inl err
  | inr f =>
      if Chan.closed (chans w) (stop c) then inl ErrInterupt
      else
        match f with
        | Dir => inl (EISDIR name)
        | File _ _ => inr (Path.Base name, f)
        end
  end.

(** [func (c *Config) CreateStemcell() error] *)
Definition CreateStemcell (c : Config) (w : World) : Outcome * Config * World :=
  (* programming errors - panic! *)
  if decide (Manifest c = "") then (Panic "CreateStemcell: empty manifest", c, w)
  else if decide (Image c = "") then (Panic "CreateStemcell: empty image", c, w)
  else
    match TempDir c (fs w) with
    | (inl err, c1, fs1) => (Err err, c1, mkWorld fs1 (chans w))
    | (inr tmp, c1, fs1) =>
        let c2 := set_Stemcell c1 (Path.Join tmp (StemcellFilename Version)) in
        match OpenFile fs1 (Stemcell c2) Ova.excl_flags 420 with
        | inl err => (Err err, c2, mkWorld fs1 (chans w))
        | inr fs2 =>
            let w2 := mkWorld fs2 (chans w) in
            let errorf (err : Error) :=
              (Err (ErrCreatingStemcell err), c2,
               mkWorld (Remove fs2 (Stemcell c2)) (chans w)) in
            match AddTarFile c2 w2 (Image c2) with
            | inl err => errorf err
            | inr image =>
            match AddTarFile c2 w2 (Manifest c2) with
            | inl err => errorf err
            | inr manifest =>
                (* tr.Close(); w.Close(): the archive reaches the file
                   through c.Writer(stemcell) *)
                let out := Cancel.mkCancelWriter (fs2, Stemcell c2) (stop c2) in
                match Cancel.CancelWriter_Write (chans w) out (gzip (tar [image; manifest])) with
                | (_, (_, Some err)) => errorf err
                | (out', (_, None)) => (Ok, c2, mkWorld (Cancel.cw_w out').1 (chans w))
                end
            end
            end
        end
    end.

(** [func (c *Config) CreateImageFromOVA(name string) error] *)
Definition CreateImageFromOVA (c : Config) (name : string) (w : World)
    : Outcome * Config * World :=
  match Open (fs w) name with
  | inl err => (Err (ErrOpeningOva name err), c, w)
  | inr _ =>
      match TempDir c (fs w) with
      | (inl err, c1, fs1) => (Err err, c1, mkWorld fs1 (chans w))
      | (inr tmp, c1, fs1) =>
          let c2 := set_Image c1 (Path.Join tmp "image") in
          match OpenFile fs1 (Image c2) Ova.excl_flags 420 with
          | inl err => (Err (ErrImageCreate (Image c2) err), c2, mkWorld fs1 (chans w))
          | inr fs2 =>
              let fail (err : Error) :=
                (Err (ErrImageWrite (Image c2) err), c2,
                 mkWorld (Remove fs2 (Image c2)) (chans w)) in
              match fs2 !! name with
              | Some (File _ data) =>
                  (* gzip.NewWriter(c.Writer(io.MultiWriter(h, image))) *)
                  let out := Cancel.mkCancelWriter (fs2, Image c2) (stop c2) in
                  match Cancel.CancelWriter_Write (chans w) out (gzip data) with
                  | (_, (_, Some err)) => fail err
                  | (out', (_, None)) =>
                      (Ok, set_Sha1sum c2 (sha1hex (gzip data)),
                       mkWorld (Cancel.cw_w out').1 (chans w))
                  end
              | _ => fail (EISDIR name)
              end
          end
      end
  end.

End Stages.

End Pipeline.

(** ** Editing the hardware description ([RemoveItemBlock]) *)

Module OVF.

(** Modelled from the spec: the two failures of block removal, named
    as in the table of [TestRemoveItemBlock]; their declarations are
    missing from the sources. *)
Inductive SurgeryError : Type :=
  | ErrElementNotFound
  | ErrMultipleElementsFound.

(** Modelled from the spec: [RemoveItemBlock] and the two error values
    are missing from the sources (only [TestRemoveItemBlock] and its
    table are there).  The design document describes the document as a
    text holding zero or more device blocks, a block being a contiguous,
    well-delimited substring addressed by an identifier, and requires
    the matching to follow the block boundaries.  The concrete syntax of
    a block is not given, so the document is taken in its structural
    form: the sequence of its pieces, each either text outside any block
    or a block with its identifier and its full delimited span; the
    document as a string is the concatenation of the pieces. *)
Inductive Piece : Type :=
  | Text (s : string)
  | Block (ident : string) (span : string).

Abbreviation Document := (list Piece).

Definition span_of (p : Piece) : string :=
  match p with
  | Text s => s
  | Block _ s => s
  end.

Fixpoint render (d : Document) : string :=
  match d with
  | [] => ""
  | p :: d' => span_of p +:+ render d'
  end.

Definition is_block (blockId : string) (p : Piece) : bool :=
  match p with
  | Block ident _ => bool_decide (ident = blockId)
  | Text _ => false
  end.

(** The blocks whose identifier matches. *)
Definition matching (blockId : string) (d : Document) : list Piece :=
  List.filter (is_block blockId) d.

(** The document without its first matching block. *)
Fixpoint remove_block (blockId : string) (d : Document) : Document :=
  match d with
  | [] => []
  | p :: d' => if is_block blockId p then d' else p :: remove_block blockId d'
  end.

(** Modelled from the spec: [RemoveItemBlock], missing from the sources
    ([RemoveBlock(document, blockId)] in the design document).  Every
    block whose identifier matches is located; none is
    [ErrElementNotFound], more than one is [ErrMultipleElementsFound],
    exactly one gives the document without that block's span. *)
Definition RemoveItemBlock (d : Document) (blockId : string) : SurgeryError + Document :=
  match matching blockId d with
  | [] => inl ErrElementNotFound
  | [_] => inr (remove_block blockId d)
  | _ :: _ :: _ => inl ErrMultipleElementsFound
  end.

End OVF.

(** ** Concrete inputs

    Small file systems, archives, deltas and documents on which the
    embedding is run. *)

Module Samples.
Import Tar.

(** [n] entries [file-0] ... [file-(n-1)]; the body of [file-i] is the
    decimal [i] and a newline, as in [testdata/tar]. *)
Definition numbered (i : nat) : Entry :=
  {| Name := "file-" +:+ pretty i;
     Mode := 420;
     Body := bytes_of (pretty i +:+ String "010"%char "");
     BodyErr := None |}.

Definition numbered_entries (n : nat) : list Entry := numbered <$> seq 0 n.

Definition reader_of (es : list Entry) : OS.Node -> Archive :=
  fun _ => {| entries := es; trailer := None |}.

Definition numbered_reader (n : nat) : OS.Node -> Archive :=
  reader_of (numbered_entries n).

(** An archive file and an empty destination directory. *)
Definition sample_fs : OS.FS :=
  <["/in/image.ova" := OS.File 420 []]>
    (<["/in" := OS.Dir]> (<["/dst" := OS.Dir]> ∅)).

Definition subdir_entry : Entry :=
  {| Name := "sub/file-1"; Mode := 420; Body := bytes_of "1"; BodyErr := None |}.
Definition symlink_entry : Entry :=
  {| Name := "link"; Mode := Z.lor OS.ModeSymlink 511; Body := []; BodyErr := None |}.

(** Two entries of the same name. *)
Definition twice_reader : OS.Node -> Archive :=
  reader_of [numbered 0; numbered 0].

(** A basis and a delta for the small library instance of [RDiff], and
    an empty directory for the result. *)
Definition patch_fs (delta : bytes) : OS.FS :=
  <["/in/basis" := OS.File 420 (bytes_of "AAAABBBBCCCC")]>
    (<["/in/delta" := OS.File 420 delta]>
       (<["/in" := OS.Dir]> (<["/out" := OS.Dir]> ∅))).

(** block size 4, a checksum record [x03], three literal bytes *)
Definition good_delta : bytes :=
  [Byte.x04; Byte.x01; Byte.x03; Byte.x41; Byte.x42; Byte.x43].
(** the same with a checksum record that does not fit *)
Definition bad_sum_delta : bytes :=
  [Byte.x04; Byte.x01; Byte.x09; Byte.x41; Byte.x42; Byte.x43].
(** no checksum record *)
Definition no_sum_delta : bytes :=
  [Byte.x04; Byte.x00; Byte.x41; Byte.x42; Byte.x43].

(** The same inputs with a file already at the target path. *)
Definition taken_fs : OS.FS :=
  <["/out/new" := OS.File 420 (bytes_of "precious")]> (patch_fs good_delta).

(** One channel, closed or open, shared by a counting writer and a
    counting reader. *)
Definition closed_heap : Chan.Heap := <[0%nat := true]> ∅.
Definition open_heap : Chan.Heap := <[0%nat := false]> ∅.
Definition counted_writer : Cancel.CancelWriter Cancel.Counter :=
  Cancel.mkCancelWriter (Cancel.mkCounter 0) (Chan.chan_at 0).
Definition counted_reader : Cancel.CancelReader Cancel.Counter :=
  Cancel.mkCancelReader (Cancel.mkCounter 0) (Chan.chan_at 0).
Definition some_calls : list Cancel.Call :=
  [Cancel.CallWrite (bytes_of "abc"); Cancel.CallRead 4; Cancel.CallWrite (bytes_of "d")].

(** The [Config] of [main] in an empty world, and three signals. *)
Definition fresh_config : Pipeline.Config := (Pipeline.new_Config ∅).1.
Definition fresh_world : Pipeline.World :=
  Pipeline.mkWorld (<["/tmp" := OS.Dir]> ∅) (Pipeline.new_Config ∅).2.
Definition some_signals : list Z := [2; 15; 2].

Definition sample_TempDir : OS.FS -> Error + string :=
  fun _ => inr "/tmp/ova2stemcell-1".

(** A [Config] whose manifest has been written. *)
Definition written_config : Pipeline.Config :=
  Pipeline.mkConfig "" "" "/tmp/ova2stemcell-1/stemcell.MF" "da39a3"
    "/tmp/ova2stemcell-1" (Chan.chan_at 0).

(** A workspace in which the manifest path is already taken. *)
Definition busy_fs : OS.FS :=
  <["/tmp/w/stemcell.MF" := OS.File 420 (bytes_of "old")]> (<["/tmp/w" := OS.Dir]> ∅).
Definition busy_config : Pipeline.Config :=
  Pipeline.mkConfig "" "" "" "da39a3" "/tmp/w" (Chan.chan_at 0).

(** A [Config] whose workspace is [/out]. *)
Definition out_config : Pipeline.Config :=
  Pipeline.mkConfig "" "" "" "" "/out" (Chan.chan_at 0).

(** A description with a disk, one network adapter and a trailer. *)
Definition sample_ovf : OVF.Document :=
  [OVF.Text "<Section>";
   OVF.Block "scsi0" "<Item>scsi0</Item>";
   OVF.Text (String "010"%char "  ");
   OVF.Block "ethernet0" "<Item>ethernet0</Item>";
   OVF.Text (String "010"%char "</Section>")].

End Samples.

(** ** The files of an OVF package ([ValidateOVFNames], [ValidateOVAFile]) *)

Module Names.
Import Tar.

(** [filepath.Ext]: the scan
    [for i := len(path) - 1; i >= 0 && !os.IsPathSeparator(path[i]); i--]
    over the path read backwards; [acc] holds [path[i+1:]]. *)
Fixpoint ext_scan (rev_path acc : list ascii) : string :=
  match rev_path with
  | [] => ""
  | c :: rest =>
      if Path.IsPathSeparator c then ""
      else if Ascii.eqb c "." then string_of_list_ascii (c :: acc)
      else ext_scan rest (c :: acc)
  end.

Definition Ext (path : string) : string :=
  ext_scan (reverse (list_ascii_of_string path)) [].

(** [strings.Join] *)
Fixpoint strings_Join (a : list string) (sep : string) : string :=
  match a with
  | [] => ""
  | [x] => x
  | x :: a' => x +:+ sep +:+ strings_Join a' sep
  end.

(** A Go [int] is 64 bits wide: the result of [++] wraps around. *)
Definition int_wrap (z : Z) : Z := (z + 2 ^ 63) mod 2 ^ 64 - 2 ^ 63.

(** [exts[k]]: a missing key reads as 0. *)
Definition exts_get (exts : gmap string Z) (k : string) : Z := default 0 (exts !! k).

(** [exts := make(map[string]int); for _, s := range names { exts[filepath.Ext(s)]++ }] *)
Definition exts_of (names : list string) : gmap string Z :=
  foldl (fun exts s => <[Ext s := int_wrap (exts_get exts (Ext s) + 1)]> exts) ∅ names.

(** The closure [byExt]: the names with the extension, for the messages. *)
Definition byExt (names : list string) (ext : string) : string :=
  strings_Join (List.filter (fun s => bool_decide (Ext s = ext)) names) ", ".

Inductive NamesError : Type :=
  | ErrMissingOvf                       (* "missing .ovf file (one is required)" *)
  | ErrMultipleOvf (files : string)     (* "multiple .ovf files (expected one): %s" *)
  | ErrMultipleMf (files : string)      (* "multiple .mf files (expected one or zero): %s" *)
  | ErrMultipleCert (files : string).   (* "multiple .cert files (expected one or zero): %s" *)

Global Instance NamesError_eq_dec : EqDecision NamesError.
Proof. solve_decision. Defined.

(** [func ValidateOVFNames(names []string) error]; [None] is [nil]. *)
Definition ValidateOVFNames (names : list string) : option NamesError :=
  let exts := exts_of names in
  (* minimal check for required files *)
  let ovf :=
    let n := exts_get exts ".ovf" in
    if negb (n =? 1) then
      if n =? 0 then Some ErrMissingOvf
      else if n >? 1 then Some (ErrMultipleOvf (byExt names ".ovf"))
      else None
    else None in
  match ovf with
  | Some err => Some err
  | None =>
      if exts_get exts ".mf" >? 1 then Some (ErrMultipleMf (byExt names ".mf"))
      else if exts_get exts ".cert" >? 1 then Some (ErrMultipleCert (byExt names ".cert"))
      else None
  end.

Inductive OvaError : Type :=
  | ErrOvaOpen (name : string) (e : Error)        (* "opening ova file (%s): %s" *)
  | ErrOvaInvalid (name : string) (e : Error)     (* "invalid ova file (%s): %s" *)
  | ErrOvaNames (name : string) (e : NamesError). (* "ova (%s): %s" *)

Global Instance OvaError_eq_dec : EqDecision OvaError.
Proof. solve_decision. Defined.

(** The loop
    [[
      for err == nil {
        h, err = tr.Next()
        if h != nil { names = append(names, h.Name) }
      }
    ]]
    of [ValidateOVAFile]: the names of the headers and the error that
    ends the loop ([eof] for the end of the archive, [None] being
    [io.EOF]).  The bodies are not read: [Next] skips what is left of the
    entry before, so a body that cannot be read to its end makes the
    [Next] that follows it fail with that error. *)
Fixpoint next_names (es : list Entry) (eof : option Error) : list string * Error :=
  match es with
  | [] => ([], default EOF eof)
  | e :: es' =>
      match BodyErr e with
      | Some err => ([Name e], err)
      | None => let '(names, err) := next_names es' eof in (Name e :: names, err)
      end
  end.

Section ValidateOVAFile.

(** [tar.NewReader] applied to the opened archive file. *)
Variable tarNewReader : OS.Node -> Archive.

(** [func ValidateOVAFile(name string) error] *)
Definition ValidateOVAFile (name : string) (fs : OS.FS) : option OvaError :=
  match OS.Open fs name with
  | inl err => Some (ErrOvaOpen name err)
  | inr f =>
      let tr := tarNewReader f in
      let '(names, err) := next_names (entries tr) (trailer tr) in
      if negb (bool_decide (err = EOF)) then Some (ErrOvaInvalid name err)
      else
        match ValidateOVFNames names with
        | Some err => Some (ErrOvaNames name err)
        | None => None
        end
  end.

End ValidateOVAFile.

(** *** Specification vocabulary *)

(** How many of the names have the extension. *)
Definition count_ext (ext : string) (names : list string) : nat :=
  length (List.filter (fun s => bool_decide (Ext s = ext)) names).

End Names.

(** ** More of [Config]: its wrappers and the image of an OVF directory *)

Module Stages.
Import OS Pipeline.

(** [func (c *Config) Writer(w io.Writer) *CancelWriter] *)
Definition Config_Writer {W : Type} (c : Config) (w : W) : Cancel.CancelWriter W :=
  Cancel.mkCancelWriter w (stop c).

(** [func (c *Config) Reader(r io.Reader) *CancelReader] *)
Definition Config_Reader {R : Type} (c : Config) (r : R) : Cancel.CancelReader R :=
  Cancel.mkCancelReader r (stop c).

(** The errors of [CreateImageFromOVF] that [Error] does not have; the
    others are returned as they are. *)
Inductive OvfError : Type :=
  | ErrOvfDirectory (dirname : string) (e : Error)
      (* "ovf directory (%s): %s" *)
  | ErrOvfAddingFile (dirname path : string) (e : Error)
      (* "adding file (%s) to image (%s) archive: %s" *)
  | ErrOvfCreating (dirname : string) (e : Error)
      (* "creating ova from directory (%s): %s" *)
  | ErrOvfOther (e : Error).

Global Instance OvfError_eq_dec : EqDecision OvfError.
Proof. solve_decision. Defined.

(** The loop
    [[
      for _, fi := range fis {
        path := filepath.Join(dirname, fi.Name())
        if err := c.AddTarFile(tr, path); err != nil { return errorf(...) }
      }
    ]]
    : the files added to the archive, or the first path that fails with
    its error. *)
Fixpoint add_files (c : Config) (w : World) (dirname : string) (names : list string)
    : (string * Error) + list (string * Node) :=
  match names with
  | [] => inr []
  | name :: names' =>
      let path := Path.Join dirname name in
      match AddTarFile c w path with
      | inl err => inl (path, err)
      | inr f =>
          match add_files c w dirname names' with
          | inl e => inl e
          | inr files => inr (f :: files)
          end
      end
  end.

Section FromOVF.

(** [ioutil.TempDir]; [ioutil.ReadDir], which gives the names in a
    directory sorted by name; [compress/gzip]; [archive/tar] and
    [crypto/sha1] printed with [%x], as for the other stages. *)
Variable ioutil_TempDir : FS -> Error + string.
Variable ioutil_ReadDir : FS -> string -> Error + list string.
Variable gzip : bytes -> bytes.
Variable tar : list (string * Node) -> bytes.
Variable sha1hex : bytes -> string.

(** [func (c *Config) CreateImageFromOVF(dirname string) error]; [None]
    is [nil].  The archive goes to the hash and, through
    [gzip.NewWriter(c.Writer(image))], to the file:
    [tr := tar.NewWriter(io.MultiWriter(h, w))]. *)
Definition CreateImageFromOVF (c : Config) (dirname : string) (w : World)
    : option OvfError * Config * World :=
  match ioutil_ReadDir (fs w) dirname with
  | inl err => (Some (ErrOvfDirectory dirname err), c, w)
  | inr fis =>
      match TempDir ioutil_TempDir c (fs w) with
      | (inl err, c1, fs1) => (Some (ErrOvfOther err), c1, mkWorld fs1 (chans w))
      | (inr tmp, c1, fs1) =>
          let c2 := set_Image c1 (Path.Join tmp "image") in
          match OpenFile fs1 (Image c2) Ova.excl_flags 420 with
          | inl err =>
              (Some (ErrOvfOther (ErrImageCreate (Image c2) err)), c2,
               mkWorld fs1 (chans w))
          | inr fs2 =>
              let w2 := mkWorld fs2 (chans w) in
              let errorf (e : OvfError) :=
                (Some e, c2, mkWorld (Remove fs2 (Image c2)) (chans w)) in
              match add_files c2 w2 dirname fis with
              | inl (path, err) => errorf (ErrOvfAddingFile dirname path err)
              | inr files =>
                  (* tr.Close(); w.Close() *)
                  let out := Config_Writer c2 (fs2, Image c2) in
                  match Cancel.CancelWriter_Write (chans w) out (gzip (tar files)) with
                  | (_, (_, Some err)) => errorf (ErrOvfCreating dirname err)
                  | (out', (_, None)) =>
                      (None, set_Sha1sum c2 (sha1hex (tar files)),
                       mkWorld (Cancel.cw_w out').1 (chans w))
                  end
              end
          end
      end
  end.

End FromOVF.

End Stages.

(** ** Validation of the command line *)

Module Flags.
Import OS.

(** The errors of the validation functions, one constructor per
    message. *)
Inductive FlagError : Type :=
  | ErrStat (e : Error)                     (* the error of [os.Stat], as it is *)
  | ErrNotRegular (name : string)           (* "not a regular file: %s" *)
  | ErrNoInput      (* "must specify either the [vhd] or [delta] flag" *)
  | ErrBothInputs   (* "both [vhd] and [delta] flags provided - only one may be defined" *)
  | ErrExtraArguments (args : string)       (* "extra arguments: %s\n" *)
  | ErrInvalidVhd (e : FlagError)           (* "invalid [vhd]: %s" *)
  | ErrInvalidDelta (e : FlagError)         (* "invalid [delta]: %s" *)
  | ErrMissingVhd                           (* "missing required argument 'vhd'" *)
  | ErrMissingDelta                         (* "missing required argument 'delta'" *)
  | ErrMissingOutput                        (* "missing required argument 'output'" *)
  | ErrMissingVersion                       (* "missing required argument 'version'" *)
  | ErrInvalidVersion (s : string)
      (* "invalid version (%s) expected format [NUMBER].[NUMBER]" *)
  | ErrOutputOpen (dirname : string) (e : Error)
      (* "error opening output directory (%s): %s\n" *)
  | ErrOutputNotDir (dirname : string)      (* "output argument (%s): is not a directory\n" *)
  | ErrStemcellExists (name : string).
      (* "file (%s) already exists - refusing to overwrite" *)

(** [FileInfo.IsDir] and [FileInfo.Mode().IsRegular] of what [os.Stat]
    returns. *)
Definition FileInfo_IsDir (fi : Node) : bool :=
  match fi with Dir => true | File _ _ => false end.
Definition FileInfo_IsRegular (fi : Node) : bool :=
  match fi with Dir => false | File _ _ => true end.

(** [os.IsNotExist]; [None] is the [nil] error. *)
Definition IsNotExist (err : option Error) : bool :=
  match err with
  | Some (ENOENT _) => true
  | _ => false
  end.

(** [func validFile(name string) error] *)
Definition validFile (fs : FS) (name : string) : option FlagError :=
  match Stat fs name with
  | inl err => Some (ErrStat err)
  | inr fi =>
      if negb (FileInfo_IsRegular fi) then Some (ErrNotRegular name) else None
  end.

(** [func ValidateInputFlags(vhd, delta string) error] of [main.go];
    [args] is [flag.Args()]. *)
Definition ValidateInputFlags (args : list string) (vhd delta : string) (fs : FS)
    : option FlagError :=
  if bool_decide (vhd = "") && bool_decide (delta = "") then Some ErrNoInput
  else if negb (bool_decide (vhd = "")) && negb (bool_decide (delta = ""))
  then Some ErrBothInputs
  (* check for extra flags *)
  else if negb (length args =? 0)%nat
  then Some (ErrExtraArguments (Names.strings_Join args ", "))
  else
    match validFile fs vhd with
    | Some err => Some (ErrInvalidVhd err)
    | None =>
        match validFile fs delta with
        | Some err => Some (ErrInvalidDelta err)
        | None => None
        end
    end.

(** *** The pattern [^\d{1,}.\d{1,}$]

    [regexp] reads the string rune by rune, as [utf8.DecodeRuneInString]
    delivers them: a byte sequence that is no valid encoding counts as
    one rune of one byte. *)

Definition code (c : ascii) : N := N_of_ascii c.

Definition in_range (lo hi : N) (c : ascii) : bool :=
  ((lo <=? code c) && (code c <=? hi))%N.

(** [\d]: an ASCII digit. *)
Definition is_digit (c : ascii) : bool := in_range 48 57 c.

(** The number of bytes of the first rune of [s]. *)
Definition rune_width (s : list ascii) : nat :=
  match s with
  | [] => 0
  | c0 :: rest =>
      if (code c0 <? 128)%N then 1                       (* ASCII *)
      else if (code c0 <? 194)%N then 1                  (* 0x80-0xC1: invalid *)
      else if (code c0 <? 224)%N then                    (* 0xC2-0xDF: two bytes *)
        match rest with
        | c1 :: _ => if in_range 128 191 c1 then 2 else 1
        | _ => 1
        end
      else if (code c0 <? 240)%N then                    (* 0xE0-0xEF: three bytes *)
        let lo := if (code c0 =? 224)%N then 160%N else 128%N in
        let hi := if (code c0 =? 237)%N then 159%N else 191%N in
        match rest with
        | c1 :: c2 :: _ =>
            if in_range lo hi c1 && in_range 128 191 c2 then 3 else 1
        | _ => 1
        end
      else if (code c0 <? 245)%N then                    (* 0xF0-0xF4: four bytes *)
        let lo := if (code c0 =? 240)%N then 144%N else 128%N in
        let hi := if (code c0 =? 244)%N then 143%N else 191%N in
        match rest with
        | c1 :: c2 :: c3 :: _ =>
            if in_range lo hi c1 && in_range 128 191 c2 && in_range 128 191 c3
            then 4 else 1
        | _ => 1
        end
      else 1                                             (* 0xF5-0xFF: invalid *)
  end.

(** [\d{1,}] followed by what [k] accepts. *)
Fixpoint digits_then (k : list ascii -> bool) (s : list ascii) : bool :=
  match s with
  | c :: s' => is_digit c && (k s' || digits_then k s')
  | [] => false
  end.

(** [.] followed by what [k] accepts: any one rune but a newline. *)
Definition any_then (k : list ascii -> bool) (s : list ascii) : bool :=
  match s with
  | c :: _ => negb (Ascii.eqb c "010") && k (drop (rune_width s) s)
  | [] => false
  end.

(** [$]: the end of the text. *)
Definition end_of_text (s : list ascii) : bool :=
  match s with [] => true | _ => false end.

(** [regexp.MustCompile(`^\d{1,}.\d{1,}$`).MatchString(s)] *)
Definition version_MatchString (s : string) : bool :=
  digits_then (any_then (digits_then end_of_text)) (list_ascii_of_string s).

(** [func validateVersion(s string) error] *)
Definition validateVersion (s : string) : option FlagError :=
  if bool_decide (s = "") then Some ErrMissingVersion
  else if negb (version_MatchString s) then Some (ErrInvalidVersion s)
  else None.

(** The closure [add] of [ValidateFlags], applied when [b] holds. *)
Definition add_if (b : bool) (err : FlagError) (errs : list FlagError)
    : list FlagError :=
  if b then errs ++ [err] else errs.

Definition add_opt (err : option FlagError) (wrap : FlagError -> FlagError)
    (errs : list FlagError) : list FlagError :=
  match err with
  | Some e => errs ++ [wrap e]
  | None => errs
  end.

(** [func ValidateFlags() []error]; the globals [VHDFile], [DeltaFile],
    [OutputDir] and [Version] and [flag.Args()] are arguments.  The
    result is the list of errors, or the message of the panic: when
    [os.Stat(OutputDir)] fails, [fi] is [nil] and [fi.IsDir()], which
    is called all the same, dereferences it. *)
Definition ValidateFlags (args : list string)
    (VHDFile DeltaFile OutputDir Version : string) (fs : FS)
    : string + list FlagError :=
  let errs := [] in
  (* check for extra flags *)
  let errs := add_if (negb (length args =? 0)%nat)
                (ErrExtraArguments (Names.strings_Join args ", ")) errs in
  let errs := add_if (bool_decide (VHDFile = "")) ErrMissingVhd errs in
  let errs := add_opt (validFile fs VHDFile) ErrInvalidVhd errs in
  let errs := add_if (bool_decide (DeltaFile = "")) ErrMissingDelta errs in
  let errs := add_opt (validFile fs DeltaFile) ErrInvalidDelta errs in
  let errs := add_if (bool_decide (OutputDir = "")) ErrMissingOutput errs in
  match Stat fs OutputDir with
  | inl err =>
      let errs := errs ++ [ErrOutputOpen OutputDir err] in
      (* fi.IsDir() on the nil FileInfo: [errs] is lost *)
      inl "runtime error: invalid memory address or nil pointer dereference"
  | inr fi =>
      let errs := add_if (negb (FileInfo_IsDir fi)) (ErrOutputNotDir OutputDir) errs in
      let errs := add_opt (validateVersion Version) (fun e => e) errs in
      let name := Path.Join OutputDir (Pipeline.StemcellFilename Version) in
      let err := match Stat fs name with inl err => Some err | inr _ => None end in
      let errs := add_if (negb (IsNotExist err)) (ErrStemcellExists name) errs in
      inr errs
  end.

End Flags.

(** ** The run of the program ([realMain]) *)

Module Main.
Import OS Pipeline.

Section realMain.

(** The rsync library and [crypto/md5], as for [rdiff.Patch]; the
    globals [Version] and [OutputDir]; [ioutil.TempDir], [compress/gzip]
    and [archive/tar], as for the stages. *)
Variable Header : Node -> Error + (Z * bytes).
Variable ReadOperations : bytes -> RDiff.Decoded.
Variable ApplyDelta : Z -> Node -> list RDiff.Operation -> bytes * option Error.
Variable md5sum : bytes -> bytes.
Variable Version : string.
Variable OutputDir : string.
Variable ioutil_TempDir : FS -> Error + string.
Variable gzip : bytes -> bytes.
Variable tar : list (string * Node) -> bytes.

(** What is not in the sources or not in the program:
    - [VMXTemplate(filename, w)], whose file is missing from the
      sources: the bytes it writes to [w] and the error it returns;
    - [ConvertVMX2OVA(vmx, ova)], which runs the external [ovftool]:
      the error it returns and what the tool has done to the disk;
    - [os.Mkdir] and [os.Rename]. *)
Variable VMXTemplate : string -> bytes * option Error.
Variable ConvertVMX2OVA : string -> string -> FS -> option Error * FS.
Variable os_Mkdir : FS -> string -> Error + FS.
Variable os_Rename : FS -> string -> string -> Error + FS.

(** [func realMain(vhd, delta, version string, c *Config) error] *)
Definition realMain (vhd delta version : string) (c : Config) (w : World)
    : Outcome * Config * World :=
  (* PATCH HERE *)
  match TempDir ioutil_TempDir c (fs w) with
  | (inl err, c1, fs1) => (Err err, c1, mkWorld fs1 (chans w))
  | (inr tmpdir, c1, fs1) =>
      let patchedVMDK := Path.Join tmpdir "image.vmdk" in
      match RDiff.Patch Header ReadOperations ApplyDelta md5sum
              vhd delta patchedVMDK true fs1 with
      | (Err err, fs2) => (Err err, c1, mkWorld fs2 (chans w))
      | (Panic msg, fs2) => (Panic msg, c1, mkWorld fs2 (chans w))
      | (Ok, fs2) =>
          let vmxPath := Path.Join tmpdir "image.vmx" in
          match OpenFile fs2 vmxPath Ova.excl_flags 420 with
          | inl err => (Err err, c1, mkWorld fs2 (chans w))
          | inr fs3 =>
              let '(text, templateErr) := VMXTemplate patchedVMDK in
              let fs4 := append_file fs3 vmxPath text in
              match templateErr with
              | Some err => (Err err, c1, mkWorld fs4 (chans w))
              | None =>
                  let ovaPath := Path.Join tmpdir "image.ova" in
                  match ConvertVMX2OVA vmxPath ovaPath fs4 with
                  | (Some err, fs5) => (Err err, c1, mkWorld fs5 (chans w))
                  | (None, fs5) =>
                      let ovfDir := Path.Join tmpdir "ovf" in
                      (* os.Mkdir(ovfDir, 0755): the error is dropped *)
                      let fs6 := match os_Mkdir fs5 ovfDir with
                                 | inr fs' => fs'
                                 | inl _ => fs5
                                 end in
                      match WriteManifest Version ioutil_TempDir c1 fs6 with
                      | (Err err, c2, fs7) => (Err err, c2, mkWorld fs7 (chans w))
                      | (Panic msg, c2, fs7) => (Panic msg, c2, mkWorld fs7 (chans w))
                      | (Ok, c2, fs7) =>
                          match CreateStemcell Version ioutil_TempDir gzip tar
                                  c2 (mkWorld fs7 (chans w)) with
                          | (Err err, c3, w8) => (Err err, c3, w8)
                          | (Panic msg, c3, w8) => (Panic msg, c3, w8)
                          | (Ok, c3, w8) =>
                              let stemcellPath :=
                                Path.Join OutputDir (Path.Base (Stemcell c3)) in
                              match os_Rename (fs w8) (Stemcell c3) stemcellPath with
                              | inl err => (Err err, c3, w8)
                              | inr fs9 => (Ok, c3, mkWorld fs9 (chans w8))
                              end
                          end
                      end
                  end
              end
          end
      end
  end.

End realMain.

End Main.

(** ** The patch on open streams ([main.Patch], [ApplyPatch]) *)

Module Apply.
Import OS RDiff.

(** The errors [ApplyPatch] wraps. *)
Inductive ApplyError : Type :=
  | ErrOpeningVhd (e : Error)       (* "opening [vhd] file: %s" *)
  | ErrOpeningDelta (e : Error)     (* "opening [delta] file: %s" *)
  | ErrGzipReader (e : Error)       (* "wrapping [delta] in gzip reader: %s" *)
  | ErrCreatingVmdk (e : Error)     (* "creating [vmdk] file: %s" *)
  | ErrPatchingFile (e : Error).    (* "patching file: %s" *)

Global Instance ApplyError_eq_dec : EqDecision ApplyError.
Proof. solve_decision. Defined.

Section Patch.

(** The rsync library and [crypto/md5], as for [rdiff.Patch]: [Header]
    reads from the delta it is given, here any [io.Reader]. *)
Variable Header : Node -> Error + (Z * bytes).
Variable ReadOperations : bytes -> Decoded.
Variable ApplyDelta : Z -> Node -> list Operation -> bytes * option Error.
Variable md5sum : bytes -> bytes.

(** [func Patch(basis io.ReadSeeker, delta io.Reader, newfile io.Writer) error]
    of package [main]: the bytes written to [newfile] and the error
    returned ([None] is [nil]).  The checksum is always verified. *)
Definition Patch (basis delta : Node) : bytes * option Error :=
  match Header delta with
  | inl err => ([], Some (match err with EOF => ErrUnexpectedEOF | _ => err end))
  | inr (bs, rest) =>
      let decoded := ReadOperations rest in
      (* apply patch *)
      let '(written, applyErr) := ApplyDelta bs basis (sent_ops decoded) in
      match applyErr with
      | Some err => (written, Some err)
      | None =>
      match decode_error decoded with
      | Some err => (written, Some err)
      | None =>
          (* check hash *)
          let hashOp := recv_hash decoded in
          match Data hashOp with
          | None => (written, Some NoTargetSumError)
          | Some sum =>
              if negb (bytes_Equal sum (md5sum written))
              then (written, Some HashNoMatchError)
              else (written, None)
          end
      end
      end
  end.

(** The global [GzipPatch], and [gzip.NewReader] on the opened delta:
    the error it returns, or the reader of the decompressed bytes, which
    [Header] and [ReadOperations] then read like a file.  Damage that
    shows only in the middle of the compressed data is outside the
    model. *)
Variable GzipPatch : bool.
Variable gzip_NewReader : Node -> Error + Node.

(** [func ApplyPatch(vhd, delta, vmdk string) error]; [None] is [nil]. *)
Definition ApplyPatch (vhd delta vmdk : string) (fs : FS) : option ApplyError * FS :=
  (* vhd file *)
  match Open fs vhd with
  | inl err => (Some (ErrOpeningVhd err), fs)
  | inr fv =>
  (* delta file *)
  match Open fs delta with
  | inl err => (Some (ErrOpeningDelta err), fs)
  | inr fd =>
  (* optionally wrap with gzip reader *)
  match (if GzipPatch then gzip_NewReader fd else inr fd) with
  | inl err => (Some (ErrGzipReader err), fs)
  | inr wd =>
  (* vmdk file *)
  match OpenFile fs vmdk Ova.excl_flags 420 with
  | inl err => (Some (ErrCreatingVmdk err), fs)
  | inr fs1 =>
      let '(written, err) := Patch fv wd in
      let fs2 := append_file fs1 vmdk written in
      match err with
      | Some e => (Some (ErrPatchingFile e), fs2)
      | None => (None, fs2)
      end
  end
  end
  end
  end.

End Patch.

End Apply.

(** ** More concrete inputs *)

Module MoreSamples.
Import Tar Samples.

(** An archive that breaks off after its second entry. *)
Definition broken_reader : OS.Node -> Archive :=
  fun _ => {| entries := [numbered 0; numbered 1]; trailer := Some ErrUnexpectedEOF |}.

(** An entry whose body ends early. *)
Definition short_entry : Entry :=
  {| Name := "disk.vmdk"; Mode := 420; Body := bytes_of "part";
     BodyErr := Some ErrUnexpectedEOF |}.

(** The three files of a small OVF package, as an archive. *)
Definition package_entries : list Entry :=
  [ {| Name := "image.ovf"; Mode := 420; Body := bytes_of "<Envelope/>"; BodyErr := None |};
    {| Name := "image.mf"; Mode := 420; Body := bytes_of "SHA1(image.ovf)= 00";
       BodyErr := None |};
    {| Name := "image-disk1.vmdk"; Mode := 420; Body := bytes_of "KDMV"; BodyErr := None |} ].

Definition package_reader : OS.Node -> Archive := reader_of package_entries.

(** A workspace that holds an image and its manifest, and the [Config]
    that names them. *)
Definition staged_fs : OS.FS :=
  <["/tmp/w/stemcell.MF" := OS.File 420 (bytes_of "manifest")]>
    (<["/tmp/w/image" := OS.File 420 (bytes_of "image")]>
       (<["/tmp/w" := OS.Dir]> ∅)).
Definition staged_config : Pipeline.Config :=
  Pipeline.mkConfig "/tmp/w/image" "" "/tmp/w/stemcell.MF" "da39a3" "/tmp/w"
    (Chan.chan_at 0).

(** Small stand-ins for [gzip], [tar] and [sha1], for evaluation: a
    one-byte header, the names and bytes of the files one after the
    other, and the length in decimal. *)
Definition toy_gzip (data : bytes) : bytes := Byte.x1f :: data.
Definition toy_tar (files : list (string * OS.Node)) : bytes :=
  concat ((fun f => bytes_of f.1 ++
                    match f.2 with OS.File _ d => d | OS.Dir => [] end) <$> files).
Definition toy_sha1hex (data : bytes) : string := pretty (length data).

(** An archive file with some bytes, next to the directory for the
    temporary files. *)
Definition ova_fs : OS.FS :=
  <["/in/image.ova" := OS.File 420 (bytes_of "ova")]>
    (<["/in" := OS.Dir]> (<["/tmp" := OS.Dir]> ∅)).
Definition ova_world : Pipeline.World := Pipeline.mkWorld ova_fs open_heap.
Definition ova_config : Pipeline.Config :=
  Pipeline.mkConfig "" "" "" "" "" (Chan.chan_at 0).

(** The three stages of [main] on that archive, one after the other. *)
Definition ova_image_run : Outcome * Pipeline.Config * Pipeline.World :=
  Pipeline.CreateImageFromOVA sample_TempDir toy_gzip toy_sha1hex
    ova_config "/in/image.ova" ova_world.
Definition ova_manifest_run : Outcome * Pipeline.Config * OS.FS :=
  Pipeline.WriteManifest "1.2" sample_TempDir
    ova_image_run.1.2 (Pipeline.fs ova_image_run.2).
Definition ova_stemcell_run : Outcome * Pipeline.Config * Pipeline.World :=
  Pipeline.CreateStemcell "1.2" sample_TempDir toy_gzip toy_tar
    ova_manifest_run.1.2
    (Pipeline.mkWorld ova_manifest_run.2 (Pipeline.chans ova_image_run.2)).

(** A directory with the two files of an OVF package, and its listing. *)
Definition ovf_fs : OS.FS :=
  <["/in/pkg/image.ovf" := OS.File 420 (bytes_of "<Envelope/>")]>
    (<["/in/pkg/disk1.vmdk" := OS.File 420 (bytes_of "KDMV")]>
       (<["/in/pkg" := OS.Dir]> (<["/tmp" := OS.Dir]> ∅))).
Definition ovf_ReadDir : OS.FS -> string -> Error + list string :=
  fun _ _ => inr ["disk1.vmdk"; "image.ovf"].

(** Stand-ins for the parts of [realMain] that lie outside the program:
    a template of three bytes, a conversion tool that writes the archive
    it is asked for, and a disk on which making a directory and renaming
    a file just succeed. *)
Definition toy_VMXTemplate : string -> bytes * option Error :=
  fun _ => (bytes_of "vmx", None).
Definition toy_ConvertVMX2OVA : string -> string -> OS.FS -> option Error * OS.FS :=
  fun _ ova fs => (None, <[ova := OS.File 420 (bytes_of "ova")]> fs).
Definition toy_Mkdir : OS.FS -> string -> Error + OS.FS :=
  fun fs path => inr (<[path := OS.Dir]> fs).
Definition toy_Rename : OS.FS -> string -> string -> Error + OS.FS :=
  fun fs old new =>
    match fs !! old with
    | Some n => inr (<[new := n]> (delete old fs))
    | None => inl (ENOENT old)
    end.

Definition toy_realMain :=
  Main.realMain RDiff.toy_Header RDiff.toy_ReadOperations RDiff.toy_ApplyDelta
    RDiff.toy_md5sum "1.2" "/out" sample_TempDir toy_gzip toy_tar
    toy_VMXTemplate toy_ConvertVMX2OVA toy_Mkdir toy_Rename.

End MoreSamples.

(** * Properties *)

(** ** [os.OpenFile] and [os.Create] *)

Module OSFacts.
Import OS.

Lemma OpenFile_excl_fresh (fs : FS) path perm :
  fs !! path = None -> fs !! Path.Dir path = Some Dir ->
  OpenFile fs path Ova.excl_flags perm = inr (<[path := File (syscallMode perm) []]> fs).
Proof. intros Hnone Hdir. unfold OpenFile. by rewrite Hnone, Hdir. Qed.

Lemma OpenFile_excl_exists (fs : FS) path perm :
  is_Some (fs !! path) ->
  OpenFile fs path Ova.excl_flags perm = inl (EEXIST path).
Proof. intros [n Hn]. unfold OpenFile. by rewrite Hn. Qed.

Lemma append_file_insert (fs : FS) path perm d p :
  append_file (<[path := File perm d]> fs) path p = <[path := File perm (d ++ p)]> fs.
Proof.
  unfold append_file. rewrite lookup_insert_eq. by rewrite insert_insert_eq.
Qed.

Lemma append_file_File (fs : FS) path perm d p :
  fs !! path = Some (File perm d) ->
  append_file fs path p !! path = Some (File perm (d ++ p)).
Proof. intros Hp. unfold append_file. rewrite Hp. apply lookup_insert_eq. Qed.

Lemma Create_result (fs : FS) path :
  Create fs path =
  match fs !! path with
  | Some Dir => inl (EISDIR path)
  | Some (File perm _) => inr (<[path := File perm []]> fs)
  | None =>
      match fs !! Path.Dir path with
      | Some Dir => inr (<[path := File 438 []]> fs)
      | Some (File _ _) => inl (ENOTDIR path)
      | None => inl (ENOENT path)
      end
  end.
Proof.
  unfold Create, OpenFile. destruct (fs !! path) as [[|perm d]|]; [done..|].
  by destruct (fs !! Path.Dir path) as [[|perm d]|].
Qed.

(** After a successful [os.Create] the target is an empty regular file
    and every other path is as before. *)
Lemma Create_inr (fs fs1 : FS) path :
  Create fs path = inr fs1 ->
  (exists perm, fs1 !! path = Some (File perm [])) /\
  (forall q, q <> path -> fs1 !! q = fs !! q).
Proof.
  rewrite Create_result.
  destruct (fs !! path) as [[|perm d]|]; [done| |].
  - intros Heq; simplify_eq. split; [exists perm; apply lookup_insert_eq|].
    intros q Hq. by rewrite lookup_insert_ne.
  - destruct (fs !! Path.Dir path) as [[|perm d]|]; intros Heq; simplify_eq.
    split; [exists 438; apply lookup_insert_eq|].
    intros q Hq. by rewrite lookup_insert_ne.
Qed.

(** What a successful [os.Create] leaves: the disk with an empty file
    at the path, of mode 0666 when the file is new and of the mode it
    had when it was there. *)
Lemma Create_inr_insert (fs fs1 : FS) path :
  Create fs path = inr fs1 ->
  fs1 = <[path := File match fs !! path with
                       | Some (File perm _) => perm
                       | _ => 438
                       end []]> fs.
Proof.
  rewrite Create_result.
  destruct (fs !! path) as [[|perm d]|]; [done| |].
  - by intros Heq; simplify_eq.
  - destruct (fs !! Path.Dir path) as [[|perm d]|]; intros Heq; by simplify_eq.
Qed.

Lemma Create_keeps (fs fs1 : FS) path q :
  Create fs path = inr fs1 -> is_Some (fs !! q) -> is_Some (fs1 !! q).
Proof.
  intros Hc Hq. destruct (Create_inr _ _ _ Hc) as [[perm Hp] Hother].
  destruct (decide (q = path)) as [->|Hne]; [by rewrite Hp|].
  by rewrite Hother.
Qed.

(** A name under which there is nothing fails with [ENOENT] unless a
    regular file lies on the way to it. *)
Lemma missing_ENOENT (fs : FS) path :
  missing fs path = ENOENT path <->
  forall d, d ∈ dirs_above path -> is_file fs d = false.
Proof.
  unfold missing. destruct (existsb (is_file fs) (dirs_above path)) eqn:He.
  - split; [done|]. intros Hall.
    apply existsb_exists in He as (d & Hin & Hd).
    rewrite Hall in Hd by by apply list_elem_of_In. done.
  - split; [|done]. intros _ d Hin.
    destruct (is_file fs d) eqn:Hd; [|done].
    assert (existsb (is_file fs) (dirs_above path) = true) as He'
      by (apply existsb_exists; exists d; split; [by apply list_elem_of_In|done]).
    congruence.
Qed.

Lemma missing_cases (fs : FS) path :
  missing fs path = ENOENT path \/ missing fs path = ENOTDIR path.
Proof. unfold missing. destruct (existsb _ _); auto. Qed.

Lemma resolved_nonempty path : resolved path = true -> path <> "".
Proof. intros Hr ->. vm_compute in Hr. discriminate. Qed.

(** [os.RemoveAll] leaves nothing at or below the directory. *)
Lemma RemoveAll_lookup (fs : FS) dir p :
  RemoveAll fs dir !! p = if under dir p then None else fs !! p.
Proof.
  unfold RemoveAll. destruct (under dir p) eqn:Hu.
  - apply map_lookup_filter_None. right. intros x _. simpl. by rewrite Hu.
  - destruct (fs !! p) as [x|] eqn:Hp.
    + by apply map_lookup_filter_Some.
    + apply map_lookup_filter_None. by left.
Qed.

End OSFacts.

(** ** Archive extraction *)

Module OvaFacts.
Import Tar Ova OSFacts Samples.

Section Facts.
Variable tarNewReader : OS.Node -> Archive.
Variables (ova dirname : string).

Lemma extractable_cons e es (fs : OS.FS) :
  extractable dirname (e :: es) fs ->
  flat_regular e /\
  fs !! dest dirname e = None /\ fs !! Path.Dir (dest dirname e) = Some OS.Dir /\
  extractable dirname es (<[dest dirname e := file_of e]> fs).
Proof.
  intros (Hflat & Hnodup & Hfresh).
  apply Forall_cons in Hflat as [He Hes].
  rewrite fmap_cons in Hnodup. apply NoDup_cons in Hnodup as [Hnotin Hnodup].
  apply Forall_cons in Hfresh as [[Hfe Hde] Hfes].
  split; [done|]. split; [done|]. split; [done|]. split; [done|]. split; [done|].
  apply Forall_forall. intros e' Hin.
  eapply Forall_forall in Hfes as [Hfe' Hde']; [|done].
  split.
  - rewrite lookup_insert_ne; [done|].
    intros Heq. apply Hnotin. rewrite Heq. by apply list_elem_of_fmap_2.
  - rewrite lookup_insert_ne; [done|]. congruence.
Qed.

(** A prefix of extractable entries is written entry by entry and the
    loop goes on with what follows. *)
Lemma extract_loop_prefix eof pre : forall rest limit (fs : OS.FS),
  extractable dirname pre fs ->
  Z.of_nat (length pre) <= limit + 1 ->
  extract_loop ova dirname eof limit (pre ++ rest) fs =
  extract_loop ova dirname eof (limit - Z.of_nat (length pre)) rest
    (write_entries dirname pre fs).
Proof.
  induction pre as [|e pre IH]; intros rest limit fs Hext Hlen.
  - simpl. by rewrite Z.sub_0_r.
  - apply extractable_cons in Hext as ((Hbase & Hreg & Hbody) & Hfresh & Hdir & Hext).
    simpl in Hlen. simpl.
    destruct (Z.ltb_spec limit 0) as [?|_]; [lia|].
    rewrite bool_decide_eq_true_2 by done. simpl.
    rewrite Hreg. simpl.
    fold (dest dirname e).
    rewrite OpenFile_excl_fresh by done.
    rewrite append_file_insert, Hbody. simpl.
    rewrite IH by (done || lia).
    f_equal. lia.
Qed.

Lemma write_entries_lookup_other es : forall (fs : OS.FS) p,
  p ∉ (dest dirname <$> es) ->
  write_entries dirname es fs !! p = fs !! p.
Proof.
  induction es as [|e es IH]; intros fs p Hnotin; [done|].
  rewrite fmap_cons in Hnotin. apply not_elem_of_cons in Hnotin as [Hne Hnotin].
  simpl. rewrite IH by done. by rewrite lookup_insert_ne.
Qed.

Lemma write_entries_lookup es : forall (fs : OS.FS) e,
  NoDup (dest dirname <$> es) ->
  e ∈ es ->
  write_entries dirname es fs !! dest dirname e = Some (file_of e).
Proof.
  induction es as [|e' es IH]; intros fs e Hnodup Hin.
  - by apply elem_of_nil in Hin.
  - rewrite fmap_cons in Hnodup. apply NoDup_cons in Hnodup as [Hnotin Hnodup].
    apply elem_of_cons in Hin as [->|Hin]; simpl.
    + rewrite write_entries_lookup_other by done. by rewrite lookup_insert_eq.
    + by apply IH.
Qed.

Lemma write_entries_size es : forall (fs : OS.FS),
  extractable dirname es fs ->
  size (write_entries dirname es fs) = (size fs + length es)%nat.
Proof.
  induction es as [|e es IH]; intros fs Hext; simpl; [lia|].
  apply extractable_cons in Hext as (_ & Hfresh & _ & Hext).
  rewrite IH by done. rewrite map_size_insert_None by done. lia.
Qed.

(** The whole archive, when all of it can be extracted: the verdict
    depends on the number of entries alone. *)
Lemma ExtractOVA_extractable (fs : OS.FS) tf :
  fs !! ova = Some tf ->
  extractable dirname (entries (tarNewReader tf)) fs ->
  (length (entries (tarNewReader tf)) <= 101)%nat ->
  ((length (entries (tarNewReader tf)) <= 100)%nat -> trailer (tarNewReader tf) = None) ->
  ExtractOVA tarNewReader ova dirname fs =
  (if bool_decide (length (entries (tarNewReader tf)) < 100)%nat
   then Ok else Err ErrTarTooManyFiles,
   write_entries dirname (entries (tarNewReader tf)) fs).
Proof.
  intros Hova Hext Hlen Heof. unfold ExtractOVA, OS.Open. rewrite Hova.
  rewrite <- (app_nil_r (entries (tarNewReader tf))) at 1.
  rewrite extract_loop_prefix by (done || lia).
  set (n := length (entries (tarNewReader tf))) in *.
  simpl.
  destruct (Z.ltb_spec (100 - Z.of_nat n) 0) as [?|?].
  - rewrite bool_decide_eq_false_2 by lia.
    destruct (Z.leb_spec (100 - Z.of_nat n) 0); [done|lia].
  - rewrite Heof by lia.
    destruct (Z.leb_spec (100 - Z.of_nat n) 0).
    + by rewrite bool_decide_eq_false_2 by lia.
    + by rewrite bool_decide_eq_true_2 by lia.
Qed.

(** Below the limit a flat archive of regular files is extracted
    whole: one file per entry, with the entry's name, mode bits and
    bytes, and nothing else changes. *)
Lemma ExtractOVA_below_limit (fs : OS.FS) tf :
  fs !! ova = Some tf ->
  extractable dirname (entries (tarNewReader tf)) fs ->
  (length (entries (tarNewReader tf)) <= 99)%nat ->
  trailer (tarNewReader tf) = None ->
  exists fs',
    ExtractOVA tarNewReader ova dirname fs = (Ok, fs') /\
    (forall e, e ∈ entries (tarNewReader tf) ->
       fs' !! dest dirname e = Some (file_of e)) /\
    (forall p, p ∉ (dest dirname <$> entries (tarNewReader tf)) ->
       fs' !! p = fs !! p) /\
    size fs' = (size fs + length (entries (tarNewReader tf)))%nat.
Proof.
  intros Hova Hext Hlen Heof.
  exists (write_entries dirname (entries (tarNewReader tf)) fs).
  rewrite (ExtractOVA_extractable fs tf) by (done || lia).
  rewrite bool_decide_eq_true_2 by lia.
  split; [done|]. split; [|split].
  - intros e Hin. apply write_entries_lookup; [apply Hext | done].
  - intros p Hp. by apply write_entries_lookup_other.
  - by apply write_entries_size.
Qed.

End Facts.

Lemma extractable_decide dirname es (fs : OS.FS) :
  bool_decide (extractable dirname es fs) = true -> extractable dirname es fs.
Proof. apply bool_decide_eq_true_1. Qed.

(** The ten files of [testdata/tar/valid.tar], and the largest archive
    that is accepted. *)
Example ExtractOVA_ten_files :
  (ExtractOVA (numbered_reader 10) "/in/image.ova" "/dst" sample_fs).1 = Ok /\
  (ExtractOVA (numbered_reader 10) "/in/image.ova" "/dst" sample_fs).2 !! "/dst/file-7"
  = Some (OS.File 420 (bytes_of (String "7"%char (String "010"%char "")))).
Proof. vm_compute. split; reflexivity. Qed.

Example ExtractOVA_ninety_nine_files :
  (ExtractOVA (numbered_reader 99) "/in/image.ova" "/dst" sample_fs).1 = Ok.
Proof. vm_compute. reflexivity. Qed.

(** A directory entry as [tar] writes it, with a trailing separator, is
    turned away by the name check before its mode is looked at. *)
Example ExtractOVA_directory_entry :
  (ExtractOVA (reader_of [mkEntry "sub/" (Z.lor OS.ModeDir 493) [] None])
     "/in/image.ova" "/dst" sample_fs).1 = Err (ErrTarSubdirectory "sub/").
Proof. vm_compute. reflexivity. Qed.

(** C2 (what the code does at one entry over the limit).  For every
    archive of exactly 101 flat regular-file entries with distinct, free
    destinations, [ExtractOVA] does return the too-many-files error, but
    only after the loop has run 101 times: every entry, the 101st
    included, has been written, so the destination holds 101 new files
    rather than at most 100. *)
Theorem ExtractOVA_101_entries_all_written
    (tarNewReader : OS.Node -> Archive) (ova dirname : string) (fs : OS.FS) tf :
  fs !! ova = Some tf ->
  length (entries (tarNewReader tf)) = 101%nat ->
  extractable dirname (entries (tarNewReader tf)) fs ->
  (ExtractOVA tarNewReader ova dirname fs).1 = Err ErrTarTooManyFiles /\
  (forall e, entries (tarNewReader tf) !! 100%nat = Some e ->
     (ExtractOVA tarNewReader ova dirname fs).2 !! dest dirname e = Some (file_of e)) /\
  (forall e, e ∈ entries (tarNewReader tf) ->
     (ExtractOVA tarNewReader ova dirname fs).2 !! dest dirname e = Some (file_of e)) /\
  size (ExtractOVA tarNewReader ova dirname fs).2 = (size fs + 101)%nat.
Proof.
  intros Hova Hlen Hext.
  rewrite (ExtractOVA_extractable tarNewReader ova dirname fs tf) by (done || lia).
  rewrite bool_decide_eq_false_2 by lia. simpl.
  split; [done|]. split; [|split].
  - intros e He. apply write_entries_lookup; [apply Hext|].
    by eapply list_elem_of_lookup_2.
  - intros e He. apply write_entries_lookup; [apply Hext | done].
  - rewrite write_entries_size by done. by rewrite Hlen.
Qed.

Lemma ExtractOVA_101_entries_witness :
  (ExtractOVA (numbered_reader 101) "/in/image.ova" "/dst" sample_fs).1
    = Err ErrTarTooManyFiles /\
  (forall e, numbered_entries 101 !! 100%nat = Some e ->
     (ExtractOVA (numbered_reader 101) "/in/image.ova" "/dst" sample_fs).2
       !! dest "/dst" e = Some (file_of e)) /\
  (forall e, e ∈ numbered_entries 101 ->
     (ExtractOVA (numbered_reader 101) "/in/image.ova" "/dst" sample_fs).2
       !! dest "/dst" e = Some (file_of e)) /\
  size (ExtractOVA (numbered_reader 101) "/in/image.ova" "/dst" sample_fs).2
    = (size sample_fs + 101)%nat.
Proof.
  apply (ExtractOVA_101_entries_all_written (numbered_reader 101)
           "/in/image.ova" "/dst" sample_fs (OS.File 420 [])).
  - reflexivity.
  - reflexivity.
  - apply extractable_decide. vm_compute. reflexivity.
Defined.

(** C3 (what the code does at the limit itself).  For every archive of
    exactly 100 flat regular-file entries with distinct, free
    destinations and a clean end, [ExtractOVA] writes the 100 files and
    then returns the too-many-files error: the largest entry count at
    which extraction succeeds is 99, not 100. *)
Theorem ExtractOVA_100_entries_rejected
    (tarNewReader : OS.Node -> Archive) (ova dirname : string) (fs : OS.FS) tf :
  fs !! ova = Some tf ->
  length (entries (tarNewReader tf)) = 100%nat ->
  extractable dirname (entries (tarNewReader tf)) fs ->
  trailer (tarNewReader tf) = None ->
  ExtractOVA tarNewReader ova dirname fs =
  (Err ErrTarTooManyFiles, write_entries dirname (entries (tarNewReader tf)) fs).
Proof.
  intros Hova Hlen Hext Heof.
  rewrite (ExtractOVA_extractable tarNewReader ova dirname fs tf) by (done || lia).
  by rewrite bool_decide_eq_false_2 by lia.
Qed.

Lemma ExtractOVA_100_entries_witness :
  ExtractOVA (numbered_reader 100) "/in/image.ova" "/dst" sample_fs =
  (Err ErrTarTooManyFiles, write_entries "/dst" (numbered_entries 100) sample_fs).
Proof.
  apply (ExtractOVA_100_entries_rejected (numbered_reader 100)
           "/in/image.ova" "/dst" sample_fs (OS.File 420 [])).
  - reflexivity.
  - reflexivity.
  - apply extractable_decide. vm_compute. reflexivity.
  - reflexivity.
Defined.

(** C7.  An entry reached by the loop (the entries before it, at most
    100, were all extracted) is rejected with the subdirectory error
    when the last element of its name differs from the name, and
    otherwise with the file-mode error when its mode is not that of a
    regular file.  In both cases the call returns at once: the disk
    holds the files of the earlier entries and nothing else new, whatever
    the rejected entry and the entries after it contain. *)
Theorem ExtractOVA_rejects_entry
    (tarNewReader : OS.Node -> Archive) (ova dirname : string) (fs : OS.FS)
    tf pre e post :
  fs !! ova = Some tf ->
  entries (tarNewReader tf) = pre ++ e :: post ->
  (length pre <= 100)%nat ->
  extractable dirname pre fs ->
  (Path.Base (Name e) <> Name e ->
     ExtractOVA tarNewReader ova dirname fs =
     (Err (ErrTarSubdirectory (Name e)), write_entries dirname pre fs)) /\
  (Path.Base (Name e) = Name e -> OS.IsRegular (Mode e) = false ->
     ExtractOVA tarNewReader ova dirname fs =
     (Err (ErrTarFileMode (Name e) (Mode e)), write_entries dirname pre fs)).
Proof.
  intros Hova Hes Hlen Hext.
  unfold ExtractOVA, OS.Open. rewrite Hova, Hes.
  rewrite extract_loop_prefix by (done || lia).
  simpl. destruct (Z.ltb_spec (100 - Z.of_nat (length pre)) 0) as [?|_]; [lia|].
  split.
  - intros Hbase. by rewrite bool_decide_eq_false_2 by done.
  - intros Hbase Hmode. rewrite bool_decide_eq_true_2 by done. simpl.
    by rewrite Hmode.
Qed.

Lemma ExtractOVA_rejects_entry_witness :
  ExtractOVA (reader_of [numbered 0; subdir_entry; numbered 2])
    "/in/image.ova" "/dst" sample_fs =
  (Err (ErrTarSubdirectory "sub/file-1"), write_entries "/dst" [numbered 0] sample_fs)
  /\
  ExtractOVA (reader_of [numbered 0; symlink_entry; numbered 2])
    "/in/image.ova" "/dst" sample_fs =
  (Err (ErrTarFileMode "link" (Z.lor OS.ModeSymlink 511)),
   write_entries "/dst" [numbered 0] sample_fs).
Proof.
  split.
  - apply (ExtractOVA_rejects_entry (reader_of [numbered 0; subdir_entry; numbered 2])
             "/in/image.ova" "/dst" sample_fs (OS.File 420 [])
             [numbered 0] subdir_entry [numbered 2]).
    + reflexivity.
    + reflexivity.
    + simpl. lia.
    + apply extractable_decide. vm_compute. reflexivity.
    + vm_compute. discriminate.
  - apply (ExtractOVA_rejects_entry (reader_of [numbered 0; symlink_entry; numbered 2])
             "/in/image.ova" "/dst" sample_fs (OS.File 420 [])
             [numbered 0] symlink_entry [numbered 2]).
    + reflexivity.
    + reflexivity.
    + simpl. lia.
    + apply extractable_decide. vm_compute. reflexivity.
    + vm_compute. reflexivity.
    + vm_compute. reflexivity.
Defined.

End OvaFacts.

(** ** Patch application *)

Module RDiffFacts.
Import OS RDiff OSFacts Samples.

Section Facts.
Variable Header : Node -> Error + (Z * bytes).
Variable ReadOperations : bytes -> Decoded.
Variable ApplyDelta : Z -> Node -> list Operation -> bytes * option Error.
Variable md5sum : bytes -> bytes.

(** The disk a call leaves once the target is made, however it
    returns: the disk it found with, at the target path, exactly the
    bytes [ApplyDelta] wrote - none when the header of the delta could
    not be read.  The basis and the delta are the files as they are
    after [os.Create]. *)
Lemma Patch_final_disk basis delta newfile checkFile (fs fs1 : FS) :
  is_Some (fs !! basis) -> is_Some (fs !! delta) ->
  Create fs newfile = inr fs1 ->
  exists perm basisFile deltaFile,
    perm = match fs !! newfile with Some (File p _) => p | _ => 438 end /\
    fs1 = <[newfile := File perm []]> fs /\
    fs1 !! basis = Some basisFile /\ fs1 !! delta = Some deltaFile /\
    (forall err, Header deltaFile = inl err ->
       (RDiff.Patch Header ReadOperations ApplyDelta md5sum
          basis delta newfile checkFile fs).2 = <[newfile := File perm []]> fs) /\
    (forall blockSize rest, Header deltaFile = inr (blockSize, rest) ->
       (RDiff.Patch Header ReadOperations ApplyDelta md5sum
          basis delta newfile checkFile fs).2
       = <[newfile := File perm
             (ApplyDelta blockSize basisFile (sent_ops (ReadOperations rest))).1]> fs).
Proof.
  intros [b Hb] [d Hd] Hc. unfold RDiff.Patch, Open. rewrite Hb, Hd, Hc.
  destruct (Create_keeps _ _ _ basis Hc) as [b1 Hb1]; [by rewrite Hb|].
  destruct (Create_keeps _ _ _ delta Hc) as [d1 Hd1]; [by rewrite Hd|].
  apply Create_inr_insert in Hc.
  set (perm := match fs !! newfile with Some (File p _) => p | _ => 438 end) in *.
  rewrite Hb1, Hd1. exists perm, b1, d1.
  do 4 (split; [done|]). split.
  - intros err Hh. by rewrite Hh, Hc.
  - intros blockSize rest Hh. rewrite Hh.
    destruct (ApplyDelta blockSize b1 (sent_ops (ReadOperations rest)))
      as [written aerr].
    assert (append_file fs1 newfile written = <[newfile := File perm written]> fs)
      as -> by (rewrite Hc; apply append_file_insert).
    destruct aerr; [done|].
    destruct (decode_error (ReadOperations rest)); [done|].
    destruct checkFile; simpl; [|done].
    destruct (Data (recv_hash (ReadOperations rest))); [|done].
    by destruct (bytes_Equal _ _).
Qed.

(** The same for a target that is neither the basis nor the delta: the
    inputs are then the files the call found. *)
Lemma Patch_final_disk_apart basis delta newfile checkFile (fs fs1 : FS)
    basisFile deltaFile blockSize rest :
  fs !! basis = Some basisFile -> fs !! delta = Some deltaFile ->
  basis <> newfile -> delta <> newfile ->
  Create fs newfile = inr fs1 ->
  Header deltaFile = inr (blockSize, rest) ->
  (RDiff.Patch Header ReadOperations ApplyDelta md5sum
     basis delta newfile checkFile fs).2
  = <[newfile := File match fs !! newfile with Some (File p _) => p | _ => 438 end
        (ApplyDelta blockSize basisFile (sent_ops (ReadOperations rest))).1]> fs.
Proof.
  intros Hb Hd Hbn Hdn Hc Hh.
  destruct (Patch_final_disk basis delta newfile checkFile fs fs1)
    as (perm & b1 & d1 & -> & -> & Hb1 & Hd1 & _ & Hgo); [by eexists..|done|].
  rewrite lookup_insert_ne in Hb1, Hd1 by done. simplify_eq.
  by apply Hgo.
Qed.

End Facts.

Example toy_Patch_good :
  toy_Patch "/in/basis" "/in/delta" "/out/new" true (patch_fs good_delta)
  = (Ok, <["/out/new" := File 438 [Byte.x41; Byte.x42; Byte.x43]]> (patch_fs good_delta)).
Proof. reflexivity. Qed.

Example toy_Patch_bad_sum :
  (toy_Patch "/in/basis" "/in/delta" "/out/new" true (patch_fs bad_sum_delta)).1
  = Err HashNoMatchError.
Proof. reflexivity. Qed.

Example toy_Patch_no_sum :
  (toy_Patch "/in/basis" "/in/delta" "/out/new" true (patch_fs no_sum_delta)).1
  = Err NoTargetSumError.
Proof. reflexivity. Qed.

Example toy_Patch_unchecked :
  (toy_Patch "/in/basis" "/in/delta" "/out/new" false (patch_fs bad_sum_delta)).1 = Ok /\
  (toy_Patch "/in/basis" "/in/delta" "/out/new" false (patch_fs no_sum_delta)).1 = Ok.
Proof. split; reflexivity. Qed.

Example toy_Patch_empty_delta :
  (toy_Patch "/in/basis" "/in/delta" "/out/new" true (patch_fs [])).1
  = Err ErrUnexpectedEOF.
Proof. reflexivity. Qed.

(** C1.  When the call gets as far as the checksum (both inputs open,
    the target created, the header read, the operations decoded and
    applied without error): with [checkFile = true] it returns
    [NoTargetSumError] if the decoder produced no checksum record at all
    and [HashNoMatchError] if the record it produced differs from the
    checksum of the bytes written to the target; with [checkFile = false]
    it returns [nil] whatever the record is or whether there is one. *)
Theorem Patch_checksum_verification
    (Header : Node -> Error + (Z * bytes))
    (ReadOperations : bytes -> Decoded)
    (ApplyDelta : Z -> Node -> list Operation -> bytes * option Error)
    (md5sum : bytes -> bytes)
    (basis delta newfile : string) (fs fs1 : FS)
    basisFile deltaFile blockSize rest written :
  is_Some (fs !! basis) -> is_Some (fs !! delta) ->
  Create fs newfile = inr fs1 ->
  fs1 !! basis = Some basisFile ->
  fs1 !! delta = Some deltaFile ->
  Header deltaFile = inr (blockSize, rest) ->
  ApplyDelta blockSize basisFile (sent_ops (ReadOperations rest)) = (written, None) ->
  decode_error (ReadOperations rest) = None ->
  (sent_hashes (ReadOperations rest) = [] ->
     RDiff.Patch Header ReadOperations ApplyDelta md5sum basis delta newfile true fs
     = (Err NoTargetSumError, append_file fs1 newfile written)) /\
  (forall sum,
     Data (recv_hash (ReadOperations rest)) = Some sum -> sum <> md5sum written ->
     RDiff.Patch Header ReadOperations ApplyDelta md5sum basis delta newfile true fs
     = (Err HashNoMatchError, append_file fs1 newfile written)) /\
  RDiff.Patch Header ReadOperations ApplyDelta md5sum basis delta newfile false fs
  = (Ok, append_file fs1 newfile written).
Proof.
  intros [b Hb] [d Hd] Hc Hb1 Hd1 Hh Ha Hdec.
  unfold RDiff.Patch, Open. rewrite Hb, Hd, Hc, Hb1, Hd1, Hh, Ha, Hdec. simpl.
  split; [|split; [|done]].
  - intros Hnone. unfold recv_hash. by rewrite Hnone.
  - intros sum Hsum Hne. rewrite Hsum. unfold bytes_Equal.
    by rewrite bool_decide_eq_false_2.
Qed.

Lemma Patch_checksum_verification_witness :
  toy_Patch "/in/basis" "/in/delta" "/out/new" true (patch_fs no_sum_delta)
  = (Err NoTargetSumError,
     append_file (<["/out/new" := File 438 []]> (patch_fs no_sum_delta)) "/out/new"
       [Byte.x41; Byte.x42; Byte.x43]) /\
  toy_Patch "/in/basis" "/in/delta" "/out/new" true (patch_fs bad_sum_delta)
  = (Err HashNoMatchError,
     append_file (<["/out/new" := File 438 []]> (patch_fs bad_sum_delta)) "/out/new"
       [Byte.x41; Byte.x42; Byte.x43]) /\
  toy_Patch "/in/basis" "/in/delta" "/out/new" false (patch_fs no_sum_delta)
  = (Ok,
     append_file (<["/out/new" := File 438 []]> (patch_fs no_sum_delta)) "/out/new"
       [Byte.x41; Byte.x42; Byte.x43]).
Proof.
  split; [|split].
  - apply (Patch_checksum_verification toy_Header toy_ReadOperations toy_ApplyDelta
             toy_md5sum "/in/basis" "/in/delta" "/out/new" (patch_fs no_sum_delta)
             (<["/out/new" := File 438 []]> (patch_fs no_sum_delta))
             (File 420 (bytes_of "AAAABBBBCCCC")) (File 420 no_sum_delta) 4
             [Byte.x00; Byte.x41; Byte.x42; Byte.x43] [Byte.x41; Byte.x42; Byte.x43]);
      first [reflexivity | eexists; reflexivity].
  - apply (Patch_checksum_verification toy_Header toy_ReadOperations toy_ApplyDelta
             toy_md5sum "/in/basis" "/in/delta" "/out/new" (patch_fs bad_sum_delta)
             (<["/out/new" := File 438 []]> (patch_fs bad_sum_delta))
             (File 420 (bytes_of "AAAABBBBCCCC")) (File 420 bad_sum_delta) 4
             [Byte.x01; Byte.x09; Byte.x41; Byte.x42; Byte.x43]
             [Byte.x41; Byte.x42; Byte.x43]) with (sum := [Byte.x09]);
      first [reflexivity | eexists; reflexivity | vm_compute; discriminate].
  - apply (Patch_checksum_verification toy_Header toy_ReadOperations toy_ApplyDelta
             toy_md5sum "/in/basis" "/in/delta" "/out/new" (patch_fs no_sum_delta)
             (<["/out/new" := File 438 []]> (patch_fs no_sum_delta))
             (File 420 (bytes_of "AAAABBBBCCCC")) (File 420 no_sum_delta) 4
             [Byte.x00; Byte.x41; Byte.x42; Byte.x43] [Byte.x41; Byte.x42; Byte.x43]);
      first [reflexivity | eexists; reflexivity].
Defined.

End RDiffFacts.

(** ** Cancellation *)

Module CancelFacts.
Import Chan Cancel Samples.

Lemma close_closed (h h' : Heap) c : close h c = inr h' -> closed h' c = true.
Proof.
  destruct c as [|a]; simpl; [done|].
  destruct (bool_decide (h !! a = Some true)); intros Heq; simplify_eq.
  rewrite lookup_insert_eq. by apply bool_decide_eq_true_2.
Qed.

(** Nothing reopens a channel: closing some channel keeps every closed
    channel closed. *)
Lemma close_keeps_closed (h h' : Heap) c c' :
  close h c = inr h' -> closed h c' = true -> closed h' c' = true.
Proof.
  destruct c as [|a]; simpl; [done|].
  destruct (bool_decide (h !! a = Some true)) eqn:Ha; intros Heq; simplify_eq.
  destruct c' as [|a']; simpl; [done|].
  intros Hc%bool_decide_eq_true_1. apply bool_decide_eq_true_2.
  destruct (decide (a = a')) as [->|Hne]; [by rewrite lookup_insert_eq|].
  by rewrite lookup_insert_ne.
Qed.

Section Facts.
Context {W R : Type} `{Writer W} `{Reader R}.

Lemma step_invariants (s s' : Sys W R) c o :
    step s c = (Some s', o) ->
    cw_stop (wr s') = cw_stop (wr s) /\
    cr_stop (rd s') = cr_stop (rd s) /\
    (forall ch, closed (heap s) ch = true -> closed (heap s') ch = true).
Proof.
    destruct c as [p|n|ch0]; simpl.
    - unfold CancelWriter_Write.
      destruct (closed (heap s) (cw_stop (wr s))).
      + intros Heq; simplify_eq. by simpl.
      + destruct (Write (cw_w (wr s)) p) as [w' [n err]].
        intros Heq; simplify_eq. by simpl.
    - unfold CancelReader_Read.
      destruct (closed (heap s) (cr_stop (rd s))).
      + intros Heq; simplify_eq. by simpl.
      + destruct (Read (cr_r (rd s)) n) as [r' [data err]].
        intros Heq; simplify_eq. by simpl.
    - destruct (close (heap s) ch0) as [msg|h'] eqn:Hclose; intros Heq; simplify_eq.
      simpl. split; [done|]. split; [done|].
      intros ch. by apply (close_keeps_closed _ _ ch0).
Qed.

(** While a wrapper's channel is closed, a step leaves its stream
      alone and, if it is a call on that wrapper, reports [ErrInterupt]. *)
Lemma step_interrupted (s : Sys W R) c :
    interrupted (closed (heap s) (cw_stop (wr s))) (closed (heap s) (cr_stop (rd s)))
      (step s c).2 = true /\
    forall s', (step s c).1 = Some s' ->
      (closed (heap s) (cw_stop (wr s)) = true -> cw_w (wr s') = cw_w (wr s)) /\
      (closed (heap s) (cr_stop (rd s)) = true -> cr_r (rd s') = cr_r (rd s)).
Proof.
    destruct c as [p|n|ch0]; simpl.
    - unfold CancelWriter_Write.
      destruct (closed (heap s) (cw_stop (wr s))) eqn:Hw; simpl.
      + split; [done|]. intros s' Heq; simplify_eq. by simpl.
      + destruct (Write (cw_w (wr s)) p) as [w' [n err]]. simpl.
        split; [done|]. intros s' Heq; simplify_eq. by simpl.
    - unfold CancelReader_Read.
      destruct (closed (heap s) (cr_stop (rd s))) eqn:Hr; simpl.
      + split; [done|]. intros s' Heq; simplify_eq. by simpl.
      + destruct (Read (cr_r (rd s)) n) as [r' [data err]]. simpl.
        split; [done|]. intros s' Heq; simplify_eq. by simpl.
    - destruct (close (heap s) ch0) as [msg|h']; simpl.
      + split; [done|]. by intros s' Heq.
      + split; [done|]. intros s' Heq; simplify_eq. by simpl.
Qed.

Lemma run_interrupted cs : forall (s : Sys W R),
    closed (heap s) (cw_stop (wr s)) = true \/ closed (heap s) (cr_stop (rd s)) = true ->
    Forall (fun o => interrupted (closed (heap s) (cw_stop (wr s)))
                       (closed (heap s) (cr_stop (rd s))) o = true) (run s cs).1 /\
    (closed (heap s) (cw_stop (wr s)) = true -> cw_w (wr (run s cs).2) = cw_w (wr s)) /\
    (closed (heap s) (cr_stop (rd s)) = true -> cr_r (rd (run s cs).2) = cr_r (rd s)).
Proof.
    induction cs as [|c cs IH]; intros s Hfired; simpl.
    - by split; [constructor|].
    - destruct (step_interrupted s c) as [Hobs Hstate].
      destruct (step s c) as [[s'|] o] eqn:Hstep; simpl in *.
      + destruct (step_invariants _ _ _ _ Hstep) as (Hws & Hrs & Hmono).
        destruct (Hstate s' eq_refl) as [Hw Hr].
        assert (closed (heap s) (cw_stop (wr s)) = true ->
                closed (heap s') (cw_stop (wr s')) = true) as Hcw.
        { intros Hc. rewrite Hws. by apply Hmono. }
        assert (closed (heap s) (cr_stop (rd s)) = true ->
                closed (heap s') (cr_stop (rd s')) = true) as Hcr.
        { intros Hc. rewrite Hrs. by apply Hmono. }
        destruct (IH s') as (Hall & Hw' & Hr'); [tauto|].
        destruct (run s' cs) as [os s''] eqn:Hrun. simpl in *.
        split; [|split].
        * constructor; [done|].
          eapply Forall_impl; [exact Hall|].
          intros o' Ho'. simpl in Ho'.
          destruct o' as [n err|data err| |msg]; simpl in *; try done.
          -- destruct (closed (heap s) (cw_stop (wr s))) eqn:Hc; [|done].
             by rewrite Hcw in Ho'.
          -- destruct (closed (heap s) (cr_stop (rd s))) eqn:Hc; [|done].
             by rewrite Hcr in Ho'.
        * intros Hc. rewrite Hw' by auto. auto.
        * intros Hc. rewrite Hr' by auto. auto.
      + split; [|done]. by constructor.
Qed.

Lemma run_writes_interrupted cs (s : Sys W R) :
  closed (heap s) (cw_stop (wr s)) = true ->
  cw_w (wr (run s cs).2) = cw_w (wr s) /\ writes_interrupted (run s cs).1.
Proof.
  intros Hc.
  destruct (run_interrupted cs s) as (Hall & Hw & _); [by left|].
  split; [auto|].
  eapply Forall_impl; [exact Hall|].
  intros o Ho k err ->. simpl in Ho. rewrite Hc in Ho. simpl in Ho.
  apply andb_prop in Ho as [Hk He].
  by split; [apply bool_decide_eq_true_1 in Hk | apply bool_decide_eq_true_1 in He].
Qed.

Lemma run_reads_interrupted cs (s : Sys W R) :
  closed (heap s) (cr_stop (rd s)) = true ->
  cr_r (rd (run s cs).2) = cr_r (rd s) /\ reads_interrupted (run s cs).1.
Proof.
  intros Hc.
  destruct (run_interrupted cs s) as (Hall & _ & Hr); [by right|].
  split; [auto|].
  eapply Forall_impl; [exact Hall|].
  intros o Ho data err ->. simpl in Ho. rewrite Hc in Ho. simpl in Ho.
  apply andb_prop in Ho as [Hk He].
  by split; [apply bool_decide_eq_true_1 in Hk | apply bool_decide_eq_true_1 in He].
Qed.

(** The wrappers keep their channels. *)
Lemma run_stop_fields cs : forall (s : Sys W R),
  cw_stop (wr (run s cs).2) = cw_stop (wr s) /\
  cr_stop (rd (run s cs).2) = cr_stop (rd s).
Proof.
  induction cs as [|c cs IH]; intros s; simpl; [done|].
  destruct (step s c) as [[s'|] o] eqn:Hstep; [|done].
  destruct (step_invariants _ _ _ _ Hstep) as (Hw & Hr & _).
  destruct (IH s') as [IHw IHr].
  destruct (run s' cs) as [os s'']. simpl in *. split; congruence.
Qed.

End Facts.

(** C6.  A [CancelWriter.Write] or [CancelReader.Read] issued while the
    stop channel is closed returns [(0, ErrInterupt)] and leaves the
    wrapped stream in the state it was in; issued while it is not closed
    it returns what the wrapped stream returns and takes that stream to
    its next state.  Closing is permanent: closing a channel makes it
    closed; in every sequence of calls that starts with the channel of a
    wrapper closed, all calls on that wrapper are interrupted and its
    stream ends in the state it started in; and so it is for every
    sequence of calls [post] that follows the closing of the channel
    after any sequence of calls [pre]. *)
Theorem cancel_streams_interrupt {W R : Type} `{Writer W} `{Reader R}
    (h : Heap) (w : CancelWriter W) (r : CancelReader R)
    (p : bytes) (n : nat) (cs : list Call) :
  (closed h (cw_stop w) = true ->
     CancelWriter_Write h w p = (w, (0, Some ErrInterupt))) /\
  (closed h (cr_stop r) = true ->
     CancelReader_Read h r n = (r, ([], Some ErrInterupt))) /\
  (closed h (cw_stop w) = false ->
     CancelWriter_Write h w p =
     (mkCancelWriter (Write (cw_w w) p).1 (cw_stop w), (Write (cw_w w) p).2)) /\
  (closed h (cr_stop r) = false ->
     CancelReader_Read h r n =
     (mkCancelReader (Read (cr_r r) n).1 (cr_stop r), (Read (cr_r r) n).2)) /\
  (forall c h', close h c = inr h' -> closed h' c = true) /\
  (closed h (cw_stop w) = true ->
     cw_w (wr (run (mkSys h w r) cs).2) = cw_w w /\
     writes_interrupted (run (mkSys h w r) cs).1) /\
  (closed h (cr_stop r) = true ->
     cr_r (rd (run (mkSys h w r) cs).2) = cr_r r /\
     reads_interrupted (run (mkSys h w r) cs).1) /\
  (forall pre post h',
     close (heap (run (mkSys h w r) pre).2) (cw_stop w) = inr h' ->
     cw_w (wr (run (mkSys h' (wr (run (mkSys h w r) pre).2)
                      (rd (run (mkSys h w r) pre).2)) post).2)
     = cw_w (wr (run (mkSys h w r) pre).2) /\
     writes_interrupted
       (run (mkSys h' (wr (run (mkSys h w r) pre).2)
               (rd (run (mkSys h w r) pre).2)) post).1) /\
  (forall pre post h',
     close (heap (run (mkSys h w r) pre).2) (cr_stop r) = inr h' ->
     cr_r (rd (run (mkSys h' (wr (run (mkSys h w r) pre).2)
                      (rd (run (mkSys h w r) pre).2)) post).2)
     = cr_r (rd (run (mkSys h w r) pre).2) /\
     reads_interrupted
       (run (mkSys h' (wr (run (mkSys h w r) pre).2)
               (rd (run (mkSys h w r) pre).2)) post).1).
Proof.
  split; [|split; [|split; [|split; [|split; [|split; [|split; [|split]]]]]]].
  - intros Hc. unfold CancelWriter_Write. by rewrite Hc.
  - intros Hc. unfold CancelReader_Read. by rewrite Hc.
  - intros Hc. unfold CancelWriter_Write. rewrite Hc.
    by destruct (Write (cw_w w) p).
  - intros Hc. unfold CancelReader_Read. rewrite Hc.
    by destruct (Read (cr_r r) n).
  - intros c h'. apply close_closed.
  - intros Hc. by apply (run_writes_interrupted cs (mkSys h w r)).
  - intros Hc. by apply (run_reads_interrupted cs (mkSys h w r)).
  - intros pre post h' Hclose.
    destruct (run_stop_fields pre (mkSys h w r)) as [Hw _]. simpl in Hw.
    apply (run_writes_interrupted post
             (mkSys h' (wr (run (mkSys h w r) pre).2) (rd (run (mkSys h w r) pre).2))).
    simpl. rewrite Hw. by eapply close_closed.
  - intros pre post h' Hclose.
    destruct (run_stop_fields pre (mkSys h w r)) as [_ Hr]. simpl in Hr.
    apply (run_reads_interrupted post
             (mkSys h' (wr (run (mkSys h w r) pre).2) (rd (run (mkSys h w r) pre).2))).
    simpl. rewrite Hr. by eapply close_closed.
Qed.

Example run_open_then_closed :
  (run (mkSys open_heap counted_writer counted_reader)
     (CallWrite (bytes_of "abc") :: CallClose (chan_at 0) :: some_calls)).1
  = [ObsWrite 3 None; ObsClosed;
     ObsWrite 0 (Some ErrInterupt); ObsRead [] (Some ErrInterupt);
     ObsWrite 0 (Some ErrInterupt)].
Proof. vm_compute. reflexivity. Qed.

Lemma cancel_streams_interrupt_witness :
  CancelWriter_Write closed_heap counted_writer (bytes_of "abc")
    = (counted_writer, (0, Some ErrInterupt)) /\
  CancelReader_Read closed_heap counted_reader 4
    = (counted_reader, ([], Some ErrInterupt)) /\
  CancelWriter_Write open_heap counted_writer (bytes_of "abc")
    = (mkCancelWriter (mkCounter 1) (chan_at 0), (3, None)) /\
  calls (cw_w (wr (run (mkSys closed_heap counted_writer counted_reader) some_calls).2))
    = 0%nat /\
  calls (cr_r (rd (run (mkSys closed_heap counted_writer counted_reader) some_calls).2))
    = 0%nat /\
  writes_interrupted
    (run (mkSys (<[0%nat := true]> open_heap)
            (wr (run (mkSys open_heap counted_writer counted_reader)
                   [CallWrite (bytes_of "abc")]).2)
            (rd (run (mkSys open_heap counted_writer counted_reader)
                   [CallWrite (bytes_of "abc")]).2))
       some_calls).1.
Proof.
  split; [|split; [|split; [|split; [|split]]]].
  - apply (cancel_streams_interrupt closed_heap counted_writer counted_reader
             (bytes_of "abc") 4 some_calls). vm_compute. reflexivity.
  - apply (cancel_streams_interrupt closed_heap counted_writer counted_reader
             (bytes_of "abc") 4 some_calls). vm_compute. reflexivity.
  - destruct (cancel_streams_interrupt open_heap counted_writer counted_reader
                (bytes_of "abc") 4 some_calls) as (_ & _ & Hopen & _).
    rewrite Hopen; [reflexivity | vm_compute; reflexivity].
  - destruct (cancel_streams_interrupt closed_heap counted_writer counted_reader
                (bytes_of "abc") 4 some_calls) as (_ & _ & _ & _ & _ & Hw & _).
    destruct Hw as [Hw _]; [vm_compute; reflexivity|]. rewrite Hw. reflexivity.
  - destruct (cancel_streams_interrupt closed_heap counted_writer counted_reader
                (bytes_of "abc") 4 some_calls) as (_ & _ & _ & _ & _ & _ & Hr & _).
    destruct Hr as [Hr _]; [vm_compute; reflexivity|]. rewrite Hr. reflexivity.
  - destruct (cancel_streams_interrupt open_heap counted_writer counted_reader
                (bytes_of "abc") 4 some_calls) as (_ & _ & _ & _ & _ & _ & _ & Hpost & _).
    apply (Hpost [CallWrite (bytes_of "abc")] some_calls (<[0%nat := true]> open_heap)).
    reflexivity.
Defined.

End CancelFacts.

(** ** The stages of [Config] *)

Module PipelineFacts.
Import OS OSFacts Pipeline Samples.

Lemma Clean_nonempty path : Path.Clean path <> "".
Proof.
  unfold Path.Clean. destruct (decide (path = "")); [done|].
  by destruct (decide (_ = "")).
Qed.

Lemma Join_nonempty dir name : name <> "" -> Path.Join dir name <> "".
Proof.
  intros Hname. unfold Path.Join.
  destruct (decide (dir = "")); [|apply Clean_nonempty].
  destruct (decide (name = "")); [done|apply Clean_nonempty].
Qed.

(** [Cleanup] leaves nothing of the workspace. *)
Lemma Cleanup_removes_workspace c (fs : FS) p :
  tmpdir c <> "" -> under (tmpdir c) p = true -> Cleanup c fs !! p = None.
Proof.
  intros Hne Hu. unfold Cleanup. destruct (decide (tmpdir c <> "")); [|done].
  by rewrite RemoveAll_lookup, Hu.
Qed.

Lemma closed_insert (h : Chan.Heap) a : Chan.closed (<[a := true]> h) (Chan.chan_at a) = true.
Proof. simpl. rewrite lookup_insert_eq. by apply bool_decide_eq_true_2. Qed.

Lemma Stop_open c w a :
  stop c = Chan.chan_at a -> Chan.closed (chans w) (stop c) = false ->
  Stop c w = (Ok, mkWorld (Cleanup c (fs w)) (<[a := true]> (chans w))).
Proof.
  intros Hc Ha. unfold Stop. rewrite Hc in *. unfold Chan.close. by rewrite Ha.
Qed.

Lemma Stop_closed c w :
  Chan.closed (chans w) (stop c) = true ->
  Stop c w = (Panic "close of closed channel", mkWorld (Cleanup c (fs w)) (chans w)).
Proof.
  intros Ha. unfold Stop, Chan.close. destruct (stop c) as [|a]; [done|].
  by rewrite Ha.
Qed.

(** C8 (as the code has it).  Raising the signal is one-shot.  On a
    [Config] whose channel is open, [Stop] returns normally, leaves the
    channel closed and has run [Cleanup].  On a [Config] whose channel
    is already closed, [Stop] panics with "close of closed channel"; the
    deferred [Cleanup] has still run and the channel stays closed.  The
    signal goroutine of [main] never makes that second call: whatever
    signals arrive, it calls [Stop] at most once and does not panic, and
    after any signal the channel is closed. *)
Theorem Stop_is_one_shot (c : Config) (w : World) (a : nat) (sigs : list Z) :
  stop c = Chan.chan_at a ->
  (Chan.closed (chans w) (stop c) = false ->
     Stop c w = (Ok, mkWorld (Cleanup c (fs w)) (<[a := true]> (chans w))) /\
     Chan.closed (chans (Stop c w).2) (stop c) = true) /\
  (Chan.closed (chans w) (stop c) = true ->
     Stop c w = (Panic "close of closed channel", mkWorld (Cleanup c (fs w)) (chans w)) /\
     Chan.closed (chans (Stop c w).2) (stop c) = true) /\
  (Chan.closed (chans w) (stop c) = false ->
     ((signal_handler c sigs w).2 <= 1)%nat /\
     (forall msg, (signal_handler c sigs w).1.1 <> Crashed msg) /\
     (sigs <> [] -> Chan.closed (chans (signal_handler c sigs w).1.2) (stop c) = true)).
Proof.
  intros Hc. split; [|split].
  - intros Ha. rewrite (Stop_open c w a) by done. split; [done|].
    simpl. rewrite Hc. apply closed_insert.
  - intros Ha. rewrite Stop_closed by done. by split.
  - intros Ha. unfold signal_handler.
    destruct sigs as [|sig sigs]; simpl.
    + split; [lia|]. by split.
    + rewrite (Stop_open c w a) by done.
      pose proof (closed_insert (chans w) a) as Hclosed. rewrite <- Hc in Hclosed.
      destruct sigs as [|sig' sigs]; simpl; (split; [lia|]); by split.
Qed.

Lemma Stop_is_one_shot_witness :
  (Stop fresh_config fresh_world).1 = Ok /\
  (Stop fresh_config (Stop fresh_config fresh_world).2).1
    = Panic "close of closed channel" /\
  ((signal_handler fresh_config some_signals fresh_world).2 <= 1)%nat.
Proof.
  split; [|split].
  - destruct (Stop_is_one_shot fresh_config fresh_world 0 some_signals) as (Hopen & _);
      [reflexivity|].
    destruct Hopen as [Hopen _]; [reflexivity|].
    rewrite Hopen. reflexivity.
  - destruct (Stop_is_one_shot fresh_config (Stop fresh_config fresh_world).2 0 some_signals)
      as (_ & Hclosed & _); [reflexivity|].
    destruct Hclosed as [Hclosed _]; [reflexivity|].
    rewrite Hclosed. reflexivity.
  - destruct (Stop_is_one_shot fresh_config fresh_world 0 some_signals) as (_ & _ & Hsig);
      [reflexivity|].
    destruct Hsig as [Hsig _]; [reflexivity|].
    exact Hsig.
Defined.

(** C8 as stated fails: the second [Stop] on the same [Config] panics. *)
Lemma Stop_twice_panics :
  (Stop fresh_config fresh_world).1 = Ok /\
  Chan.closed (chans (Stop fresh_config fresh_world).2) (stop fresh_config) = true /\
  (Stop fresh_config (Stop fresh_config fresh_world).2).1
    = Panic "close of closed channel".
Proof. repeat split; reflexivity. Qed.

(** Three signals in a row: one [Stop], then the process exits. *)
Example signal_handler_three_signals :
  (signal_handler fresh_config some_signals fresh_world).1.1 = Exited 1 /\
  (signal_handler fresh_config some_signals fresh_world).2 = 1%nat.
Proof. split; reflexivity. Qed.

Section Facts.
Variable Version : string.
Variable ioutil_TempDir : FS -> Error + string.

Lemma WriteManifest_again c (fs : FS) :
  Manifest c <> "" ->
  WriteManifest Version ioutil_TempDir c fs
  = (Panic ("already created manifest: " +:+ Manifest c), c, fs).
Proof. intros Hm. unfold WriteManifest. by destruct (decide (Manifest c <> "")). Qed.

Lemma WriteManifest_Ok c (fs : FS) c1 fs1 :
  WriteManifest Version ioutil_TempDir c fs = (Ok, c1, fs1) ->
  Manifest c1 <> "".
Proof.
  unfold WriteManifest. destruct (decide (Manifest c <> "")); [done|].
  destruct (TempDir ioutil_TempDir c fs) as [[[err|tmp] c'] fs'] eqn:Ht; [done|].
  destruct (OpenFile _ _ _ _); [done|].
  intros Heq; simplify_eq. simpl. by apply Join_nonempty.
Qed.

End Facts.

(** C10.  A [WriteManifest] on a [Config] whose [Manifest] field is
    already set panics and changes neither the [Config] nor the disk:
    no temporary directory is made, no file is created or written.  A
    [WriteManifest] that returned [nil] has set the field, so every
    later call on that [Config] is such a panic. *)
Theorem WriteManifest_at_most_once
    (Version : string) (ioutil_TempDir : FS -> Error + string)
    (c : Config) (fs : FS) :
  (Manifest c <> "" ->
     WriteManifest Version ioutil_TempDir c fs
     = (Panic ("already created manifest: " +:+ Manifest c), c, fs)) /\
  (forall c1 fs1 fs2,
     WriteManifest Version ioutil_TempDir c fs = (Ok, c1, fs1) ->
     WriteManifest Version ioutil_TempDir c1 fs2
     = (Panic ("already created manifest: " +:+ Manifest c1), c1, fs2)).
Proof.
  split.
  - apply WriteManifest_again.
  - intros c1 fs1 fs2 Hok. apply WriteManifest_again.
    by eapply WriteManifest_Ok.
Qed.

Example WriteManifest_first :
  WriteManifest "1.2" sample_TempDir (mkConfig "" "" "" "da39a3" "" (Chan.chan_at 0)) ∅
  = (Ok, written_config,
     <["/tmp/ova2stemcell-1/stemcell.MF" :=
         File 420 (bytes_of (manifest_text "1.2" "da39a3"))]>
       (<["/tmp/ova2stemcell-1" := Dir]> ∅)).
Proof. reflexivity. Qed.

Lemma WriteManifest_at_most_once_witness :
  WriteManifest "1.2" sample_TempDir written_config ∅
  = (Panic "already created manifest: /tmp/ova2stemcell-1/stemcell.MF",
     written_config, ∅)
  /\
  WriteManifest "1.2" sample_TempDir written_config busy_fs
  = (Panic "already created manifest: /tmp/ova2stemcell-1/stemcell.MF",
     written_config, busy_fs).
Proof.
  split.
  - apply (WriteManifest_at_most_once "1.2" sample_TempDir written_config ∅).
    vm_compute. discriminate.
  - apply (proj2 (WriteManifest_at_most_once "1.2" sample_TempDir
                      (mkConfig "" "" "" "da39a3" "" (Chan.chan_at 0)) ∅)
             written_config
             (<["/tmp/ova2stemcell-1/stemcell.MF" :=
                  File 420 (bytes_of (manifest_text "1.2" "da39a3"))]>
                (<["/tmp/ova2stemcell-1" := Dir]> ∅))
             busy_fs).
    reflexivity.
Defined.

End PipelineFacts.

(** ** The target of the patch and the other output files *)

Module OutputFacts.
Import OS OSFacts Samples.

(** C4 as stated fails: a call that ends in [HashNoMatchError] leaves
    the target it created, with the bytes it wrote, on the disk. *)
Lemma Patch_failure_leaves_target :
  (RDiff.toy_Patch "/in/basis" "/in/delta" "/out/new" true (patch_fs bad_sum_delta)).1
    = Err HashNoMatchError /\
  patch_fs bad_sum_delta !! "/out/new" = None /\
  (RDiff.toy_Patch "/in/basis" "/in/delta" "/out/new" true (patch_fs bad_sum_delta)).2
    !! "/out/new" = Some (File 438 [Byte.x41; Byte.x42; Byte.x43]).
Proof. repeat split; reflexivity. Qed.

(** C4 (as the code has it).  [Patch] never deletes the target.  For
    path names in resolved form: when both inputs can be opened and
    [os.Create] makes the target (a new file of mode 0666, or the file
    that was there, emptied), the call returns - with [nil] or with any
    error (header, apply, decode, checksum) - leaving the disk as it
    found it but for the target, which is a regular file holding the
    bytes written so far: none when the header of the delta could not
    be read and, the target being neither the basis nor the delta,
    exactly the bytes [ApplyDelta] wrote.  When an input is missing or
    [os.Create] fails, the call fails before anything is created and
    the disk is unchanged.  A target left behind inside the workspace
    goes away with the workspace, in [Config.Cleanup]. *)
Theorem Patch_never_deletes_target
    (Header : Node -> Error + (Z * bytes))
    (ReadOperations : bytes -> RDiff.Decoded)
    (ApplyDelta : Z -> Node -> list RDiff.Operation -> bytes * option Error)
    (md5sum : bytes -> bytes)
    (basis delta newfile : string) (checkFile : bool) (fs : FS) :
  resolved basis = true -> resolved delta = true -> resolved newfile = true ->
  (is_Some (fs !! basis) -> is_Some (fs !! delta) ->
   forall fs1, Create fs newfile = inr fs1 ->
     exists perm,
       perm = match fs !! newfile with Some (File p _) => p | _ => 438 end /\
       fs1 = <[newfile := File perm []]> fs /\
       (* however the call returns, the target is there and nothing else has changed *)
       (exists data,
          (RDiff.Patch Header ReadOperations ApplyDelta md5sum
             basis delta newfile checkFile fs).2 = <[newfile := File perm data]> fs) /\
       (* no header: nothing was written *)
       (forall deltaFile err,
          fs1 !! delta = Some deltaFile -> Header deltaFile = inl err ->
          (RDiff.Patch Header ReadOperations ApplyDelta md5sum
             basis delta newfile checkFile fs).2 = <[newfile := File perm []]> fs) /\
       (* otherwise: what [ApplyDelta] wrote *)
       (forall basisFile deltaFile blockSize rest,
          fs !! basis = Some basisFile -> fs !! delta = Some deltaFile ->
          basis <> newfile -> delta <> newfile ->
          Header deltaFile = inr (blockSize, rest) ->
          (RDiff.Patch Header ReadOperations ApplyDelta md5sum
             basis delta newfile checkFile fs).2
          = <[newfile := File perm
                (ApplyDelta blockSize basisFile
                   (RDiff.sent_ops (ReadOperations rest))).1]> fs)) /\
  (fs !! basis = None \/ fs !! delta = None \/ (exists err, Create fs newfile = inl err) ->
     failed (RDiff.Patch Header ReadOperations ApplyDelta md5sum
               basis delta newfile checkFile fs).1 = true /\
     (RDiff.Patch Header ReadOperations ApplyDelta md5sum
        basis delta newfile checkFile fs).2 = fs) /\
  (forall c, Pipeline.tmpdir c <> "" -> under (Pipeline.tmpdir c) newfile = true ->
     Pipeline.Cleanup c
       (RDiff.Patch Header ReadOperations ApplyDelta md5sum
          basis delta newfile checkFile fs).2 !! newfile = None).
Proof.
  intros _ _ _. split; [|split].
  - intros Hb Hd fs1 Hc.
    destruct (RDiffFacts.Patch_final_disk Header ReadOperations ApplyDelta md5sum
                basis delta newfile checkFile fs fs1 Hb Hd Hc)
      as (perm & b1 & d1 & Hperm & Hfs1 & Hb1 & Hd1 & Hfail & Hgo).
    exists perm. do 2 (split; [done|]). split; [|split].
    + destruct (Header d1) as [err|[blockSize rest]] eqn:Hh.
      * exists []. by apply (Hfail err).
      * eexists. by apply (Hgo blockSize rest).
    + intros deltaFile err Hd' Hh. simplify_eq. by apply (Hfail err).
    + intros basisFile deltaFile blockSize rest Hb' Hd' Hbn Hdn Hh. subst perm.
      by apply (RDiffFacts.Patch_final_disk_apart Header ReadOperations ApplyDelta md5sum
                  basis delta newfile checkFile fs fs1 basisFile deltaFile).
  - intros Hpre. unfold RDiff.Patch, Open.
    destruct (fs !! basis) as [b|] eqn:Hb; [|done].
    destruct (fs !! delta) as [d|] eqn:Hd; [|done].
    destruct Hpre as [?|[?|[err Hc]]]; [done..|].
    by rewrite Hc.
  - intros c Hne Hunder. by apply PipelineFacts.Cleanup_removes_workspace.
Qed.

Lemma Patch_never_deletes_target_witness :
  (RDiff.toy_Patch "/in/basis" "/in/delta" "/out/new" true (patch_fs bad_sum_delta)).2
  = <["/out/new" := File 438 [Byte.x41; Byte.x42; Byte.x43]]> (patch_fs bad_sum_delta) /\
  (failed (RDiff.toy_Patch "/in/none" "/in/delta" "/out/new" true
             (patch_fs good_delta)).1 = true /\
   (RDiff.toy_Patch "/in/none" "/in/delta" "/out/new" true (patch_fs good_delta)).2
     = patch_fs good_delta) /\
  Pipeline.Cleanup out_config
    (RDiff.toy_Patch "/in/basis" "/in/delta" "/out/new" true (patch_fs bad_sum_delta)).2
    !! "/out/new" = None.
Proof.
  split; [|split].
  - destruct (Patch_never_deletes_target RDiff.toy_Header RDiff.toy_ReadOperations
                RDiff.toy_ApplyDelta RDiff.toy_md5sum
                "/in/basis" "/in/delta" "/out/new" true (patch_fs bad_sum_delta)
                eq_refl eq_refl eq_refl) as (Hmade & _ & _).
    destruct (Hmade ltac:(eexists; reflexivity) ltac:(eexists; reflexivity)
                (<["/out/new" := File 438 []]> (patch_fs bad_sum_delta)) eq_refl)
      as (perm & -> & _ & _ & _ & Hgo).
    apply (Hgo (File 420 (bytes_of "AAAABBBBCCCC")) (File 420 bad_sum_delta)
             4 [Byte.x01; Byte.x09; Byte.x41; Byte.x42; Byte.x43]).
    + reflexivity.
    + reflexivity.
    + discriminate.
    + discriminate.
    + reflexivity.
  - apply (Patch_never_deletes_target RDiff.toy_Header RDiff.toy_ReadOperations
             RDiff.toy_ApplyDelta RDiff.toy_md5sum
             "/in/none" "/in/delta" "/out/new" true (patch_fs good_delta)
             eq_refl eq_refl eq_refl).
    left. reflexivity.
  - apply (Patch_never_deletes_target RDiff.toy_Header RDiff.toy_ReadOperations
             RDiff.toy_ApplyDelta RDiff.toy_md5sum
             "/in/basis" "/in/delta" "/out/new" true (patch_fs bad_sum_delta)
             eq_refl eq_refl eq_refl).
    + vm_compute. discriminate.
    + vm_compute. reflexivity.
Defined.

(** C9 as stated fails for the patched target: [Patch] opens an existing
    file at the target path, empties it and writes the result over it. *)
Lemma Patch_overwrites_existing_target :
  taken_fs !! "/out/new" = Some (File 420 (bytes_of "precious")) /\
  (RDiff.toy_Patch "/in/basis" "/in/delta" "/out/new" true taken_fs).1 = Ok /\
  (RDiff.toy_Patch "/in/basis" "/in/delta" "/out/new" true taken_fs).2 !! "/out/new"
  = Some (File 420 [Byte.x41; Byte.x42; Byte.x43]).
Proof. repeat split; reflexivity. Qed.

(** C9 (as the code has it).  The files made by the stages of package
    [main] are created with [O_CREATE|O_EXCL]: when something already
    exists at the destination path,
    - [ExtractOVA] fails on that entry with the open error (this covers
      a second entry of the same name) and writes nothing for it,
    - [WriteManifest] fails with the create error,
    - [CreateStemcell] fails with the open error,
    - [CreateImageFromOVA] and [CreateImageFromOVF] fail with the
      create error,
    each leaving the disk as it was when the creation was attempted.
    The target of [rdiff.Patch] is made with [os.Create]: an existing
    regular file at the target path is opened and truncated, and the
    patch is written over it - when the call returns, however it
    returns, the file holds under the mode it had nothing of what it
    held: no byte when the header of the delta could not be read and,
    the target being neither the basis nor the delta, exactly the bytes
    [ApplyDelta] wrote; the rest of the disk is as it was. *)
Theorem output_files_creation
    (tarNewReader : Node -> Tar.Archive)
    (Version : string) (ioutil_TempDir : FS -> Error + string)
    (ioutil_ReadDir : FS -> string -> Error + list string)
    (gzip : bytes -> bytes) (tar : list (string * Node) -> bytes)
    (sha1hex : bytes -> string)
    (Header : Node -> Error + (Z * bytes))
    (ReadOperations : bytes -> RDiff.Decoded)
    (ApplyDelta : Z -> Node -> list RDiff.Operation -> bytes * option Error)
    (md5sum : bytes -> bytes) :
  (* each extracted archive entry *)
  (forall ova dirname (fs : FS) tf pre e post,
     fs !! ova = Some tf ->
     Tar.entries (tarNewReader tf) = pre ++ e :: post ->
     (length pre <= 100)%nat ->
     Ova.extractable dirname pre fs ->
     Path.Base (Tar.Name e) = Tar.Name e ->
     IsRegular (Tar.Mode e) = true ->
     is_Some (Ova.write_entries dirname pre fs !! Ova.dest dirname e) ->
     Ova.ExtractOVA tarNewReader ova dirname fs
     = (Err (ErrTarOpen (Ova.dest dirname e) (EEXIST (Ova.dest dirname e))),
        Ova.write_entries dirname pre fs)) /\
  (* the manifest *)
  (forall c (fs : FS) tmp c1 fs1,
     Pipeline.Manifest c = "" ->
     Pipeline.TempDir ioutil_TempDir c fs = (inr tmp, c1, fs1) ->
     is_Some (fs1 !! Path.Join tmp "stemcell.MF") ->
     Pipeline.WriteManifest Version ioutil_TempDir c fs
     = (Err (ErrManifestCreate (Path.Join tmp "stemcell.MF")
               (EEXIST (Path.Join tmp "stemcell.MF"))),
        Pipeline.set_Manifest c1 (Path.Join tmp "stemcell.MF"), fs1)) /\
  (* the stemcell archive *)
  (forall c w tmp c1 fs1,
     Pipeline.Manifest c <> "" -> Pipeline.Image c <> "" ->
     Pipeline.TempDir ioutil_TempDir c (Pipeline.fs w) = (inr tmp, c1, fs1) ->
     is_Some (fs1 !! Path.Join tmp (Pipeline.StemcellFilename Version)) ->
     Pipeline.CreateStemcell Version ioutil_TempDir gzip tar c w
     = (Err (EEXIST (Path.Join tmp (Pipeline.StemcellFilename Version))),
        Pipeline.set_Stemcell c1 (Path.Join tmp (Pipeline.StemcellFilename Version)),
        Pipeline.mkWorld fs1 (Pipeline.chans w))) /\
  (* the image, made from an archive *)
  (forall c name w tmp c1 fs1,
     is_Some (Pipeline.fs w !! name) ->
     Pipeline.TempDir ioutil_TempDir c (Pipeline.fs w) = (inr tmp, c1, fs1) ->
     is_Some (fs1 !! Path.Join tmp "image") ->
     Pipeline.CreateImageFromOVA ioutil_TempDir gzip sha1hex c name w
     = (Err (ErrImageCreate (Path.Join tmp "image") (EEXIST (Path.Join tmp "image"))),
        Pipeline.set_Image c1 (Path.Join tmp "image"),
        Pipeline.mkWorld fs1 (Pipeline.chans w))) /\
  (* the image, made from a directory *)
  (forall c dirname w fis tmp c1 fs1,
     ioutil_ReadDir (Pipeline.fs w) dirname = inr fis ->
     Pipeline.TempDir ioutil_TempDir c (Pipeline.fs w) = (inr tmp, c1, fs1) ->
     is_Some (fs1 !! Path.Join tmp "image") ->
     Stages.CreateImageFromOVF ioutil_TempDir ioutil_ReadDir gzip tar sha1hex c dirname w
     = (Some (Stages.ErrOvfOther
                (ErrImageCreate (Path.Join tmp "image") (EEXIST (Path.Join tmp "image")))),
        Pipeline.set_Image c1 (Path.Join tmp "image"),
        Pipeline.mkWorld fs1 (Pipeline.chans w))) /\
  (* the patched target *)
  (forall basis delta newfile checkFile (fs : FS) perm old,
     is_Some (fs !! basis) -> is_Some (fs !! delta) ->
     fs !! newfile = Some (File perm old) ->
     Create fs newfile = inr (<[newfile := File perm []]> fs) /\
     (exists data,
        (RDiff.Patch Header ReadOperations ApplyDelta md5sum
           basis delta newfile checkFile fs).2 = <[newfile := File perm data]> fs) /\
     (forall deltaFile err,
        <[newfile := File perm []]> fs !! delta = Some deltaFile ->
        Header deltaFile = inl err ->
        (RDiff.Patch Header ReadOperations ApplyDelta md5sum
           basis delta newfile checkFile fs).2 = <[newfile := File perm []]> fs) /\
     (forall basisFile deltaFile blockSize rest,
        fs !! basis = Some basisFile -> fs !! delta = Some deltaFile ->
        basis <> newfile -> delta <> newfile ->
        Header deltaFile = inr (blockSize, rest) ->
        (RDiff.Patch Header ReadOperations ApplyDelta md5sum
           basis delta newfile checkFile fs).2
        = <[newfile := File perm
              (ApplyDelta blockSize basisFile
                 (RDiff.sent_ops (ReadOperations rest))).1]> fs)).
Proof.
  split; [|split; [|split; [|split; [|split]]]].
  - intros ova dirname fs tf pre e post Hova Hes Hlen Hext Hbase Hreg Htaken.
    unfold Ova.ExtractOVA, Open. rewrite Hova, Hes.
    rewrite OvaFacts.extract_loop_prefix by (done || lia).
    simpl. destruct (Z.ltb_spec (100 - Z.of_nat (length pre)) 0) as [?|_]; [lia|].
    rewrite bool_decide_eq_true_2 by done. simpl. rewrite Hreg. simpl.
    fold (Ova.dest dirname e).
    by rewrite OpenFile_excl_exists.
  - intros c fs tmp c1 fs1 Hm Htmp Htaken. unfold Pipeline.WriteManifest.
    destruct (decide (Pipeline.Manifest c <> "")); [done|].
    rewrite Htmp. simpl. by rewrite OpenFile_excl_exists.
  - intros c w tmp c1 fs1 Hm Hi Htmp Htaken. unfold Pipeline.CreateStemcell.
    destruct (decide (Pipeline.Manifest c = "")); [done|].
    destruct (decide (Pipeline.Image c = "")); [done|].
    rewrite Htmp. simpl. by rewrite OpenFile_excl_exists.
  - intros c name w tmp c1 fs1 [ova Hova] Htmp Htaken.
    unfold Pipeline.CreateImageFromOVA, Open. rewrite Hova, Htmp. simpl.
    by rewrite OpenFile_excl_exists.
  - intros c dirname w fis tmp c1 fs1 Hfis Htmp Htaken.
    unfold Stages.CreateImageFromOVF. rewrite Hfis, Htmp. simpl.
    by rewrite OpenFile_excl_exists.
  - intros basis delta newfile checkFile fs perm old Hb Hd Hnew.
    assert (Create fs newfile = inr (<[newfile := File perm []]> fs)) as Hc
      by by rewrite Create_result, Hnew.
    split; [done|].
    destruct (RDiffFacts.Patch_final_disk Header ReadOperations ApplyDelta md5sum
                basis delta newfile checkFile fs _ Hb Hd Hc)
      as (perm' & b1 & d1 & Hperm & _ & Hb1 & Hd1 & Hfail & Hgo).
    rewrite Hnew in Hperm. subst perm'. split; [|split].
    + destruct (Header d1) as [err|[blockSize rest]] eqn:Hh.
      * exists []. by apply (Hfail err).
      * eexists. by apply (Hgo blockSize rest).
    + intros deltaFile err Hd' Hh. simplify_eq. by apply (Hfail err).
    + intros basisFile deltaFile blockSize rest Hb' Hd' Hbn Hdn Hh.
      rewrite (RDiffFacts.Patch_final_disk_apart Header ReadOperations ApplyDelta md5sum
                 basis delta newfile checkFile fs _ basisFile deltaFile blockSize rest)
        by done.
      by rewrite Hnew.
Qed.

Lemma output_files_creation_witness :
  Ova.ExtractOVA twice_reader "/in/image.ova" "/dst" sample_fs
  = (Err (ErrTarOpen "/dst/file-0" (EEXIST "/dst/file-0")),
     Ova.write_entries "/dst" [numbered 0] sample_fs) /\
  Pipeline.WriteManifest "1.2" sample_TempDir busy_config busy_fs
  = (Err (ErrManifestCreate "/tmp/w/stemcell.MF" (EEXIST "/tmp/w/stemcell.MF")),
     Pipeline.set_Manifest busy_config "/tmp/w/stemcell.MF", busy_fs) /\
  Create taken_fs "/out/new" = inr (<["/out/new" := File 420 []]> taken_fs) /\
  (RDiff.toy_Patch "/in/basis" "/in/delta" "/out/new" true taken_fs).2
  = <["/out/new" := File 420 [Byte.x41; Byte.x42; Byte.x43]]> taken_fs.
Proof.
  pose proof (output_files_creation twice_reader "1.2" sample_TempDir
                (fun _ _ => inr []) (fun b => b) (fun _ => []) (fun _ => "")
                RDiff.toy_Header RDiff.toy_ReadOperations RDiff.toy_ApplyDelta
                RDiff.toy_md5sum) as (Hextract & Hmanifest & _ & _ & _ & Hpatch).
  split; [|split].
  - apply (Hextract "/in/image.ova" "/dst" sample_fs (File 420 [])
             [numbered 0] (numbered 0) []).
    + reflexivity.
    + reflexivity.
    + simpl. lia.
    + apply OvaFacts.extractable_decide. vm_compute. reflexivity.
    + vm_compute. reflexivity.
    + vm_compute. reflexivity.
    + eexists. reflexivity.
  - apply (Hmanifest busy_config busy_fs "/tmp/w" busy_config busy_fs).
    + reflexivity.
    + reflexivity.
    + eexists. reflexivity.
  - destruct (Hpatch "/in/basis" "/in/delta" "/out/new" true taken_fs 420
                (bytes_of "precious") ltac:(eexists; reflexivity)
                ltac:(eexists; reflexivity) eq_refl)
      as (Hcreate & _ & _ & Hgo).
    split; [exact Hcreate|].
    apply (Hgo (File 420 (bytes_of "AAAABBBBCCCC")) (File 420 good_delta)
             4 [Byte.x01; Byte.x03; Byte.x41; Byte.x42; Byte.x43]).
    + reflexivity.
    + reflexivity.
    + discriminate.
    + discriminate.
    + reflexivity.
Defined.

End OutputFacts.

(** ** Removing a device block *)

Module OVFFacts.
Import OVF Samples.

Lemma append_assoc (s1 s2 s3 : string) : (s1 +:+ s2) +:+ s3 = s1 +:+ (s2 +:+ s3).
Proof.
  induction s1 as [|a s1 IH]; [done|].
  change (String a ((s1 +:+ s2) +:+ s3) = String a (s1 +:+ (s2 +:+ s3))).
  by rewrite IH.
Qed.

Lemma render_app d1 d2 : render (d1 ++ d2) = render d1 +:+ render d2.
Proof.
  induction d1 as [|p d1 IH]; simpl; [done|].
  rewrite IH. by rewrite append_assoc.
Qed.

(** A document with exactly one matching block splits around it. *)
Lemma matching_one blockId d b :
  matching blockId d = [b] ->
  exists pre post,
    d = pre ++ b :: post /\
    is_block blockId b = true /\
    matching blockId pre = [] /\ matching blockId post = [] /\
    remove_block blockId d = pre ++ post.
Proof.
  induction d as [|p d IH]; simpl; [done|].
  destruct (is_block blockId p) eqn:Hp.
  - intros Heq. injection Heq as -> Hrest.
    exists [], d. simpl. by rewrite Hp.
  - intros Hm. destruct (IH Hm) as (pre & post & -> & Hb & Hpre & Hpost & Hrem).
    exists (p :: pre), post. simpl. rewrite Hp, Hrem. by repeat split.
Qed.

Lemma matching_app blockId d1 d2 :
  matching blockId (d1 ++ d2) = matching blockId d1 ++ matching blockId d2.
Proof. unfold matching. apply List.filter_app. Qed.

(** C5.  [RemoveItemBlock] returns [ErrElementNotFound] when no block
    has the identifier and [ErrMultipleElementsFound] when two or more
    have it.  When exactly one block [b] has it, the call succeeds and
    the document splits as [pre], [b], [post] with the result being
    [pre] followed by [post]: as strings, the result is the input with
    the span of [b] cut out and every other byte in place.  No block of
    the result has the identifier, so removing it from the result
    returns [ErrElementNotFound]. *)
Theorem RemoveItemBlock_spec (d : Document) (blockId : string) :
  (matching blockId d = [] -> RemoveItemBlock d blockId = inl ErrElementNotFound) /\
  ((2 <= length (matching blockId d))%nat ->
     RemoveItemBlock d blockId = inl ErrMultipleElementsFound) /\
  (forall b, matching blockId d = [b] ->
     exists ident pre post,
       b = Block ident (span_of b) /\ ident = blockId /\
       d = pre ++ b :: post /\
       RemoveItemBlock d blockId = inr (pre ++ post) /\
       render d = render pre +:+ span_of b +:+ render post /\
       render (pre ++ post) = render pre +:+ render post /\
       RemoveItemBlock (pre ++ post) blockId = inl ErrElementNotFound).
Proof.
  split; [|split].
  - intros Hm. unfold RemoveItemBlock. by rewrite Hm.
  - intros Hlen. unfold RemoveItemBlock.
    destruct (matching blockId d) as [|b1 [|b2 rest]]; simpl in Hlen; (done || lia).
  - intros b Hm.
    destruct (matching_one blockId d b Hm) as (pre & post & Hd & Hb & Hpre & Hpost & Hrem).
    destruct b as [s|ident span]; [done|].
    exists ident, pre, post.
    split; [done|]. split; [by apply bool_decide_eq_true_1 in Hb|].
    split; [done|]. split; [|split; [|split]].
    + unfold RemoveItemBlock. by rewrite Hm, Hrem.
    + rewrite Hd, render_app. done.
    + apply render_app.
    + unfold RemoveItemBlock. by rewrite matching_app, Hpre, Hpost.
Qed.

Example RemoveItemBlock_sample :
  RemoveItemBlock sample_ovf "ethernet0"
  = inr [Text "<Section>"; Block "scsi0" "<Item>scsi0</Item>";
         Text (String "010"%char "  "); Text (String "010"%char "</Section>")].
Proof. reflexivity. Qed.

Lemma RemoveItemBlock_spec_witness :
  RemoveItemBlock sample_ovf "ethernet1" = inl ErrElementNotFound /\
  RemoveItemBlock (sample_ovf ++ sample_ovf) "ethernet0" = inl ErrMultipleElementsFound /\
  exists ident pre post,
    Block "ethernet0" "<Item>ethernet0</Item>"
      = Block ident (span_of (Block "ethernet0" "<Item>ethernet0</Item>")) /\
    ident = "ethernet0" /\
    sample_ovf = pre ++ Block "ethernet0" "<Item>ethernet0</Item>" :: post /\
    RemoveItemBlock sample_ovf "ethernet0" = inr (pre ++ post) /\
    render sample_ovf
      = render pre +:+ span_of (Block "ethernet0" "<Item>ethernet0</Item>") +:+ render post /\
    render (pre ++ post) = render pre +:+ render post /\
    RemoveItemBlock (pre ++ post) "ethernet0" = inl ErrElementNotFound.
Proof.
  split; [|split].
  - apply (RemoveItemBlock_spec sample_ovf "ethernet1"). reflexivity.
  - apply (RemoveItemBlock_spec (sample_ovf ++ sample_ovf) "ethernet0"). simpl. lia.
  - apply (RemoveItemBlock_spec sample_ovf "ethernet0"). reflexivity.
Defined.

End OVFFacts.

(** ** Archive extraction: what is on the disk afterwards *)

Module OvaMore.
Import Tar Ova OSFacts OvaFacts Samples MoreSamples.

(** A successful exclusive creation: the path was free, its directory
    was there, and the new file is empty. *)
Lemma OpenFile_excl_inr (fs fs1 : OS.FS) path perm :
  OS.OpenFile fs path excl_flags perm = inr fs1 ->
  fs !! path = None /\ fs !! Path.Dir path = Some OS.Dir /\
  fs1 = <[path := OS.File (OS.syscallMode perm) []]> fs.
Proof.
  unfold OS.OpenFile. destruct (fs !! path) as [n|]; [done|].
  change (OS.has excl_flags OS.O_CREATE) with true. cbv iota.
  destruct (fs !! Path.Dir path) as [[|p d]|]; [|done..].
  intros Heq; simplify_eq. done.
Qed.

Section Facts.
Variable tarNewReader : OS.Node -> Archive.
Variables (ova dirname : string).

(** One accepted entry: what the loop does with it. *)
Lemma extract_loop_cons eof limit e es (fs : OS.FS) r fs' :
  extract_loop ova dirname eof limit (e :: es) fs = (r, fs') ->
  0 <= limit ->
  (r = inl (ErrTarSubdirectory (Name e)) /\ fs' = fs) \/
  (r = inl (ErrTarFileMode (Name e) (Mode e)) /\ fs' = fs) \/
  (exists err, r = inl (ErrTarOpen (dest dirname e) err) /\ fs' = fs) \/
  (Path.Base (Name e) = Name e /\ OS.IsRegular (Mode e) = true /\
   fs !! dest dirname e = None /\ fs !! Path.Dir (dest dirname e) = Some OS.Dir /\
   ((exists err, BodyErr e = Some err /\ r = inl (ErrTarWrite (dest dirname e) err) /\
                 fs' = <[dest dirname e := file_of e]> fs) \/
    (BodyErr e = None /\
     extract_loop ova dirname eof (limit - 1) es (<[dest dirname e := file_of e]> fs)
     = (r, fs')))).
Proof.
  intros Hloop Hlimit. simpl in Hloop.
  destruct (Z.ltb_spec limit 0) as [?|_]; [lia|].
  destruct (bool_decide (Path.Base (Name e) = Name e)) eqn:Hbase; simpl in Hloop;
    [apply bool_decide_eq_true_1 in Hbase|simplify_eq; by left].
  destruct (OS.IsRegular (Mode e)) eqn:Hreg; simpl in Hloop;
    [|simplify_eq; right; by left].
  fold (dest dirname e) in Hloop.
  destruct (OS.OpenFile fs (dest dirname e) excl_flags (Mode e)) as [err|fs1] eqn:Hopen;
    [simplify_eq; right; right; left; by exists err|].
  apply OpenFile_excl_inr in Hopen as (Hfree & Hdir & ->).
  rewrite append_file_insert in Hloop. simpl in Hloop. fold (file_of e) in Hloop.
  right; right; right. do 4 (split; [done|]).
  destruct (BodyErr e) as [err|]; [left; exists err; by simplify_eq|by right].
Qed.

(** The loop only ever adds paths. *)
Lemma extract_loop_subseteq eof es : forall limit (fs : OS.FS) r fs',
  extract_loop ova dirname eof limit es fs = (r, fs') -> fs ⊆ fs'.
Proof.
  induction es as [|e es IH]; intros limit fs r fs' Hloop.
  - simpl in Hloop. destruct (limit <? 0); [by simplify_eq|].
    destruct eof; by simplify_eq.
  - destruct (Z.ltb_spec limit 0) as [Hneg|Hpos].
    { simpl in Hloop. destruct (Z.ltb_spec limit 0); [by simplify_eq|lia]. }
    destruct (extract_loop_cons _ _ _ _ _ _ _ Hloop Hpos)
      as [[_ ->]|[[_ ->]|[(err & _ & ->)|(_ & _ & Hfree & _ & Hres)]]]; [done..|].
    destruct Hres as [(err & _ & _ & ->)|(_ & Hloop')].
    + by apply insert_subseteq.
    + etrans; [by apply insert_subseteq|]. by eapply IH.
Qed.

(** Every path the loop adds is the destination of one of the entries
    it got to, and holds that entry's bytes. *)
Lemma extract_loop_new eof es : forall limit (fs : OS.FS) r fs' p n,
  extract_loop ova dirname eof limit es fs = (r, fs') ->
  fs !! p = None -> fs' !! p = Some n ->
  exists e, e ∈ take (Z.to_nat (limit + 1)) es /\ p = dest dirname e /\
            Path.Base (Name e) = Name e /\ OS.IsRegular (Mode e) = true /\
            n = file_of e.
Proof.
  induction es as [|e es IH]; intros limit fs r fs' p n Hloop Hp Hn.
  - simpl in Hloop. destruct (limit <? 0); [simplify_eq; congruence|].
    destruct eof; simplify_eq; congruence.
  - destruct (Z.ltb_spec limit 0) as [Hneg|Hpos].
    { simpl in Hloop. destruct (Z.ltb_spec limit 0); [simplify_eq; congruence|lia]. }
    assert (exists k, Z.to_nat (limit + 1) = S k /\ Z.to_nat (limit - 1 + 1) = k)
      as (k & Hk & Hk') by (exists (Z.to_nat limit); lia).
    rewrite Hk. simpl.
    destruct (extract_loop_cons _ _ _ _ _ _ _ Hloop Hpos)
      as [[_ ->]|[[_ ->]|[(err & _ & ->)|(Hbase & Hreg & Hfree & _ & Hres)]]];
      [congruence..|].
    destruct (decide (p = dest dirname e)) as [->|Hne].
    + exists e. split; [apply elem_of_cons; by left|]. do 3 (split; [done|]).
      assert (<[dest dirname e := file_of e]> fs ⊆ fs') as Hsub.
      { destruct Hres as [(err & _ & _ & ->)|(_ & Hloop')]; [done|].
        by eapply extract_loop_subseteq. }
      eapply lookup_weaken in Hsub; [|apply lookup_insert_eq]. congruence.
    + destruct Hres as [(err & _ & _ & ->)|(_ & Hloop')].
      { rewrite lookup_insert_ne in Hn by done. congruence. }
      destruct (IH _ _ _ _ p n Hloop') as (e' & Hin & Hrest); [by rewrite lookup_insert_ne|done|].
      rewrite Hk' in Hin. exists e'. split; [apply elem_of_cons; by right|done].
Qed.

(** The loop adds at most one path per turn. *)
Lemma extract_loop_size eof es : forall limit (fs : OS.FS) r fs',
  extract_loop ova dirname eof limit es fs = (r, fs') ->
  (size fs' <= size fs + Z.to_nat (limit + 1))%nat.
Proof.
  induction es as [|e es IH]; intros limit fs r fs' Hloop.
  - simpl in Hloop. destruct (limit <? 0); [simplify_eq; lia|].
    destruct eof; simplify_eq; lia.
  - destruct (Z.ltb_spec limit 0) as [Hneg|Hpos].
    { simpl in Hloop. destruct (Z.ltb_spec limit 0); [simplify_eq; lia|lia]. }
    destruct (extract_loop_cons _ _ _ _ _ _ _ Hloop Hpos)
      as [[_ ->]|[[_ ->]|[(err & _ & ->)|(_ & _ & Hfree & _ & Hres)]]]; [lia..|].
    destruct Hres as [(err & _ & _ & ->)|(_ & Hloop')].
    + rewrite map_size_insert_None by done. lia.
    + apply IH in Hloop'. rewrite map_size_insert_None in Hloop' by done. lia.
Qed.

(** The converse of [extractable_cons]. *)
Lemma extractable_cons_2 e es (fs : OS.FS) :
  flat_regular e ->
  fs !! dest dirname e = None -> fs !! Path.Dir (dest dirname e) = Some OS.Dir ->
  extractable dirname es (<[dest dirname e := file_of e]> fs) ->
  extractable dirname (e :: es) fs.
Proof.
  intros He Hfree Hdir (Hflat & Hnodup & Hfresh).
  split; [by apply Forall_cons|]. split.
  - rewrite fmap_cons. apply NoDup_cons. split; [|done].
    intros Hin. apply list_elem_of_fmap in Hin as (e' & Heq & Hin).
    eapply Forall_forall in Hfresh as [Hfree' _]; [|done].
    rewrite <- Heq, lookup_insert_eq in Hfree'. done.
  - apply Forall_cons. split; [done|].
    apply Forall_forall. intros e' Hin.
    eapply Forall_forall in Hfresh as [Hfree' Hdir']; [|done].
    apply lookup_insert_None in Hfree' as [Hfree' Hne]. split; [done|].
    rewrite lookup_insert_Some in Hdir'. destruct Hdir' as [[_ ?]|[_ ?]]; done.
Qed.

(** A loop that is left with a positive [limit] has met the end of the
    archive and has written every entry. *)
Lemma extract_loop_done eof es : forall limit (fs : OS.FS) l fs',
  extract_loop ova dirname eof limit es fs = (inr l, fs') ->
  0 < l ->
  eof = None /\ l = limit - Z.of_nat (length es) /\
  extractable dirname es fs /\ fs' = write_entries dirname es fs.
Proof.
  induction es as [|e es IH]; intros limit fs l fs' Hloop Hl.
  - simpl in Hloop. destruct (Z.ltb_spec limit 0); [simplify_eq; lia|].
    destruct eof; simplify_eq. split; [done|]. split; [simpl; lia|].
    split; [|done]. split; [done|]. split; [apply NoDup_nil_2|done].
  - destruct (Z.ltb_spec limit 0) as [Hneg|Hpos].
    { simpl in Hloop. destruct (Z.ltb_spec limit 0); [simplify_eq; lia|lia]. }
    destruct (extract_loop_cons _ _ _ _ _ _ _ Hloop Hpos)
      as [[? _]|[[? _]|[(err & ? & _)|(Hbase & Hreg & Hfree & Hdir & Hres)]]];
      [done..|].
    destruct Hres as [(err & _ & ? & _)|(Hbody & Hloop')]; [done|].
    apply IH in Hloop' as (-> & -> & Hext & ->); [|done].
    split; [done|]. split; [simpl length; lia|]. split; [|done].
    by apply extractable_cons_2.
Qed.

(** What a call that returned [nil] has met. *)
Lemma ExtractOVA_Ok_inv (fs : OS.FS) :
  (ExtractOVA tarNewReader ova dirname fs).1 = Ok ->
  exists tf,
    fs !! ova = Some tf /\
    trailer (tarNewReader tf) = None /\
    (length (entries (tarNewReader tf)) <= 99)%nat /\
    extractable dirname (entries (tarNewReader tf)) fs.
Proof.
  unfold ExtractOVA, OS.Open.
  destruct (fs !! ova) as [tf|] eqn:Hova; [|done].
  destruct (extract_loop _ _ _ _ _ _) as [[err|limit] fs'] eqn:Hloop; [done|].
  destruct (Z.leb_spec limit 0) as [|Hpos]; [done|]. intros _.
  apply extract_loop_done in Hloop as (Heof & Hlen & Hext & _); [|done].
  exists tf. split; [done|]. split; [done|]. split; [lia|done].
Qed.

End Facts.

(** X1.  [ExtractOVA] never removes, replaces or changes anything that
    was on the disk before the call: whatever the archive holds and
    however the call ends, every path that existed still names the same
    node afterwards. *)
Theorem ExtractOVA_keeps_existing_files
    (tarNewReader : OS.Node -> Archive) (ova dirname : string) (fs : OS.FS) :
  fs ⊆ (ExtractOVA tarNewReader ova dirname fs).2 /\
  (forall p n, fs !! p = Some n ->
     (ExtractOVA tarNewReader ova dirname fs).2 !! p = Some n).
Proof.
  assert (fs ⊆ (ExtractOVA tarNewReader ova dirname fs).2) as Hsub.
  { unfold ExtractOVA. destruct (OS.Open fs ova) as [err|tf]; [done|].
    destruct (extract_loop _ _ _ _ _ _) as [[err|limit] fs'] eqn:Hloop;
      [|destruct (limit <=? 0)]; simpl; by eapply extract_loop_subseteq. }
  split; [done|]. intros p n Hp. by eapply lookup_weaken.
Qed.

(** X2.  Every file that is on the disk after [ExtractOVA] and was not
    there before is the destination [Join(dirname, name)] of one of the
    first 101 entries of the archive; that entry has a flat name and the
    mode of a regular file, and the file holds the entry's permission
    bits and the bytes read for it. *)
Theorem ExtractOVA_new_files_are_entries
    (tarNewReader : OS.Node -> Archive) (ova dirname : string) (fs : OS.FS) p n :
  fs !! p = None ->
  (ExtractOVA tarNewReader ova dirname fs).2 !! p = Some n ->
  exists tf e,
    fs !! ova = Some tf /\
    e ∈ take 101 (entries (tarNewReader tf)) /\
    p = Path.Join dirname (Name e) /\
    Path.Base (Name e) = Name e /\ OS.IsRegular (Mode e) = true /\
    n = OS.File (OS.syscallMode (Mode e)) (Body e).
Proof.
  intros Hp Hn. unfold ExtractOVA, OS.Open in Hn.
  destruct (fs !! ova) as [tf|] eqn:Hova; [|simpl in Hn; congruence].
  destruct (extract_loop _ _ _ _ _ _) as [r fs'] eqn:Hloop.
  assert (fs' !! p = Some n) as Hn'.
  { destruct r as [err|limit]; [done|]. by destruct (limit <=? 0). }
  destruct (extract_loop_new _ _ _ _ _ _ _ _ _ _ Hloop Hp Hn') as (e & Hin & Hrest).
  by exists tf, e.
Qed.

Lemma ExtractOVA_new_files_are_entries_witness :
  exists tf e,
    sample_fs !! "/in/image.ova" = Some tf /\
    e ∈ take 101 (entries (numbered_reader 10 tf)) /\
    "/dst/file-7" = Path.Join "/dst" (Name e) /\
    Path.Base (Name e) = Name e /\ OS.IsRegular (Mode e) = true /\
    OS.File 420 (bytes_of (String "7"%char (String "010"%char "")))
    = OS.File (OS.syscallMode (Mode e)) (Body e).
Proof.
  apply (ExtractOVA_new_files_are_entries (numbered_reader 10)
           "/in/image.ova" "/dst" sample_fs "/dst/file-7").
  - reflexivity.
  - vm_compute. reflexivity.
Defined.

(** X3.  [ExtractOVA] adds at most 101 files to the disk, whatever the
    archive holds: the loop runs for [limit] = 100 down to 0. *)
Theorem ExtractOVA_adds_at_most_101_files
    (tarNewReader : OS.Node -> Archive) (ova dirname : string) (fs : OS.FS) :
  (size (ExtractOVA tarNewReader ova dirname fs).2 <= size fs + 101)%nat.
Proof.
  unfold ExtractOVA. destruct (OS.Open fs ova) as [err|tf]; [simpl; lia|].
  destruct (extract_loop _ _ _ _ _ _) as [r fs'] eqn:Hloop.
  apply extract_loop_size in Hloop.
  destruct r as [err|limit]; [|destruct (limit <=? 0)]; simpl; lia.
Qed.

(** Destinations in resolved form, checked entry by entry. *)
Lemma resolved_dests dirname (es : list Entry) :
  forallb (fun e => OS.resolved (dest dirname e)) es = true ->
  forall e, e ∈ es -> OS.resolved (dest dirname e) = true.
Proof.
  intros Hall e He. apply list_elem_of_In in He.
  by apply (proj1 (forallb_forall _ _) Hall).
Qed.

(** X4.  For an archive named in resolved form whose entries have
    destinations [Join(dirname, name)] in resolved form, [ExtractOVA]
    returns [nil] exactly when the archive file is there to be opened,
    the archive ends cleanly after at most 99 entries, and every entry
    is a flat regular file read to its end whose destination is free,
    differs from the other destinations and lies in a directory that
    exists. *)
Theorem ExtractOVA_succeeds_iff
    (tarNewReader : OS.Node -> Archive) (ova dirname : string) (fs : OS.FS) :
  OS.resolved ova = true ->
  (forall tf e, fs !! ova = Some tf -> e ∈ entries (tarNewReader tf) ->
     OS.resolved (dest dirname e) = true) ->
  ((ExtractOVA tarNewReader ova dirname fs).1 = Ok <->
   exists tf,
     fs !! ova = Some tf /\
     trailer (tarNewReader tf) = None /\
     (length (entries (tarNewReader tf)) <= 99)%nat /\
     extractable dirname (entries (tarNewReader tf)) fs).
Proof.
  intros _ _. split.
  - apply ExtractOVA_Ok_inv.
  - intros (tf & Hova & Heof & Hlen & Hext).
    destruct (ExtractOVA_below_limit tarNewReader ova dirname fs tf Hova Hext Hlen Heof)
      as (fs' & -> & _). done.
Qed.

Lemma ExtractOVA_succeeds_iff_witness :
  (ExtractOVA (numbered_reader 10) "/in/image.ova" "/dst" sample_fs).1 = Ok /\
  (ExtractOVA (numbered_reader 100) "/in/image.ova" "/dst" sample_fs).1 <> Ok.
Proof.
  split.
  - apply (ExtractOVA_succeeds_iff (numbered_reader 10) "/in/image.ova" "/dst" sample_fs).
    + vm_compute. reflexivity.
    + intros tf e _. apply (resolved_dests "/dst" (numbered_entries 10)).
      vm_compute. reflexivity.
    + exists (OS.File 420 []). split; [reflexivity|]. split; [reflexivity|].
      split; [simpl; lia|]. apply extractable_decide. vm_compute. reflexivity.
  - intros Hok.
    apply (ExtractOVA_succeeds_iff (numbered_reader 100) "/in/image.ova" "/dst" sample_fs)
      in Hok as (tf & _ & _ & Hlen & _).
    + vm_compute in Hlen. lia.
    + vm_compute. reflexivity.
    + intros tf e _. apply (resolved_dests "/dst" (numbered_entries 100)).
      vm_compute. reflexivity.
Defined.

(** X5.  A read error in the middle of an archive does not undo what
    was extracted.  When [Next] fails after entries that were all
    extracted, the call returns the reading error and their files stay
    on the disk.  When the body of an entry cannot be read to its end,
    the call returns the writing error, and the file of that entry stays
    on the disk with the bytes read so far, next to the files of the
    entries before it. *)
Theorem ExtractOVA_read_error_keeps_files
    (tarNewReader : OS.Node -> Archive) (ova dirname : string) (fs : OS.FS) tf :
  fs !! ova = Some tf ->
  (forall err,
     trailer (tarNewReader tf) = Some err ->
     (length (entries (tarNewReader tf)) <= 100)%nat ->
     extractable dirname (entries (tarNewReader tf)) fs ->
     ExtractOVA tarNewReader ova dirname fs =
     (Err (ErrTarRead ova err), write_entries dirname (entries (tarNewReader tf)) fs)) /\
  (forall pre e post err,
     entries (tarNewReader tf) = pre ++ e :: post ->
     (length pre <= 100)%nat ->
     extractable dirname pre fs ->
     Path.Base (Name e) = Name e -> OS.IsRegular (Mode e) = true ->
     write_entries dirname pre fs !! dest dirname e = None ->
     write_entries dirname pre fs !! Path.Dir (dest dirname e) = Some OS.Dir ->
     BodyErr e = Some err ->
     ExtractOVA tarNewReader ova dirname fs =
     (Err (ErrTarWrite (dest dirname e) err),
      <[dest dirname e := OS.File (OS.syscallMode (Mode e)) (Body e)]>
        (write_entries dirname pre fs))).
Proof.
  intros Hova. split.
  - intros err Heof Hlen Hext. unfold ExtractOVA, OS.Open. rewrite Hova.
    rewrite <- (app_nil_r (entries (tarNewReader tf))) at 1.
    rewrite extract_loop_prefix by (done || lia). simpl.
    destruct (Z.ltb_spec (100 - Z.of_nat (length (entries (tarNewReader tf)))) 0);
      [lia|]. by rewrite Heof.
  - intros pre e post err Hes Hlen Hext Hbase Hreg Hfree Hdir Hbody.
    unfold ExtractOVA, OS.Open. rewrite Hova, Hes.
    rewrite extract_loop_prefix by (done || lia). simpl.
    destruct (Z.ltb_spec (100 - Z.of_nat (length pre)) 0); [lia|].
    rewrite bool_decide_eq_true_2 by done. simpl. rewrite Hreg. simpl.
    fold (dest dirname e). rewrite OpenFile_excl_fresh by done.
    rewrite append_file_insert, Hbody. done.
Qed.

Lemma ExtractOVA_read_error_keeps_files_witness :
  ExtractOVA broken_reader "/in/image.ova" "/dst" sample_fs =
  (Err (ErrTarRead "/in/image.ova" ErrUnexpectedEOF),
   write_entries "/dst" [numbered 0; numbered 1] sample_fs) /\
  ExtractOVA (reader_of [numbered 0; short_entry; numbered 2])
    "/in/image.ova" "/dst" sample_fs =
  (Err (ErrTarWrite "/dst/disk.vmdk" ErrUnexpectedEOF),
   <["/dst/disk.vmdk" := OS.File 420 (bytes_of "part")]>
     (write_entries "/dst" [numbered 0] sample_fs)).
Proof.
  split.
  - apply (proj1 (ExtractOVA_read_error_keeps_files broken_reader
                    "/in/image.ova" "/dst" sample_fs (OS.File 420 []) eq_refl)).
    + reflexivity.
    + simpl. lia.
    + apply extractable_decide. vm_compute. reflexivity.
  - apply (proj2 (ExtractOVA_read_error_keeps_files
                    (reader_of [numbered 0; short_entry; numbered 2])
                    "/in/image.ova" "/dst" sample_fs (OS.File 420 []) eq_refl)
             [numbered 0] short_entry [numbered 2] ErrUnexpectedEOF).
    + reflexivity.
    + simpl. lia.
    + apply extractable_decide. vm_compute. reflexivity.
    + reflexivity.
    + reflexivity.
    + reflexivity.
    + reflexivity.
    + reflexivity.
Defined.

End OvaMore.

(** ** The files of an OVF package *)

Module NamesFacts.
Import Tar Ova Names OSFacts OvaFacts OvaMore Samples MoreSamples.

Lemma int_wrap_small z : - 2 ^ 63 <= z < 2 ^ 63 -> int_wrap z = z.
Proof.
  intros Hz. unfold int_wrap.
  rewrite Z.mod_small by lia. lia.
Qed.

Lemma count_ext_cons ext s names :
  count_ext ext (s :: names) =
  ((if bool_decide (Ext s = ext) then 1 else 0) + count_ext ext names)%nat.
Proof. unfold count_ext. simpl. by destruct (bool_decide (Ext s = ext)). Qed.

Lemma count_ext_le ext names : (count_ext ext names <= length names)%nat.
Proof.
  induction names as [|s names IH]; [done|].
  rewrite count_ext_cons. simpl. destruct (bool_decide _); lia.
Qed.

(** The map of [ValidateOVFNames] counts the names by extension, as
    long as no counter overflows. *)
Lemma exts_get_foldl ext names : forall m : gmap string Z,
  0 <= exts_get m ext ->
  exts_get m ext + Z.of_nat (count_ext ext names) < 2 ^ 63 ->
  exts_get
    (foldl (fun exts s => <[Ext s := int_wrap (exts_get exts (Ext s) + 1)]> exts) m names)
    ext
  = exts_get m ext + Z.of_nat (count_ext ext names).
Proof.
  induction names as [|s names IH]; intros m Hpos Hbound;
    [change (count_ext ext []) with 0%nat; simpl; lia|].
  rewrite count_ext_cons in *. simpl foldl.
  destruct (bool_decide (Ext s = ext)) eqn:Hs.
  - apply bool_decide_eq_true_1 in Hs. rewrite Hs.
    assert (exts_get (<[ext := int_wrap (exts_get m ext + 1)]> m) ext = exts_get m ext + 1)
      as Hstep.
    { unfold exts_get at 1. rewrite lookup_insert_eq. simpl.
      apply int_wrap_small. lia. }
    rewrite IH; rewrite Hstep; lia.
  - apply bool_decide_eq_false_1 in Hs.
    assert (exts_get (<[Ext s := int_wrap (exts_get m (Ext s) + 1)]> m) ext = exts_get m ext)
      as Hstep.
    { unfold exts_get at 1. by rewrite lookup_insert_ne. }
    rewrite IH; rewrite Hstep; lia.
Qed.

Lemma exts_of_count ext names :
  Z.of_nat (length names) < 2 ^ 63 ->
  exts_get (exts_of names) ext = Z.of_nat (count_ext ext names).
Proof.
  intros Hlen. unfold exts_of. pose proof (count_ext_le ext names).
  rewrite exts_get_foldl; unfold exts_get; rewrite lookup_empty; simpl; lia.
Qed.

(** The verdict in terms of the three counts. *)
Lemma ValidateOVFNames_counts names :
  Z.of_nat (length names) < 2 ^ 63 ->
  ValidateOVFNames names =
  if bool_decide (count_ext ".ovf" names = 0%nat) then Some ErrMissingOvf
  else if bool_decide (1 < count_ext ".ovf" names)%nat
       then Some (ErrMultipleOvf (byExt names ".ovf"))
  else if bool_decide (1 < count_ext ".mf" names)%nat
       then Some (ErrMultipleMf (byExt names ".mf"))
  else if bool_decide (1 < count_ext ".cert" names)%nat
       then Some (ErrMultipleCert (byExt names ".cert"))
  else None.
Proof.
  intros Hlen. unfold ValidateOVFNames. cbv zeta.
  rewrite !exts_of_count by done.
  set (a := count_ext ".ovf" names). set (b := count_ext ".mf" names).
  set (c := count_ext ".cert" names).
  destruct (Z.eqb_spec (Z.of_nat a) 1), (Z.eqb_spec (Z.of_nat a) 0); simpl; try lia.
  - rewrite bool_decide_eq_false_2 by lia. rewrite bool_decide_eq_false_2 by lia.
    destruct (Z.gtb_spec (Z.of_nat b) 1).
    + by rewrite bool_decide_eq_true_2 by lia.
    + rewrite bool_decide_eq_false_2 by lia.
      destruct (Z.gtb_spec (Z.of_nat c) 1).
      * by rewrite bool_decide_eq_true_2 by lia.
      * by rewrite bool_decide_eq_false_2 by lia.
  - by rewrite bool_decide_eq_true_2 by lia.
  - rewrite bool_decide_eq_false_2 by lia.
    destruct (Z.gtb_spec (Z.of_nat a) 1); [|lia]. simpl.
    by rewrite bool_decide_eq_true_2 by lia.
Qed.

(** An accepted list has exactly one [.ovf] name. *)
Lemma ValidateOVFNames_None_one_ovf names :
  Z.of_nat (length names) < 2 ^ 63 ->
  ValidateOVFNames names = None -> count_ext ".ovf" names = 1%nat.
Proof.
  intros Hlen. rewrite ValidateOVFNames_counts by done.
  repeat case_bool_decide; (done || lia).
Qed.

Lemma count_ext_Permutation ext names names' :
  names ≡ₚ names' -> count_ext ext names = count_ext ext names'.
Proof.
  intros Hperm. induction Hperm as [|s l l' _ IH|s s' l|l l' l'' _ IH1 _ IH2].
  - done.
  - rewrite !count_ext_cons. lia.
  - rewrite !count_ext_cons. lia.
  - congruence.
Qed.

(** X6.  [ValidateOVFNames] accepts a list of names exactly when one of
    them has the extension [.ovf], at most one has [.mf] and at most
    one has [.cert] (extensions being what [filepath.Ext] returns, with
    the case of the letters as it is); names with any other extension,
    or none, are not looked at.  No [.ovf] name is reported first, then
    several [.ovf], then several [.mf], then several [.cert]. *)
Theorem ValidateOVFNames_accepts_iff (names : list string) :
  Z.of_nat (length names) < 2 ^ 63 ->
  (ValidateOVFNames names = None <->
     count_ext ".ovf" names = 1%nat /\
     (count_ext ".mf" names <= 1)%nat /\ (count_ext ".cert" names <= 1)%nat) /\
  (ValidateOVFNames names = Some ErrMissingOvf <-> count_ext ".ovf" names = 0%nat) /\
  ((1 < count_ext ".ovf" names)%nat ->
     ValidateOVFNames names = Some (ErrMultipleOvf (byExt names ".ovf"))) /\
  (count_ext ".ovf" names = 1%nat -> (1 < count_ext ".mf" names)%nat ->
     ValidateOVFNames names = Some (ErrMultipleMf (byExt names ".mf"))) /\
  (count_ext ".ovf" names = 1%nat -> (count_ext ".mf" names <= 1)%nat ->
   (1 < count_ext ".cert" names)%nat ->
     ValidateOVFNames names = Some (ErrMultipleCert (byExt names ".cert"))).
Proof.
  intros Hlen. rewrite ValidateOVFNames_counts by done.
  repeat case_bool_decide; (split; [|split; [|split; [|split]]]);
    try (split; intros; (done || lia)); intros; (done || lia).
Qed.

Lemma ValidateOVFNames_accepts_iff_witness :
  (ValidateOVFNames ["disk1.vmdk"; "image.ovf"; "image.mf"] = None <->
     count_ext ".ovf" ["disk1.vmdk"; "image.ovf"; "image.mf"] = 1%nat /\
     (count_ext ".mf" ["disk1.vmdk"; "image.ovf"; "image.mf"] <= 1)%nat /\
     (count_ext ".cert" ["disk1.vmdk"; "image.ovf"; "image.mf"] <= 1)%nat) /\
  (ValidateOVFNames ["disk1.vmdk"; "IMAGE.OVF"] = Some ErrMissingOvf <->
     count_ext ".ovf" ["disk1.vmdk"; "IMAGE.OVF"] = 0%nat).
Proof.
  split.
  - apply (ValidateOVFNames_accepts_iff ["disk1.vmdk"; "image.ovf"; "image.mf"]).
    simpl. lia.
  - apply (ValidateOVFNames_accepts_iff ["disk1.vmdk"; "IMAGE.OVF"]).
    simpl. lia.
Defined.

(** X7.  The verdict of [ValidateOVFNames] does not depend on the order
    of the names: a list is accepted exactly when every rearrangement of
    it is, and a missing [.ovf] file is reported for both or for
    neither.  (Only the file lists inside the other messages follow the
    order.) *)
Theorem ValidateOVFNames_order_irrelevant (names names' : list string) :
  names ≡ₚ names' ->
  Z.of_nat (length names) < 2 ^ 63 ->
  (ValidateOVFNames names = None <-> ValidateOVFNames names' = None) /\
  (ValidateOVFNames names = Some ErrMissingOvf <->
   ValidateOVFNames names' = Some ErrMissingOvf) /\
  (forall files, ValidateOVFNames names = Some (ErrMultipleOvf files) ->
     exists files', ValidateOVFNames names' = Some (ErrMultipleOvf files')) /\
  (forall files, ValidateOVFNames names = Some (ErrMultipleMf files) ->
     exists files', ValidateOVFNames names' = Some (ErrMultipleMf files')) /\
  (forall files, ValidateOVFNames names = Some (ErrMultipleCert files) ->
     exists files', ValidateOVFNames names' = Some (ErrMultipleCert files')).
Proof.
  intros Hperm Hlen.
  assert (Z.of_nat (length names') < 2 ^ 63) as Hlen'
    by by rewrite <- (Permutation_length Hperm).
  rewrite !ValidateOVFNames_counts by done.
  rewrite <- !(count_ext_Permutation _ _ _ Hperm).
  repeat case_bool_decide; (split; [|split; [|split; [|split]]]);
    try done; intros files Hf; simplify_eq; by eexists.
Qed.

Lemma ValidateOVFNames_order_irrelevant_witness :
  ValidateOVFNames ["image.mf"; "image.ovf"; "disk1.vmdk"] = None <->
  ValidateOVFNames ["disk1.vmdk"; "image.ovf"; "image.mf"] = None.
Proof.
  apply (ValidateOVFNames_order_irrelevant
           ["image.mf"; "image.ovf"; "disk1.vmdk"] ["disk1.vmdk"; "image.ovf"; "image.mf"]).
  - exact (Permutation_rev ["image.mf"; "image.ovf"; "disk1.vmdk"]).
  - simpl. lia.
Defined.

(** *** [filepath.Ext] *)

Lemma list_ascii_of_string_app (s1 s2 : string) :
  list_ascii_of_string (s1 +:+ s2) = list_ascii_of_string s1 ++ list_ascii_of_string s2.
Proof.
  induction s1 as [|a s1 IH]; [done|].
  change (a :: list_ascii_of_string (s1 +:+ s2)
          = a :: (list_ascii_of_string s1 ++ list_ascii_of_string s2)).
  by rewrite IH.
Qed.

Lemma string_of_list_ascii_app (l1 l2 : list ascii) :
  string_of_list_ascii (l1 ++ l2) = string_of_list_ascii l1 +:+ string_of_list_ascii l2.
Proof.
  induction l1 as [|a l1 IH]; [done|].
  change (String a (string_of_list_ascii (l1 ++ l2))
          = String a (string_of_list_ascii l1 +:+ string_of_list_ascii l2)).
  by rewrite IH.
Qed.

(** Characters that are neither a dot nor a separator are stepped over. *)
Lemma ext_scan_skip l : forall rest acc,
  Forall (fun c => c <> "."%char /\ c <> "/"%char) l ->
  ext_scan (l ++ rest) acc = ext_scan rest (reverse l ++ acc).
Proof.
  induction l as [|c l IH]; intros rest acc Hl; [done|].
  apply Forall_cons in Hl as [[Hdot Hsep] Hl]. simpl.
  unfold Path.IsPathSeparator.
  destruct (Ascii.eqb_spec c "/"); [done|].
  destruct (Ascii.eqb_spec c "."); [done|].
  rewrite IH by done. by rewrite reverse_cons, <- app_assoc.
Qed.

(** A result other than the empty string starts at a dot of the path. *)
Lemma ext_scan_found rev_path : forall acc r,
  ext_scan rev_path acc = r -> r <> "" ->
  exists l rest,
    rev_path = l ++ "."%char :: rest /\
    r = string_of_list_ascii ("."%char :: reverse l ++ acc).
Proof.
  induction rev_path as [|c rev_path IH]; intros acc r Hr Hne; [by simplify_eq|].
  simpl in Hr. destruct (Path.IsPathSeparator c); [by simplify_eq|].
  destruct (Ascii.eqb_spec c ".") as [->|_].
  - exists [], rev_path. by simplify_eq.
  - apply IH in Hr as (l & rest & -> & ->); [|done].
    exists (c :: l), rest. split; [done|].
    by rewrite reverse_cons, <- app_assoc.
Qed.

Lemma Ext_dotted_suffix (path suffix : string) :
  Forall (fun c => c <> "."%char /\ c <> "/"%char) (list_ascii_of_string suffix) ->
  Ext path = "." +:+ suffix <-> exists stem, path = stem +:+ "." +:+ suffix.
Proof.
  intros Hsuffix. split.
  - intros Hext. apply ext_scan_found in Hext as (l & rest & Hrev & Hr); [|done].
    exists (string_of_list_ascii (reverse rest)).
    rewrite app_nil_r in Hr.
    change ("." +:+ suffix) with (String "." suffix) in *.
    change (string_of_list_ascii ("."%char :: reverse l))
      with (String "." (string_of_list_ascii (reverse l))) in Hr.
    simplify_eq.
    rewrite <- (string_of_list_ascii_of_string path).
    rewrite <- (reverse_involutive (list_ascii_of_string path)), Hrev.
    rewrite reverse_app, reverse_cons, <- app_assoc.
    rewrite string_of_list_ascii_app. done.
  - intros [stem ->]. unfold Ext.
    rewrite list_ascii_of_string_app.
    change ("." +:+ suffix) with (String "." suffix).
    change (list_ascii_of_string (String "." suffix))
      with ("."%char :: list_ascii_of_string suffix).
    rewrite reverse_app, reverse_cons, <- app_assoc.
    rewrite ext_scan_skip by by apply Forall_reverse.
    simpl. rewrite reverse_involutive, app_nil_r.
    by rewrite string_of_list_ascii_of_string.
Qed.

(** X8.  What counts as a file of a kind is decided by the end of the
    name alone.  [filepath.Ext] returns the part of the path from its
    last dot on: for a suffix without dot and without separator, the
    extension of a path is the dot followed by that suffix exactly when
    the path ends with them, whatever comes before (nothing at all, as
    in the name [.ovf], or a directory part).  So [ValidateOVFNames]
    accepts a list of one name exactly when that name ends in [.ovf]. *)
Theorem Ext_is_the_dotted_suffix :
  (forall path suffix : string,
     Forall (fun c => c <> "."%char /\ c <> "/"%char) (list_ascii_of_string suffix) ->
     Ext path = "." +:+ suffix <-> exists stem, path = stem +:+ "." +:+ suffix) /\
  (forall name : string,
     ValidateOVFNames [name] = None <-> exists stem, name = stem +:+ ".ovf").
Proof.
  split; [apply Ext_dotted_suffix|].
  intros name.
  rewrite <- (Ext_dotted_suffix name "ovf")
    by (repeat (apply Forall_cons; split; [done|]); apply Forall_nil_2).
  change ("." +:+ "ovf") with ".ovf".
  rewrite ValidateOVFNames_counts by (simpl; lia).
  rewrite !count_ext_cons. change (count_ext _ []) with 0%nat.
  destruct (decide (Ext name = ".ovf")) as [Hext|Hext].
  - rewrite Hext. simpl. done.
  - rewrite (bool_decide_eq_false_2 (Ext name = ".ovf")) by done. simpl.
    split; [done|]. intros ?. done.
Qed.

Lemma Ext_is_the_dotted_suffix_witness :
  (Ext "/in/box.tar.ovf" = ".ovf" <-> exists stem, "/in/box.tar.ovf" = stem +:+ ".ovf") /\
  (Ext ".ovf" = ".ovf" <-> exists stem, ".ovf" = stem +:+ ".ovf") /\
  (ValidateOVFNames ["image.OVF"] = None <-> exists stem, "image.OVF" = stem +:+ ".ovf").
Proof.
  destruct Ext_is_the_dotted_suffix as [Hext Hnames].
  split; [|split].
  - apply (Hext "/in/box.tar.ovf" "ovf").
    repeat (apply Forall_cons; split; [done|]). apply Forall_nil_2.
  - apply (Hext ".ovf" "ovf").
    repeat (apply Forall_cons; split; [done|]). apply Forall_nil_2.
  - apply Hnames.
Defined.

(** *** [ValidateOVAFile] and [ExtractOVA] on the same archive *)

Lemma next_names_clean es :
  Forall flat_regular es -> next_names es None = (Name <$> es, EOF).
Proof.
  induction es as [|e es IH]; intros Hes; [done|].
  apply Forall_cons in Hes as [(_ & _ & Hbody) Hes]. simpl.
  by rewrite Hbody, IH.
Qed.

Lemma count_ext_fmap ext (es : list Entry) :
  count_ext ext (Name <$> es)
  = length (List.filter (fun e => bool_decide (Ext (Name e) = ext)) es).
Proof.
  induction es as [|e es IH]; [done|].
  rewrite fmap_cons, count_ext_cons, IH. simpl.
  by destruct (bool_decide (Ext (Name e) = ext)).
Qed.

(** X9.  An archive that [ValidateOVAFile] accepts and that
    [ExtractOVA] then extracts without error has exactly one entry with
    the extension [.ovf], and after the extraction that entry is a file
    in the destination directory, under its own name, with its
    permission bits and its bytes. *)
Theorem validated_ova_yields_one_ovf_file
    (tarNewReader : OS.Node -> Archive) (ova dirname : string) (fs : OS.FS) :
  ValidateOVAFile tarNewReader ova fs = None ->
  (ExtractOVA tarNewReader ova dirname fs).1 = Ok ->
  exists tf e,
    fs !! ova = Some tf /\
    e ∈ entries (tarNewReader tf) /\ Ext (Name e) = ".ovf" /\
    (forall e', e' ∈ entries (tarNewReader tf) -> Ext (Name e') = ".ovf" -> e' = e) /\
    (ExtractOVA tarNewReader ova dirname fs).2 !! Path.Join dirname (Name e)
    = Some (OS.File (OS.syscallMode (Mode e)) (Body e)).
Proof.
  intros Hvalid Hok.
  apply ExtractOVA_Ok_inv in Hok as (tf & Hova & Heof & Hlen & Hext).
  exists tf. unfold ValidateOVAFile, OS.Open in Hvalid. rewrite Hova in Hvalid.
  rewrite Heof, next_names_clean in Hvalid by apply Hext.
  simpl in Hvalid.
  destruct (ValidateOVFNames _) as [err|] eqn:Hnames; [done|]. clear Hvalid.
  apply ValidateOVFNames_None_one_ovf in Hnames as Hone;
    [|rewrite length_fmap; lia].
  rewrite count_ext_fmap in Hone.
  destruct (List.filter _ _) as [|e [|e2 l]] eqn:Hfilter; [done| |done].
  assert (forall e', e' ∈ entries (tarNewReader tf) /\ Ext (Name e') = ".ovf" <-> e' = e)
    as Honly.
  { intros e'. split.
    - intros [Hin Hovf].
      assert (In e' (List.filter (fun e => bool_decide (Ext (Name e) = ".ovf"))
                       (entries (tarNewReader tf)))) as Hf.
      { apply filter_In. split; [by apply list_elem_of_In|by apply bool_decide_eq_true_2]. }
      rewrite Hfilter in Hf. by destruct Hf as [->|[]].
    - intros ->.
      assert (In e (List.filter (fun e => bool_decide (Ext (Name e) = ".ovf"))
                      (entries (tarNewReader tf)))) as Hf
        by (rewrite Hfilter; by left).
      apply filter_In in Hf as [Hin Hb].
      split; [by apply list_elem_of_In|by apply bool_decide_eq_true_1 in Hb]. }
  destruct (proj2 (Honly e) eq_refl) as [Hin Hovf].
  exists e. split; [done|]. split; [done|]. split; [done|].
  split; [intros e' ? ?; by apply Honly|].
  destruct (ExtractOVA_below_limit tarNewReader ova dirname fs tf Hova Hext Hlen Heof)
    as (fs' & -> & Hfiles & _).
  by apply Hfiles.
Qed.

Lemma validated_ova_yields_one_ovf_file_witness :
  exists tf e,
    sample_fs !! "/in/image.ova" = Some tf /\
    e ∈ entries (package_reader tf) /\ Ext (Name e) = ".ovf" /\
    (forall e', e' ∈ entries (package_reader tf) -> Ext (Name e') = ".ovf" -> e' = e) /\
    (ExtractOVA package_reader "/in/image.ova" "/dst" sample_fs).2
      !! Path.Join "/dst" (Name e)
    = Some (OS.File (OS.syscallMode (Mode e)) (Body e)).
Proof.
  apply (validated_ova_yields_one_ovf_file package_reader "/in/image.ova" "/dst" sample_fs).
  - vm_compute. reflexivity.
  - vm_compute. reflexivity.
Defined.

End NamesFacts.

(** ** Patch application: the disk after the call *)

Module PatchMore.
Import OS RDiff OSFacts RDiffFacts Samples.

Lemma append_file_lookup_ne (fs : FS) path q p :
  q <> path -> append_file fs path p !! q = fs !! q.
Proof.
  intros Hne. unfold append_file.
  destruct (fs !! path) as [[|perm d]|]; [done| |done].
  by rewrite lookup_insert_ne.
Qed.

Section Facts.
Variable Header : Node -> Error + (Z * bytes).
Variable ReadOperations : bytes -> Decoded.
Variable ApplyDelta : Z -> Node -> list Operation -> bytes * option Error.
Variable md5sum : bytes -> bytes.

(** The disk a call leaves behind, whatever it returns: the disk as
    [os.Create] left it, or that with bytes appended to the target. *)
Lemma Patch_disk basis delta newfile checkFile (fs : FS) :
  (Patch Header ReadOperations ApplyDelta md5sum basis delta newfile checkFile fs).2 = fs \/
  exists fs1, Create fs newfile = inr fs1 /\
    ((Patch Header ReadOperations ApplyDelta md5sum basis delta newfile checkFile fs).2 = fs1 \/
     exists written,
       (Patch Header ReadOperations ApplyDelta md5sum basis delta newfile checkFile fs).2
       = append_file fs1 newfile written).
Proof.
  unfold Patch.
  destruct (Open fs basis) as [err|b]; [by left|].
  destruct (Open fs delta) as [err|d]; [by left|].
  destruct (Create fs newfile) as [err|fs1] eqn:Hc; [by left|].
  right. exists fs1. split; [done|].
  destruct (fs1 !! basis) as [basisFile|]; [|by left].
  destruct (fs1 !! delta) as [deltaFile|]; [|by left].
  destruct (Header deltaFile) as [err|[blockSize rest]]; [by left|].
  destruct (ApplyDelta _ _ _) as [written applyErr].
  right. exists written.
  destruct applyErr; [done|]. destruct (decode_error _); [done|].
  destruct (negb checkFile); [done|].
  destruct (Data _); [|done]. by destruct (negb _).
Qed.

End Facts.

(** X10.  [Patch] changes nothing on the disk but the target: for a
    target named in resolved form, whatever the inputs are and however
    the call ends, every path other than [newfile] names after the call
    what it named before. *)
Theorem Patch_touches_only_the_target
    (Header : Node -> Error + (Z * bytes))
    (ReadOperations : bytes -> Decoded)
    (ApplyDelta : Z -> Node -> list Operation -> bytes * option Error)
    (md5sum : bytes -> bytes)
    (basis delta newfile : string) (checkFile : bool) (fs : FS) (q : string) :
  resolved newfile = true ->
  q <> newfile ->
  (Patch Header ReadOperations ApplyDelta md5sum basis delta newfile checkFile fs).2 !! q
  = fs !! q.
Proof.
  intros _ Hne.
  destruct (Patch_disk Header ReadOperations ApplyDelta md5sum
              basis delta newfile checkFile fs)
    as [->|(fs1 & Hc & [->|(written & ->)])]; [done| |].
  - by apply (Create_inr _ _ _ Hc).
  - rewrite append_file_lookup_ne by done. by apply (Create_inr _ _ _ Hc).
Qed.

Lemma Patch_touches_only_the_target_witness :
  (toy_Patch "/in/basis" "/in/delta" "/out/new" true (patch_fs bad_sum_delta)).2
    !! "/in/basis"
  = patch_fs bad_sum_delta !! "/in/basis".
Proof.
  apply (Patch_touches_only_the_target toy_Header toy_ReadOperations toy_ApplyDelta
           toy_md5sum "/in/basis" "/in/delta" "/out/new" true
           (patch_fs bad_sum_delta) "/in/basis").
  - vm_compute. reflexivity.
  - discriminate.
Defined.

(** X11.  A [Patch] with [checkFile] set that returns [nil] has
    verified what it wrote: with the target path different from both
    inputs, the target then holds exactly the bytes [ApplyDelta]
    produced from the basis and the operations of the delta, and the
    MD5 sum of those bytes is the checksum record of the delta. *)
Theorem Patch_checked_success_is_verified
    (Header : Node -> Error + (Z * bytes))
    (ReadOperations : bytes -> Decoded)
    (ApplyDelta : Z -> Node -> list Operation -> bytes * option Error)
    (md5sum : bytes -> bytes)
    (basis delta newfile : string) (fs fs' : FS) basisFile deltaFile :
  fs !! basis = Some basisFile -> fs !! delta = Some deltaFile ->
  basis <> newfile -> delta <> newfile ->
  Patch Header ReadOperations ApplyDelta md5sum basis delta newfile true fs = (Ok, fs') ->
  exists perm blockSize rest,
    Header deltaFile = inr (blockSize, rest) /\
    decode_error (ReadOperations rest) = None /\
    fs' !! newfile
    = Some (File perm (ApplyDelta blockSize basisFile (sent_ops (ReadOperations rest))).1) /\
    Data (recv_hash (ReadOperations rest))
    = Some (md5sum (ApplyDelta blockSize basisFile (sent_ops (ReadOperations rest))).1).
Proof.
  intros Hb Hd Hbn Hdn. unfold Patch, Open. rewrite Hb, Hd.
  destruct (Create fs newfile) as [err|fs1] eqn:Hc; [done|].
  destruct (Create_inr _ _ _ Hc) as [[perm Hnew] Hother].
  rewrite !Hother, Hb, Hd by done.
  destruct (Header deltaFile) as [err|[blockSize rest]]; [done|].
  destruct (ApplyDelta _ _ _) as [written applyErr] eqn:Happly.
  destruct applyErr; [done|].
  destruct (decode_error _) eqn:Hdecode; [done|]. simpl.
  destruct (Data _) as [sum|] eqn:Hsum; [|done].
  destruct (bytes_Equal sum (md5sum written)) eqn:Heq; simpl; [|done].
  intros Hok; simplify_eq.
  apply bool_decide_eq_true_1 in Heq as ->.
  exists perm, blockSize, rest. rewrite Happly. simpl.
  split; [done|]. split; [done|]. split; [|done].
  by apply (append_file_File fs1 newfile perm [] written).
Qed.

Lemma Patch_checked_success_is_verified_witness :
  exists perm blockSize rest,
    toy_Header (File 420 good_delta) = inr (blockSize, rest) /\
    decode_error (toy_ReadOperations rest) = None /\
    (toy_Patch "/in/basis" "/in/delta" "/out/new" true (patch_fs good_delta)).2
      !! "/out/new"
    = Some (File perm (toy_ApplyDelta blockSize (File 420 (bytes_of "AAAABBBBCCCC"))
                         (sent_ops (toy_ReadOperations rest))).1) /\
    Data (recv_hash (toy_ReadOperations rest))
    = Some (toy_md5sum (toy_ApplyDelta blockSize (File 420 (bytes_of "AAAABBBBCCCC"))
                          (sent_ops (toy_ReadOperations rest))).1).
Proof.
  apply (Patch_checked_success_is_verified toy_Header toy_ReadOperations toy_ApplyDelta
           toy_md5sum "/in/basis" "/in/delta" "/out/new" (patch_fs good_delta)).
  - reflexivity.
  - reflexivity.
  - discriminate.
  - discriminate.
  - reflexivity.
Defined.

(** X12.  Asking for the checksum verification changes the verdict
    only, never the disk: with and without [checkFile] the call leaves
    the same files behind; every error of the unchecked call is the
    error of the checked one; and the checked call fails where the
    unchecked one succeeds only with one of the two checksum errors. *)
Theorem Patch_check_changes_only_the_verdict
    (Header : Node -> Error + (Z * bytes))
    (ReadOperations : bytes -> Decoded)
    (ApplyDelta : Z -> Node -> list Operation -> bytes * option Error)
    (md5sum : bytes -> bytes)
    (basis delta newfile : string) (fs : FS) :
  (Patch Header ReadOperations ApplyDelta md5sum basis delta newfile true fs).2
  = (Patch Header ReadOperations ApplyDelta md5sum basis delta newfile false fs).2 /\
  (forall e,
     (Patch Header ReadOperations ApplyDelta md5sum basis delta newfile false fs).1 = Err e ->
     (Patch Header ReadOperations ApplyDelta md5sum basis delta newfile true fs).1 = Err e) /\
  ((Patch Header ReadOperations ApplyDelta md5sum basis delta newfile false fs).1 = Ok ->
   (Patch Header ReadOperations ApplyDelta md5sum basis delta newfile true fs).1 = Ok \/
   (Patch Header ReadOperations ApplyDelta md5sum basis delta newfile true fs).1
     = Err NoTargetSumError \/
   (Patch Header ReadOperations ApplyDelta md5sum basis delta newfile true fs).1
     = Err HashNoMatchError).
Proof.
  unfold Patch.
  destruct (Open fs basis) as [err|b]; [done|].
  destruct (Open fs delta) as [err|d]; [done|].
  destruct (Create fs newfile) as [err|fs1]; [done|].
  destruct (fs1 !! basis) as [basisFile|]; [|done].
  destruct (fs1 !! delta) as [deltaFile|]; [|done].
  destruct (Header deltaFile) as [err|[blockSize rest]]; [done|].
  destruct (ApplyDelta _ _ _) as [written applyErr].
  destruct applyErr; [done|]. destruct (decode_error _); [done|]. simpl.
  destruct (Data _) as [sum|]; [destruct (bytes_Equal _ _)|]; simpl;
    (split; [done|]); (split; [done|]); intros _; auto.
Qed.

Lemma Patch_check_changes_only_the_verdict_witness :
  (toy_Patch "/in/basis" "/in/delta" "/out/new" true (patch_fs bad_sum_delta)).2
  = (toy_Patch "/in/basis" "/in/delta" "/out/new" false (patch_fs bad_sum_delta)).2 /\
  ((toy_Patch "/in/basis" "/in/delta" "/out/new" true (patch_fs bad_sum_delta)).1 = Ok \/
   (toy_Patch "/in/basis" "/in/delta" "/out/new" true (patch_fs bad_sum_delta)).1
     = Err NoTargetSumError \/
   (toy_Patch "/in/basis" "/in/delta" "/out/new" true (patch_fs bad_sum_delta)).1
     = Err HashNoMatchError).
Proof.
  destruct (Patch_check_changes_only_the_verdict toy_Header toy_ReadOperations
              toy_ApplyDelta toy_md5sum "/in/basis" "/in/delta" "/out/new"
              (patch_fs bad_sum_delta)) as (Hdisk & _ & Hverdict).
  split; [exact Hdisk|]. apply Hverdict. reflexivity.
Defined.

(** X13.  The target path must not be the delta itself.  [os.Create]
    empties the target before the header of the delta is read, so when
    [newfile] names the delta file (and no header can be read from an
    empty file) the call fails with [io.ErrUnexpectedEOF], and the
    delta is left on the disk empty, its bytes lost. *)
Theorem Patch_onto_its_delta_destroys_it
    (Header : Node -> Error + (Z * bytes))
    (ReadOperations : bytes -> Decoded)
    (ApplyDelta : Z -> Node -> list Operation -> bytes * option Error)
    (md5sum : bytes -> bytes)
    (basis delta : string) (checkFile : bool) (fs : FS) perm data :
  (forall p, Header (File p []) = inl EOF) ->
  is_Some (fs !! basis) ->
  fs !! delta = Some (File perm data) ->
  Patch Header ReadOperations ApplyDelta md5sum basis delta delta checkFile fs
  = (Err ErrUnexpectedEOF, <[delta := File perm []]> fs).
Proof.
  intros Hempty [b Hb] Hd. unfold Patch, Open. rewrite Hb, Hd.
  rewrite Create_result, Hd. rewrite lookup_insert_eq.
  destruct (decide (basis = delta)) as [->|Hne].
  - rewrite lookup_insert_eq. by rewrite Hempty.
  - rewrite lookup_insert_ne, Hb by done. by rewrite Hempty.
Qed.

Lemma Patch_onto_its_delta_destroys_it_witness :
  toy_Patch "/in/basis" "/in/delta" "/in/delta" true (patch_fs good_delta)
  = (Err ErrUnexpectedEOF, <["/in/delta" := File 420 []]> (patch_fs good_delta)).
Proof.
  apply (Patch_onto_its_delta_destroys_it toy_Header toy_ReadOperations toy_ApplyDelta
           toy_md5sum "/in/basis" "/in/delta" true (patch_fs good_delta) 420 good_delta).
  - reflexivity.
  - eexists. reflexivity.
  - reflexivity.
Defined.

End PatchMore.

(** ** Path names *)

Module PathFacts.
Import Path.

Local Abbreviation flat := (Forall (fun c : ascii => c <> "/"%char)).

Lemma IsPathSeparator_false c : c <> "/"%char -> IsPathSeparator c = false.
Proof. intros Hc. unfold IsPathSeparator. by destruct (Ascii.eqb_spec c "/"). Qed.

Lemma split_go_flat l : forall cur,
  flat l -> split_go cur l = [string_of_list_ascii (reverse cur ++ l)].
Proof.
  induction l as [|c l IH]; intros cur Hl; simpl.
  - by rewrite app_nil_r.
  - apply Forall_cons in Hl as [Hc Hl]. rewrite IsPathSeparator_false by done.
    rewrite IH by done. by rewrite reverse_cons, <- app_assoc.
Qed.

Lemma split_go_app l1 l2 : forall cur,
  split_go cur (l1 ++ "/"%char :: l2) = split_go cur l1 ++ split_go [] l2.
Proof.
  induction l1 as [|c l1 IH]; intros cur; simpl; [done|].
  destruct (IsPathSeparator c); by rewrite IH.
Qed.

Lemma join_sep_snoc l x :
  join_sep (l ++ [x]) = match l with [] => x | _ => join_sep l +:+ "/" +:+ x end.
Proof.
  induction l as [|y l IH]; [done|].
  destruct l as [|z l]; [done|].
  change (join_sep ((y :: z :: l) ++ [x])) with (y +:+ "/" +:+ join_sep ((z :: l) ++ [x])).
  rewrite IH.
  change (join_sep (y :: z :: l)) with (y +:+ "/" +:+ join_sep (z :: l)).
  by rewrite !OVFFacts.append_assoc.
Qed.

(** The last element of a path that ends in a separator and a flat
    name is that name. *)
Lemma Base_after_separator (prefix name : list ascii) :
  name <> [] -> flat name ->
  (prefix = [] \/ exists p, prefix = p ++ ["/"%char]) ->
  Base (string_of_list_ascii (prefix ++ name)) = string_of_list_ascii name.
Proof.
  intros Hne Hflat Hprefix. unfold Base.
  destruct (decide (string_of_list_ascii (prefix ++ name) = "")) as [Hempty|_].
  { apply (f_equal list_ascii_of_string) in Hempty.
    rewrite list_ascii_of_string_of_list_ascii in Hempty.
    apply app_nil in Hempty as [_ ?]. done. }
  rewrite list_ascii_of_string_of_list_ascii, reverse_app.
  destruct name as [|c name _] using rev_ind; [done|].
  apply Forall_app in Hflat as [Hflat Hc]. apply Forall_inv in Hc.
  rewrite reverse_app. simpl.
  rewrite IsPathSeparator_false by done.
  assert (forall l rest, flat l ->
            (rest = [] \/ exists r, rest = "/"%char :: r) ->
            take_element (l ++ rest) = l) as Htake.
  { induction l as [|a l IH]; intros rest Hl Hrest; simpl.
    - destruct Hrest as [->|[r ->]]; done.
    - apply Forall_cons in Hl as [Ha Hl]. rewrite IsPathSeparator_false by done.
      by rewrite IH. }
  change (c :: reverse name ++ reverse prefix)
    with ((c :: reverse name) ++ reverse prefix).
  rewrite Htake.
  - rewrite reverse_cons, reverse_involutive.
    destruct (decide (string_of_list_ascii (name ++ [c]) = "")) as [Hempty|_]; [|done].
    apply (f_equal list_ascii_of_string) in Hempty.
    rewrite list_ascii_of_string_of_list_ascii in Hempty. by destruct name.
  - apply Forall_cons. split; [done|]. by apply Forall_reverse.
  - destruct Hprefix as [->|[p ->]]; [by left|right].
    rewrite reverse_app. by eexists.
Qed.

Lemma clean_step_real rooted out name :
  name <> "" -> name <> "." -> name <> ".." ->
  clean_step rooted out name = name :: out.
Proof.
  intros Hne Hdot Hdots. unfold clean_step.
  destruct (decide (name = "")); [done|]. destruct (decide (name = ".")); [done|].
  by destruct (decide (name = "..")).
Qed.

(** A flat name other than [.] and [..] is kept by [Clean] as the last
    element of the path. *)
Lemma Clean_ends_with (dir name : string) :
  name <> "" -> name <> "." -> name <> ".." ->
  flat (list_ascii_of_string name) ->
  exists prefix,
    Clean (dir +:+ "/" +:+ name)
    = string_of_list_ascii (prefix ++ list_ascii_of_string name) /\
    (prefix = [] \/ exists p, prefix = p ++ ["/"%char]).
Proof.
  intros Hne Hdot Hdots Hflat. unfold Clean.
  destruct (decide (dir +:+ "/" +:+ name = "")) as [Hempty|_].
  { apply (f_equal list_ascii_of_string) in Hempty.
    rewrite NamesFacts.list_ascii_of_string_app in Hempty.
    apply app_nil in Hempty as [_ ?]. done. }
  set (rooted := match dir +:+ "/" +:+ name with
                 | String c _ => IsPathSeparator c | _ => false end).
  assert (split (dir +:+ "/" +:+ name) = split dir ++ [name]) as ->.
  { unfold split. rewrite NamesFacts.list_ascii_of_string_app.
    change (list_ascii_of_string ("/" +:+ name))
      with ("/"%char :: list_ascii_of_string name).
    rewrite split_go_app, (split_go_flat (list_ascii_of_string name)) by done. simpl.
    by rewrite string_of_list_ascii_of_string. }
  rewrite foldl_app. simpl.
  set (out := foldl (clean_step rooted) [] (split dir)).
  rewrite clean_step_real by done.
  rewrite reverse_cons, join_sep_snoc.
  set (body := match reverse out with
               | [] => name
               | _ => join_sep (reverse out) +:+ "/" +:+ name
               end).
  assert (exists prefix,
            body = string_of_list_ascii (prefix ++ list_ascii_of_string name) /\
            (prefix = [] \/ exists p, prefix = p ++ ["/"%char])) as (prefix & Hbody & Hprefix).
  { unfold body. destruct (reverse out) as [|x l].
    - exists []. split; [simpl; by rewrite string_of_list_ascii_of_string|by left].
    - exists (list_ascii_of_string (join_sep (x :: l)) ++ ["/"%char]).
      split; [|right; by eexists].
      rewrite <- app_assoc, NamesFacts.string_of_list_ascii_app.
      rewrite string_of_list_ascii_of_string.
      change (["/"%char] ++ list_ascii_of_string name)
        with ("/"%char :: list_ascii_of_string name).
      change (string_of_list_ascii ("/"%char :: list_ascii_of_string name))
        with (String "/" (string_of_list_ascii (list_ascii_of_string name))).
      by rewrite string_of_list_ascii_of_string. }
  destruct rooted.
  - exists ("/"%char :: prefix). split.
    + assert ("/" +:+ body <> "") as Hr by done.
      destruct (decide ("/" +:+ body = "")); [done|].
      rewrite Hbody. done.
    + right. destruct Hprefix as [->|[p ->]]; [by exists []|by exists ("/"%char :: p)].
  - exists prefix. split; [|done].
    destruct (decide (body = "")) as [Hempty|_]; [|done].
    rewrite Hbody in Hempty. apply (f_equal list_ascii_of_string) in Hempty.
    rewrite list_ascii_of_string_of_list_ascii in Hempty.
    apply app_nil in Hempty as [_ Hempty].
    apply (f_equal string_of_list_ascii) in Hempty.
    rewrite string_of_list_ascii_of_string in Hempty. done.
Qed.

Lemma Clean_flat (name : string) :
  name <> "" -> name <> "." -> name <> ".." ->
  flat (list_ascii_of_string name) ->
  Clean name = name.
Proof.
  intros Hne Hdot Hdots Hflat. unfold Clean.
  destruct (decide (name = "")); [done|].
  assert (match name with String c _ => IsPathSeparator c | _ => false end = false) as ->.
  { destruct name as [|c name]; [done|].
    apply Forall_inv in Hflat. by apply IsPathSeparator_false. }
  unfold split. rewrite split_go_flat by done. simpl.
  rewrite string_of_list_ascii_of_string.
  rewrite clean_step_real by done. simpl.
  by destruct (decide (name = "")).
Qed.

(** [filepath.Base(filepath.Join(dir, name))] is [name], for a flat
    name other than [.] and [..]. *)
Lemma Base_Join (dir name : string) :
  name <> "" -> name <> "." -> name <> ".." ->
  flat (list_ascii_of_string name) ->
  Base (Join dir name) = name.
Proof.
  intros Hne Hdot Hdots Hflat.
  assert (list_ascii_of_string name <> []) as Hne'.
  { intros Heq. apply (f_equal string_of_list_ascii) in Heq.
    by rewrite string_of_list_ascii_of_string in Heq. }
  unfold Join. destruct (decide (dir = "")) as [->|Hdir].
  - destruct (decide (name = "")); [done|]. rewrite Clean_flat by done.
    rewrite <- (string_of_list_ascii_of_string name) at 1.
    rewrite <- (app_nil_l (list_ascii_of_string name)).
    rewrite Base_after_separator by (done || by left).
    apply string_of_list_ascii_of_string.
  - destruct (Clean_ends_with dir name Hne Hdot Hdots Hflat) as (prefix & -> & Hprefix).
    rewrite Base_after_separator by done.
    apply string_of_list_ascii_of_string.
Qed.

(** The names the stages give their files. *)
Lemma Base_Join_image dir : Base (Join dir "image") = "image".
Proof.
  apply Base_Join; [done..|].
  repeat (apply Forall_cons; split; [done|]). apply Forall_nil_2.
Qed.

Lemma Base_Join_manifest dir : Base (Join dir "stemcell.MF") = "stemcell.MF".
Proof.
  apply Base_Join; [done..|].
  repeat (apply Forall_cons; split; [done|]). apply Forall_nil_2.
Qed.

End PathFacts.

(** ** The stages of [Config]: what they leave on the disk *)

Module StagesFacts.
Import OS OSFacts Pipeline PipelineFacts Stages Samples MoreSamples.

Lemma Forall2_impl_Forall {A B} (R : A -> Prop) (P Q : A -> B -> Prop) l k :
  Forall R l -> Forall2 P l k -> (forall x y, R x -> P x y -> Q x y) -> Forall2 Q l k.
Proof.
  intros HR HP Himpl. induction HP as [|x y l k Hxy _ IH]; [constructor|].
  apply Forall_cons in HR as [Hx HR]. constructor; [by apply Himpl|by apply IH].
Qed.

Lemma under_refl dir : under dir dir = true.
Proof. unfold under. by rewrite bool_decide_eq_true_2. Qed.

Lemma Remove_insert_fresh (fs : FS) path perm data :
  fs !! path = None -> Remove (<[path := File perm data]> fs) path = fs.
Proof.
  intros Hfree. unfold Remove. rewrite lookup_insert_eq.
  by apply delete_insert_id.
Qed.

Lemma OpenFile_excl_errors (fs : FS) path perm err :
  OpenFile fs path Ova.excl_flags perm = inl err ->
  err = EEXIST path \/ err = ENOTDIR path \/ err = ENOENT path.
Proof.
  unfold OpenFile. destruct (fs !! path) as [n|].
  - change (has Ova.excl_flags O_CREATE && has Ova.excl_flags O_EXCL) with true.
    cbv iota. intros Heq; simplify_eq. by left.
  - change (has Ova.excl_flags O_CREATE) with true. cbv iota.
    destruct (fs !! Path.Dir path) as [[|p d]|]; intros Heq; simplify_eq; auto.
Qed.

Lemma Write_file_open (h : Chan.Heap) ch (fs : FS) path data :
  Chan.closed h ch = false ->
  Cancel.CancelWriter_Write h (Cancel.mkCancelWriter (fs, path) ch) data
  = (Cancel.mkCancelWriter (append_file fs path data, path) ch,
     (Z.of_nat (length data), None)).
Proof. intros Hopen. unfold Cancel.CancelWriter_Write. simpl. by rewrite Hopen. Qed.

Lemma Write_file_closed (h : Chan.Heap) ch (fs : FS) path data :
  Chan.closed h ch = true ->
  Cancel.CancelWriter_Write h (Cancel.mkCancelWriter (fs, path) ch) data
  = (Cancel.mkCancelWriter (fs, path) ch, (0, Some ErrInterupt)).
Proof. intros Hclosed. unfold Cancel.CancelWriter_Write. simpl. by rewrite Hclosed. Qed.

Section Facts.
Variable Version : string.
Variable ioutil_TempDir : FS -> Error + string.
Variable ioutil_ReadDir : FS -> string -> Error + list string.
Variable gzip : bytes -> bytes.
Variable tar : list (string * Node) -> bytes.
Variable sha1hex : bytes -> string.

(** The two ways [TempDir] returns a directory: the one it has, which is
    still there, or a new one. *)
Lemma TempDir_inr c (fs : FS) name c1 fs1 :
  TempDir ioutil_TempDir c fs = (inr name, c1, fs1) ->
  (tmpdir c <> "" /\ name = tmpdir c /\ c1 = c /\ fs1 = fs /\ is_Some (fs !! name)) \/
  (tmpdir c = "" /\ ioutil_TempDir fs = inr name /\
   c1 = set_tmpdir c name /\ fs1 = <[name := Dir]> fs).
Proof.
  unfold TempDir, Stat, Open. destruct (decide (tmpdir c <> "")) as [Hne|Hnew].
  - destruct (fs !! tmpdir c) as [n|] eqn:Hn; intros Heq; simplify_eq.
    left. by rewrite Hn.
  - destruct (ioutil_TempDir fs) as [err|name']; intros Heq; simplify_eq.
    right. split; [|done]. by destruct (decide (tmpdir c = "")).
Qed.

Lemma TempDir_inl c (fs : FS) err c1 fs1 :
  TempDir ioutil_TempDir c fs = (inl err, c1, fs1) ->
  c1 = c /\ fs1 = fs /\
  (err = ErrTempDirOpen (tmpdir c) \/ exists e, err = ErrTempDirCreate e).
Proof.
  unfold TempDir, Stat, Open. destruct (decide (tmpdir c <> "")) as [Hne|Hnew].
  - destruct (fs !! tmpdir c) as [n|]; intros Heq; simplify_eq. auto.
  - destruct (ioutil_TempDir fs) as [e|name']; intros Heq; simplify_eq. eauto.
Qed.

(** [TempDir] makes no file, and keeps every path in use. *)
Lemma TempDir_files c (fs : FS) r c1 fs1 q perm data :
  TempDir ioutil_TempDir c fs = (r, c1, fs1) ->
  fs1 !! q = Some (File perm data) -> fs !! q = Some (File perm data).
Proof.
  intros Ht Hq. destruct r as [err|name].
  - apply TempDir_inl in Ht as (_ & -> & _). done.
  - apply TempDir_inr in Ht as [(_ & _ & _ & -> & _)|(_ & _ & _ & ->)]; [done|].
    apply lookup_insert_Some in Hq as [[_ ?]|[_ ?]]; done.
Qed.

Lemma TempDir_in_use c (fs : FS) r c1 fs1 q :
  TempDir ioutil_TempDir c fs = (r, c1, fs1) ->
  is_Some (fs !! q) -> is_Some (fs1 !! q).
Proof.
  intros Ht Hq. destruct r as [err|name].
  - apply TempDir_inl in Ht as (_ & -> & _). done.
  - apply TempDir_inr in Ht as [(_ & _ & _ & -> & _)|(_ & _ & _ & ->)]; [done|].
    destruct (decide (q = name)) as [->|Hne].
    + by rewrite lookup_insert_eq.
    + by rewrite lookup_insert_ne.
Qed.

Lemma TempDir_fields c (fs : FS) r c1 fs1 :
  TempDir ioutil_TempDir c fs = (r, c1, fs1) ->
  Image c1 = Image c /\ Manifest c1 = Manifest c /\ Stemcell c1 = Stemcell c /\
  Sha1sum c1 = Sha1sum c /\ stop c1 = stop c.
Proof.
  intros Ht. destruct r as [err|name].
  - apply TempDir_inl in Ht as (-> & _). done.
  - apply TempDir_inr in Ht as [(_ & _ & -> & _)|(_ & _ & -> & _)]; done.
Qed.

(** What a [WriteManifest] that returned [nil] has done. *)
Lemma WriteManifest_Ok_inv c (fs : FS) c1 fs1 :
  WriteManifest Version ioutil_TempDir c fs = (Ok, c1, fs1) ->
  exists tmp c0 fs0,
    Manifest c = "" /\
    TempDir ioutil_TempDir c fs = (inr tmp, c0, fs0) /\
    fs0 !! Path.Join tmp "stemcell.MF" = None /\
    c1 = set_Manifest c0 (Path.Join tmp "stemcell.MF") /\
    fs1 = <[Path.Join tmp "stemcell.MF" :=
              File 420 (bytes_of (manifest_text Version (Sha1sum c0)))]> fs0.
Proof.
  unfold WriteManifest. destruct (decide (Manifest c <> "")) as [|Hm]; [done|].
  destruct (TempDir ioutil_TempDir c fs) as [[[err|tmp] c0] fs0] eqn:Ht; [done|].
  simpl. destruct (OpenFile _ _ _ _) as [err|fs2] eqn:Hopen; [done|].
  apply OvaMore.OpenFile_excl_inr in Hopen as (Hfree & _ & ->).
  intros Heq; simplify_eq. exists tmp, c0, fs0.
  split; [by destruct (decide (Manifest c = ""))|]. do 3 (split; [done|]).
  by rewrite append_file_insert.
Qed.

(** What a [CreateImageFromOVA] that returned [nil] has done. *)
Lemma CreateImageFromOVA_Ok_inv c name w c1 w1 :
  CreateImageFromOVA ioutil_TempDir gzip sha1hex c name w = (Ok, c1, w1) ->
  exists tmp c0 fs0 perm data,
    TempDir ioutil_TempDir c (fs w) = (inr tmp, c0, fs0) /\
    fs0 !! Path.Join tmp "image" = None /\
    fs w !! name = Some (File perm data) /\
    Chan.closed (chans w) (stop c) = false /\
    c1 = set_Sha1sum (set_Image c0 (Path.Join tmp "image")) (sha1hex (gzip data)) /\
    w1 = mkWorld (<[Path.Join tmp "image" := File 420 (gzip data)]> fs0) (chans w).
Proof.
  unfold CreateImageFromOVA, Open.
  destruct (fs w !! name) as [f|] eqn:Hname; [|done].
  destruct (TempDir ioutil_TempDir c (fs w)) as [[[err|tmp] c0] fs0] eqn:Ht; [done|].
  simpl. destruct (OpenFile _ _ _ _) as [err|fs2] eqn:Hopen; [done|].
  apply OvaMore.OpenFile_excl_inr in Hopen as (Hfree & _ & ->).
  assert (name <> Path.Join tmp "image") as Hne.
  { intros ->. destruct (TempDir_in_use _ _ _ _ _ (Path.Join tmp "image") Ht) as [? ?];
      [by rewrite Hname|congruence]. }
  rewrite lookup_insert_ne by done.
  destruct (fs0 !! name) as [[|perm data]|] eqn:Hname0; [done| |done].
  apply (TempDir_files _ _ _ _ _ _ _ _ Ht) in Hname0.
  destruct (Chan.closed (chans w) (stop c0)) eqn:Hclosed.
  { by rewrite Write_file_closed. }
  rewrite Write_file_open by done. simpl.
  intros Heq; simplify_eq. exists tmp, c0, fs0, perm, data.
  do 3 (split; [done|]).
  destruct (TempDir_fields _ _ _ _ _ Ht) as (_ & _ & _ & _ & <-).
  split; [done|]. split; [done|]. by rewrite append_file_insert.
Qed.

(** What a [CreateStemcell] that returned [nil] has done; the two
    inputs are read once the empty stemcell file is there. *)
Lemma CreateStemcell_Ok_inv c w c1 w1 :
  CreateStemcell Version ioutil_TempDir gzip tar c w = (Ok, c1, w1) ->
  exists tmp c0 fs0 ip idata mp mdata,
    Manifest c <> "" /\ Image c <> "" /\
    TempDir ioutil_TempDir c (fs w) = (inr tmp, c0, fs0) /\
    fs0 !! Path.Join tmp (StemcellFilename Version) = None /\
    <[Path.Join tmp (StemcellFilename Version) := File 420 []]> fs0 !! Image c
      = Some (File ip idata) /\
    <[Path.Join tmp (StemcellFilename Version) := File 420 []]> fs0 !! Manifest c
      = Some (File mp mdata) /\
    Chan.closed (chans w) (stop c) = false /\
    c1 = set_Stemcell c0 (Path.Join tmp (StemcellFilename Version)) /\
    w1 = mkWorld
           (<[Path.Join tmp (StemcellFilename Version) :=
                File 420 (gzip (tar [(Path.Base (Image c), File ip idata);
                                     (Path.Base (Manifest c), File mp mdata)]))]> fs0)
           (chans w).
Proof.
  unfold CreateStemcell.
  destruct (decide (Manifest c = "")); [done|].
  destruct (decide (Image c = "")); [done|].
  destruct (TempDir ioutil_TempDir c (fs w)) as [[[err|tmp] c0] fs0] eqn:Ht; [done|].
  destruct (TempDir_fields _ _ _ _ _ Ht) as (Hi & Hm & _ & _ & Hs).
  simpl. rewrite Hi, Hm, Hs.
  destruct (OpenFile _ _ _ _) as [err|fs2] eqn:Hopen; [done|].
  apply OvaMore.OpenFile_excl_inr in Hopen as (Hfree & _ & ->).
  unfold AddTarFile, Open. simpl. rewrite ?Hi, ?Hm, ?Hs.
  change (syscallMode 420) with 420.
  set (S := Path.Join tmp (StemcellFilename Version)) in *.
  destruct (<[S := File 420 []]> fs0 !! Image c) as [f|] eqn:Hf; [|done].
  destruct (Chan.closed (chans w) (stop c)) eqn:Hclosed; [done|].
  destruct f as [|ip idata]; [done|].
  destruct (<[S := File 420 []]> fs0 !! Manifest c) as [g|] eqn:Hg; [|done].
  destruct g as [|mp mdata]; [done|].
  rewrite Write_file_open by done. simpl.
  intros Heq; simplify_eq.
  exists tmp, c0, fs0, ip, idata, mp, mdata.
  do 8 (split; [done|]). by rewrite append_file_insert.
Qed.

Lemma TempDir_tmpdir c (fs : FS) name c1 fs1 :
  TempDir ioutil_TempDir c fs = (inr name, c1, fs1) -> tmpdir c1 = name.
Proof.
  intros Ht. apply TempDir_inr in Ht as [(_ & -> & -> & _)|(_ & _ & -> & _)]; done.
Qed.

Lemma TempDir_free c (fs : FS) r c1 fs1 q :
  TempDir ioutil_TempDir c fs = (r, c1, fs1) -> fs1 !! q = None -> fs !! q = None.
Proof.
  intros Ht Hq. destruct (fs !! q) as [n|] eqn:Hn; [|done].
  destruct (TempDir_in_use _ _ _ _ _ q Ht) as [? ?]; [by rewrite Hn|congruence].
Qed.

(** A stage that does not return [nil] leaves the disk as [TempDir] made
    it, or as it was. *)
Lemma WriteManifest_not_Ok c (fs : FS) :
  (WriteManifest Version ioutil_TempDir c fs).1.1 <> Ok ->
  (WriteManifest Version ioutil_TempDir c fs).2 = fs \/
  (WriteManifest Version ioutil_TempDir c fs).2 = (TempDir ioutil_TempDir c fs).2.
Proof.
  unfold WriteManifest. destruct (decide (Manifest c <> "")); [by left|].
  destruct (TempDir ioutil_TempDir c fs) as [[[err|tmp] c0] fs0]; [by right|].
  simpl. destruct (OpenFile _ _ _ _); [by right|done].
Qed.

Lemma CreateStemcell_not_Ok c w :
  (CreateStemcell Version ioutil_TempDir gzip tar c w).1.1 <> Ok ->
  chans (CreateStemcell Version ioutil_TempDir gzip tar c w).2 = chans w /\
  (fs (CreateStemcell Version ioutil_TempDir gzip tar c w).2 = fs w \/
   fs (CreateStemcell Version ioutil_TempDir gzip tar c w).2
   = (TempDir ioutil_TempDir c (fs w)).2).
Proof.
  unfold CreateStemcell.
  destruct (decide (Manifest c = "")); [by auto|].
  destruct (decide (Image c = "")); [by auto|].
  destruct (TempDir ioutil_TempDir c (fs w)) as [[[err|tmp] c0] fs0]; [by auto|].
  simpl. destruct (OpenFile _ _ _ _) as [err|fs2] eqn:Hopen; [by auto|].
  apply OvaMore.OpenFile_excl_inr in Hopen as (Hfree & _ & ->).
  rewrite Remove_insert_fresh by done.
  destruct (AddTarFile _ _ _); [by auto|].
  destruct (AddTarFile _ _ _); [by auto|].
  destruct (Cancel.CancelWriter_Write _ _ _) as [out' [k [err|]]]; [by auto|done].
Qed.

Lemma CreateImageFromOVA_not_Ok c name w :
  (CreateImageFromOVA ioutil_TempDir gzip sha1hex c name w).1.1 <> Ok ->
  chans (CreateImageFromOVA ioutil_TempDir gzip sha1hex c name w).2 = chans w /\
  (fs (CreateImageFromOVA ioutil_TempDir gzip sha1hex c name w).2 = fs w \/
   fs (CreateImageFromOVA ioutil_TempDir gzip sha1hex c name w).2
   = (TempDir ioutil_TempDir c (fs w)).2).
Proof.
  unfold CreateImageFromOVA.
  destruct (Open (fs w) name); [by auto|].
  destruct (TempDir ioutil_TempDir c (fs w)) as [[[err|tmp] c0] fs0]; [by auto|].
  simpl. destruct (OpenFile _ _ _ _) as [err|fs2] eqn:Hopen; [by auto|].
  apply OvaMore.OpenFile_excl_inr in Hopen as (Hfree & _ & ->).
  rewrite Remove_insert_fresh by done.
  destruct (_ !! name) as [[|perm data]|]; [by auto| |by auto].
  destruct (Cancel.CancelWriter_Write _ _ _) as [out' [k [err|]]]; [by auto|done].
Qed.

Lemma CreateImageFromOVF_not_Ok c dirname w :
  (CreateImageFromOVF ioutil_TempDir ioutil_ReadDir gzip tar sha1hex c dirname w).1.1
    <> None ->
  chans (CreateImageFromOVF ioutil_TempDir ioutil_ReadDir gzip tar sha1hex c dirname w).2
    = chans w /\
  (fs (CreateImageFromOVF ioutil_TempDir ioutil_ReadDir gzip tar sha1hex c dirname w).2
     = fs w \/
   fs (CreateImageFromOVF ioutil_TempDir ioutil_ReadDir gzip tar sha1hex c dirname w).2
   = (TempDir ioutil_TempDir c (fs w)).2).
Proof.
  unfold CreateImageFromOVF.
  destruct (ioutil_ReadDir (fs w) dirname); [by auto|].
  destruct (TempDir ioutil_TempDir c (fs w)) as [[[err|tmp] c0] fs0]; [by auto|].
  simpl. destruct (OpenFile _ _ _ _) as [err|fs2] eqn:Hopen; [by auto|].
  apply OvaMore.OpenFile_excl_inr in Hopen as (Hfree & _ & ->).
  rewrite Remove_insert_fresh by done.
  destruct (add_files _ _ _ _) as [[path err]|files]; [by auto|].
  destruct (Cancel.CancelWriter_Write _ _ _) as [out' [k [err|]]]; [by auto|done].
Qed.

Lemma TempDir_no_new_file c (fs : FS) q perm data :
  (TempDir ioutil_TempDir c fs).2 !! q = Some (File perm data) ->
  fs !! q = Some (File perm data).
Proof.
  destruct (TempDir ioutil_TempDir c fs) as [[r c1] fs1] eqn:Ht. simpl.
  by eapply TempDir_files.
Qed.

(** What a [CreateImageFromOVF] that returned [nil] has done. *)
Lemma CreateImageFromOVF_Ok_inv c dirname w c1 w1 :
  CreateImageFromOVF ioutil_TempDir ioutil_ReadDir gzip tar sha1hex c dirname w
  = (None, c1, w1) ->
  exists names tmp c0 fs0 files,
    ioutil_ReadDir (fs w) dirname = inr names /\
    TempDir ioutil_TempDir c (fs w) = (inr tmp, c0, fs0) /\
    fs0 !! Path.Join tmp "image" = None /\
    add_files (set_Image c0 (Path.Join tmp "image"))
      (mkWorld (<[Path.Join tmp "image" := File 420 []]> fs0) (chans w)) dirname names
    = inr files /\
    Chan.closed (chans w) (stop c) = false /\
    c1 = set_Sha1sum (set_Image c0 (Path.Join tmp "image")) (sha1hex (tar files)) /\
    w1 = mkWorld (<[Path.Join tmp "image" := File 420 (gzip (tar files))]> fs0) (chans w).
Proof.
  unfold CreateImageFromOVF.
  destruct (ioutil_ReadDir (fs w) dirname) as [err|names]; [done|].
  destruct (TempDir ioutil_TempDir c (fs w)) as [[[err|tmp] c0] fs0] eqn:Ht; [done|].
  destruct (TempDir_fields _ _ _ _ _ Ht) as (_ & _ & _ & _ & Hs).
  simpl. destruct (OpenFile _ _ _ _) as [err|fs2] eqn:Hopen; [done|].
  apply OvaMore.OpenFile_excl_inr in Hopen as (Hfree & _ & ->).
  change (syscallMode 420) with 420.
  destruct (add_files _ _ _ _) as [[path err]|files] eqn:Hfiles; [done|].
  unfold Config_Writer. simpl. rewrite Hs.
  destruct (Chan.closed (chans w) (stop c)) eqn:Hclosed.
  { by rewrite Write_file_closed. }
  rewrite Write_file_open by done. simpl.
  intros Heq; simplify_eq. exists names, tmp, c0, fs0, files.
  do 6 (split; [done|]). by rewrite append_file_insert.
Qed.

(** The files [add_files] returns are the listed names, in order, each
    under its last path element and with what is on the disk there. *)
Lemma add_files_inr c w dirname names : forall files,
  add_files c w dirname names = inr files ->
  Forall2 (fun name f =>
             f.1 = Path.Base (Path.Join dirname name) /\
             exists perm data, f.2 = File perm data /\
               fs w !! Path.Join dirname name = Some (File perm data))
          names files.
Proof.
  induction names as [|name names IH]; intros files Hfiles; simpl in Hfiles.
  - simplify_eq. constructor.
  - unfold AddTarFile, Open in Hfiles.
    destruct (fs w !! Path.Join dirname name) as [[|perm data]|] eqn:Hname;
      [by destruct (Chan.closed _ _)| |done].
    destruct (Chan.closed _ _); [done|].
    destruct (add_files c w dirname names) as [e|files']; [done|].
    simplify_eq. constructor; [|by apply IH].
    split; [done|]. by exists perm, data.
Qed.

(** The first [Read] through [c.Reader] fails once the signal is there. *)
Lemma AddTarFile_closed c w name :
  Chan.closed (chans w) (stop c) = true ->
  exists err, AddTarFile c w name = inl err.
Proof.
  intros Hclosed. unfold AddTarFile. destruct (Open (fs w) name); [by eexists|].
  rewrite Hclosed. by eexists.
Qed.

End Facts.

(** X14.  A [Config] has one workspace for its whole life.  Once
    [TempDir] has returned a directory, every later [TempDir] on that
    [Config] returns the same directory and changes nothing, as long as
    the directory is there; when the directory has gone, [TempDir]
    fails with the open error and never makes a second one. *)
Theorem TempDir_one_workspace
    (ioutil_TempDir ioutil_TempDir' : FS -> Error + string)
    (c : Config) (fs : FS) (name : string) (c1 : Config) (fs1 : FS) :
  TempDir ioutil_TempDir c fs = (inr name, c1, fs1) ->
  name <> "" ->
  tmpdir c1 = name /\ is_Some (fs1 !! name) /\
  (forall fs2 : FS, is_Some (fs2 !! name) ->
     TempDir ioutil_TempDir' c1 fs2 = (inr name, c1, fs2)) /\
  (forall fs2 : FS, fs2 !! name = None ->
     TempDir ioutil_TempDir' c1 fs2 = (inl (ErrTempDirOpen name), c1, fs2)).
Proof.
  intros Ht Hname.
  assert (tmpdir c1 = name) as Htmp by by eapply TempDir_tmpdir.
  split; [done|]. split.
  - apply TempDir_inr in Ht as [(_ & _ & _ & -> & Hsome)|(_ & _ & _ & ->)]; [done|].
    by rewrite lookup_insert_eq.
  - split; intros fs2 Hfs2; unfold TempDir, Stat, Open;
      (destruct (decide (tmpdir c1 <> "")) as [_|Hno]; [|by rewrite Htmp in Hno]);
      rewrite Htmp.
    + by destruct Hfs2 as [n ->].
    + by rewrite Hfs2.
Qed.

Lemma TempDir_one_workspace_witness :
  tmpdir (set_tmpdir fresh_config "/tmp/ova2stemcell-1") = "/tmp/ova2stemcell-1" /\
  is_Some ((<["/tmp/ova2stemcell-1" := Dir]> ∅ : FS) !! "/tmp/ova2stemcell-1") /\
  (forall fs2 : FS, is_Some (fs2 !! "/tmp/ova2stemcell-1") ->
     TempDir (fun _ => inr "/tmp/other") (set_tmpdir fresh_config "/tmp/ova2stemcell-1") fs2
     = (inr "/tmp/ova2stemcell-1", set_tmpdir fresh_config "/tmp/ova2stemcell-1", fs2)) /\
  (forall fs2 : FS, fs2 !! "/tmp/ova2stemcell-1" = None ->
     TempDir (fun _ => inr "/tmp/other") (set_tmpdir fresh_config "/tmp/ova2stemcell-1") fs2
     = (inl (ErrTempDirOpen "/tmp/ova2stemcell-1"),
        set_tmpdir fresh_config "/tmp/ova2stemcell-1", fs2)).
Proof.
  apply (TempDir_one_workspace sample_TempDir (fun _ => inr "/tmp/other")
           fresh_config ∅ "/tmp/ova2stemcell-1").
  - reflexivity.
  - discriminate.
Defined.

(** X15.  After [Cleanup] (and so after [Stop]) on a [Config] that has
    a workspace, the workspace is not made again: [TempDir] fails with
    the open error, and each stage fails without changing the disk or
    the [Config] - [WriteManifest] and [CreateStemcell] with that
    error, the two image stages with it or with the error of their
    input. *)
Theorem stages_fail_after_Cleanup
    (Version : string) (ioutil_TempDir : FS -> Error + string)
    (ioutil_ReadDir : FS -> string -> Error + list string)
    (gzip : bytes -> bytes) (tar : list (string * Node) -> bytes)
    (sha1hex : bytes -> string)
    (c : Config) (fs0 : FS) (h : Chan.Heap) :
  tmpdir c <> "" ->
  TempDir ioutil_TempDir c (Cleanup c fs0)
  = (inl (ErrTempDirOpen (tmpdir c)), c, Cleanup c fs0) /\
  (Manifest c = "" ->
     WriteManifest Version ioutil_TempDir c (Cleanup c fs0)
     = (Err (ErrTempDirOpen (tmpdir c)), c, Cleanup c fs0)) /\
  (Manifest c <> "" -> Image c <> "" ->
     CreateStemcell Version ioutil_TempDir gzip tar c (mkWorld (Cleanup c fs0) h)
     = (Err (ErrTempDirOpen (tmpdir c)), c, mkWorld (Cleanup c fs0) h)) /\
  (forall name,
     exists err,
       CreateImageFromOVA ioutil_TempDir gzip sha1hex c name (mkWorld (Cleanup c fs0) h)
       = (Err err, c, mkWorld (Cleanup c fs0) h)) /\
  (forall dirname,
     exists err,
       CreateImageFromOVF ioutil_TempDir ioutil_ReadDir gzip tar sha1hex c dirname
         (mkWorld (Cleanup c fs0) h)
       = (Some err, c, mkWorld (Cleanup c fs0) h)).
Proof.
  intros Htmp.
  assert (TempDir ioutil_TempDir c (Cleanup c fs0)
          = (inl (ErrTempDirOpen (tmpdir c)), c, Cleanup c fs0)) as Ht.
  { unfold TempDir, Stat, Open. destruct (decide (tmpdir c <> "")); [|done].
    by rewrite Cleanup_removes_workspace by (done || apply under_refl). }
  split; [done|]. split; [|split; [|split]].
  - intros Hm. unfold WriteManifest. destruct (decide (Manifest c <> "")); [done|].
    by rewrite Ht.
  - intros Hm Hi. unfold CreateStemcell.
    destruct (decide (Manifest c = "")); [done|].
    destruct (decide (Image c = "")); [done|]. simpl. by rewrite Ht.
  - intros name. unfold CreateImageFromOVA. simpl.
    destruct (Open (Cleanup c fs0) name); [by eexists|]. rewrite Ht. by eexists.
  - intros dirname. unfold CreateImageFromOVF. simpl.
    destruct (ioutil_ReadDir (Cleanup c fs0) dirname); [by eexists|].
    rewrite Ht. by eexists.
Qed.

Lemma stages_fail_after_Cleanup_witness :
  TempDir sample_TempDir busy_config (Cleanup busy_config busy_fs)
  = (inl (ErrTempDirOpen "/tmp/w"), busy_config, Cleanup busy_config busy_fs) /\
  WriteManifest "1.2" sample_TempDir busy_config (Cleanup busy_config busy_fs)
  = (Err (ErrTempDirOpen "/tmp/w"), busy_config, Cleanup busy_config busy_fs).
Proof.
  destruct (stages_fail_after_Cleanup "1.2" sample_TempDir (fun _ _ => inr [])
              (fun b => b) (fun _ => []) (fun _ => "")
              busy_config busy_fs closed_heap) as (Ht & Hm & _).
  - discriminate.
  - split; [exact Ht|]. apply Hm. reflexivity.
Defined.

(** X16.  A [WriteManifest] that returns [nil] has made exactly one
    file: [stemcell.MF] in the workspace, which did not exist before,
    has mode 0644 and holds the manifest text with the global [Version]
    and the checksum the [Config] had when the call was made.  Apart
    from that file and the workspace directory, the disk is as before;
    the other fields of the [Config] keep their values. *)
Theorem WriteManifest_writes_the_manifest
    (Version : string) (ioutil_TempDir : FS -> Error + string)
    (c : Config) (fs : FS) (c1 : Config) (fs1 : FS) :
  WriteManifest Version ioutil_TempDir c fs = (Ok, c1, fs1) ->
  Manifest c1 = Path.Join (tmpdir c1) "stemcell.MF" /\
  Path.Base (Manifest c1) = "stemcell.MF" /\
  fs !! Manifest c1 = None /\
  fs1 !! Manifest c1
  = Some (File 420 (bytes_of (manifest_text Version (Sha1sum c)))) /\
  (forall q, q <> Manifest c1 -> q <> tmpdir c1 -> fs1 !! q = fs !! q) /\
  Image c1 = Image c /\ Stemcell c1 = Stemcell c /\ Sha1sum c1 = Sha1sum c /\
  stop c1 = stop c.
Proof.
  intros Hok.
  apply WriteManifest_Ok_inv in Hok as (tmp & c0 & fs0 & _ & Ht & Hfree & -> & ->).
  destruct (TempDir_fields _ _ _ _ _ _ Ht) as (Hi & _ & Hs & Hsum & Hstop).
  pose proof (TempDir_tmpdir _ _ _ _ _ _ Ht) as Htmp. simpl.
  rewrite Htmp, Hsum. split; [done|].
  split; [apply PathFacts.Base_Join_manifest|].
  split; [by eapply TempDir_free|].
  split; [by rewrite lookup_insert_eq|].
  split; [|done].
  intros q Hq Hq'. rewrite lookup_insert_ne by done.
  apply TempDir_inr in Ht as [(_ & _ & _ & -> & _)|(_ & _ & _ & ->)]; [done|].
  by rewrite lookup_insert_ne.
Qed.

Lemma WriteManifest_writes_the_manifest_witness :
  Manifest written_config = Path.Join (tmpdir written_config) "stemcell.MF" /\
  Path.Base (Manifest written_config) = "stemcell.MF" /\
  (∅ : FS) !! Manifest written_config = None /\
  (<["/tmp/ova2stemcell-1/stemcell.MF" :=
       File 420 (bytes_of (manifest_text "1.2" "da39a3"))]>
     (<["/tmp/ova2stemcell-1" := Dir]> ∅) : FS) !! Manifest written_config
  = Some (File 420 (bytes_of (manifest_text "1.2" "da39a3"))).
Proof.
  destruct (WriteManifest_writes_the_manifest "1.2" sample_TempDir
              (mkConfig "" "" "" "da39a3" "" (Chan.chan_at 0)) ∅
              written_config
              (<["/tmp/ova2stemcell-1/stemcell.MF" :=
                   File 420 (bytes_of (manifest_text "1.2" "da39a3"))]>
                 (<["/tmp/ova2stemcell-1" := Dir]> ∅)))
    as (H1 & H2 & H3 & H4 & _).
  - reflexivity.
  - split; [exact H1|]. split; [exact H2|]. split; [exact H3|exact H4].
Defined.

(** X17.  The stages are all or nothing with respect to files.  When
    [WriteManifest], [CreateImageFromOVA], [CreateImageFromOVF] or
    [CreateStemcell] does not return [nil] (it returns an error or
    panics), every file that is on the disk afterwards was there
    before, with the same mode and bytes: a file the stage had created
    has been removed again, and the only thing the call may have added
    is the workspace directory. *)
Theorem failed_stage_leaves_no_file
    (Version : string) (ioutil_TempDir : FS -> Error + string)
    (ioutil_ReadDir : FS -> string -> Error + list string)
    (gzip : bytes -> bytes) (tar : list (string * Node) -> bytes)
    (sha1hex : bytes -> string)
    (c : Config) (w : World) (q : string) (perm : Z) (data : bytes) :
  ((WriteManifest Version ioutil_TempDir c (fs w)).1.1 <> Ok ->
   (WriteManifest Version ioutil_TempDir c (fs w)).2 !! q = Some (File perm data) ->
   fs w !! q = Some (File perm data)) /\
  (forall name,
     (CreateImageFromOVA ioutil_TempDir gzip sha1hex c name w).1.1 <> Ok ->
     fs (CreateImageFromOVA ioutil_TempDir gzip sha1hex c name w).2 !! q
       = Some (File perm data) ->
     fs w !! q = Some (File perm data)) /\
  (forall dirname,
     (CreateImageFromOVF ioutil_TempDir ioutil_ReadDir gzip tar sha1hex c dirname w).1.1
       <> None ->
     fs (CreateImageFromOVF ioutil_TempDir ioutil_ReadDir gzip tar sha1hex c dirname w).2
       !! q = Some (File perm data) ->
     fs w !! q = Some (File perm data)) /\
  ((CreateStemcell Version ioutil_TempDir gzip tar c w).1.1 <> Ok ->
   fs (CreateStemcell Version ioutil_TempDir gzip tar c w).2 !! q
     = Some (File perm data) ->
   fs w !! q = Some (File perm data)).
Proof.
  split; [|split; [|split]].
  - intros Hfail Hq.
    destruct (WriteManifest_not_Ok _ _ _ _ Hfail) as [Heq|Heq]; rewrite Heq in Hq;
      [done|by eapply TempDir_no_new_file].
  - intros name Hfail Hq.
    destruct (CreateImageFromOVA_not_Ok _ _ _ _ _ _ Hfail) as [_ [Heq|Heq]];
      rewrite Heq in Hq; [done|by eapply TempDir_no_new_file].
  - intros dirname Hfail Hq.
    destruct (CreateImageFromOVF_not_Ok _ _ _ _ _ _ _ _ Hfail) as [_ [Heq|Heq]];
      rewrite Heq in Hq; [done|by eapply TempDir_no_new_file].
  - intros Hfail Hq.
    destruct (CreateStemcell_not_Ok _ _ _ _ _ _ Hfail) as [_ [Heq|Heq]];
      rewrite Heq in Hq; [done|by eapply TempDir_no_new_file].
Qed.

Lemma failed_stage_leaves_no_file_witness :
  (CreateStemcell "1.2" sample_TempDir toy_gzip toy_tar staged_config
     (mkWorld staged_fs closed_heap)).1.1
  = Err (ErrCreatingStemcell ErrInterupt) /\
  (fs (CreateStemcell "1.2" sample_TempDir toy_gzip toy_tar staged_config
         (mkWorld staged_fs closed_heap)).2 !! "/tmp/w/image"
   = Some (File 420 (bytes_of "image")) ->
   staged_fs !! "/tmp/w/image" = Some (File 420 (bytes_of "image"))).
Proof.
  split; [reflexivity|].
  destruct (failed_stage_leaves_no_file "1.2" sample_TempDir ovf_ReadDir
              toy_gzip toy_tar toy_sha1hex staged_config (mkWorld staged_fs closed_heap)
              "/tmp/w/image" 420 (bytes_of "image")) as (_ & _ & _ & Hstemcell).
  apply Hstemcell. vm_compute. discriminate.
Defined.

(** X18.  Once the signal has been raised, no image and no stemcell is
    produced: with the [stop] channel of the [Config] closed,
    [CreateImageFromOVA], [CreateImageFromOVF] and [CreateStemcell]
    never return [nil], whatever the disk holds. *)
Theorem stopped_stages_do_not_succeed
    (Version : string) (ioutil_TempDir : FS -> Error + string)
    (ioutil_ReadDir : FS -> string -> Error + list string)
    (gzip : bytes -> bytes) (tar : list (string * Node) -> bytes)
    (sha1hex : bytes -> string)
    (c : Config) (w : World) :
  Chan.closed (chans w) (stop c) = true ->
  (forall name, (CreateImageFromOVA ioutil_TempDir gzip sha1hex c name w).1.1 <> Ok) /\
  (forall dirname,
     (CreateImageFromOVF ioutil_TempDir ioutil_ReadDir gzip tar sha1hex c dirname w).1.1
     <> None) /\
  (CreateStemcell Version ioutil_TempDir gzip tar c w).1.1 <> Ok.
Proof.
  intros Hclosed. split; [|split].
  - intros name Hok.
    destruct (CreateImageFromOVA ioutil_TempDir gzip sha1hex c name w)
      as [[o c1] w1] eqn:Hrun. simpl in Hok. subst o.
    apply CreateImageFromOVA_Ok_inv in Hrun as (? & ? & ? & ? & ? & _ & _ & _ & ? & _).
    congruence.
  - intros dirname. unfold CreateImageFromOVF.
    destruct (ioutil_ReadDir (fs w) dirname) as [err|fis]; [done|].
    destruct (TempDir ioutil_TempDir c (fs w)) as [[[err|tmp] c0] fs0] eqn:Ht; [done|].
    destruct (TempDir_fields _ _ _ _ _ _ Ht) as (_ & _ & _ & _ & Hs).
    simpl. destruct (OpenFile _ _ _ _) as [err|fs2]; [done|].
    destruct (add_files _ _ _ _) as [[path err]|files]; [done|].
    unfold Config_Writer. simpl. rewrite Hs.
    by rewrite Write_file_closed.
  - intros Hok.
    destruct (CreateStemcell Version ioutil_TempDir gzip tar c w)
      as [[o c1] w1] eqn:Hrun. simpl in Hok. subst o.
    apply CreateStemcell_Ok_inv in Hrun
      as (? & ? & ? & ? & ? & ? & ? & _ & _ & _ & _ & _ & _ & ? & _).
    congruence.
Qed.

Lemma stopped_stages_do_not_succeed_witness :
  (CreateImageFromOVA sample_TempDir toy_gzip toy_sha1hex ova_config "/in/image.ova"
     (mkWorld ova_fs closed_heap)).1.1 <> Ok /\
  (CreateStemcell "1.2" sample_TempDir toy_gzip toy_tar staged_config
     (mkWorld staged_fs closed_heap)).1.1 <> Ok.
Proof.
  split.
  - apply (stopped_stages_do_not_succeed "1.2" sample_TempDir ovf_ReadDir
             toy_gzip toy_tar toy_sha1hex ova_config (mkWorld ova_fs closed_heap)).
    reflexivity.
  - apply (stopped_stages_do_not_succeed "1.2" sample_TempDir ovf_ReadDir
             toy_gzip toy_tar toy_sha1hex staged_config (mkWorld staged_fs closed_heap)).
    reflexivity.
Defined.

(** X19.  A [CreateImageFromOVA] that returns [nil] has made the image
    file in the workspace: it did not exist before, has mode 0644 and
    holds the gzip compression of the bytes of the archive file; and
    the checksum recorded in the [Config] is that of the compressed
    bytes, that is of the image file as it is on the disk. *)
Theorem CreateImageFromOVA_image_and_checksum
    (ioutil_TempDir : FS -> Error + string)
    (gzip : bytes -> bytes) (sha1hex : bytes -> string)
    (c : Config) (name : string) (w : World) (c1 : Config) (w1 : World) :
  CreateImageFromOVA ioutil_TempDir gzip sha1hex c name w = (Ok, c1, w1) ->
  exists perm data,
    fs w !! name = Some (File perm data) /\
    Image c1 = Path.Join (tmpdir c1) "image" /\
    Path.Base (Image c1) = "image" /\
    fs w !! Image c1 = None /\
    fs w1 !! Image c1 = Some (File 420 (gzip data)) /\
    Sha1sum c1 = sha1hex (gzip data) /\
    (forall q, q <> Image c1 -> q <> tmpdir c1 -> fs w1 !! q = fs w !! q).
Proof.
  intros Hok.
  apply CreateImageFromOVA_Ok_inv in Hok
    as (tmp & c0 & fs0 & perm & data & Ht & Hfree & Hname & _ & -> & ->).
  pose proof (TempDir_tmpdir _ _ _ _ _ _ Ht) as Htmp.
  exists perm, data. simpl. rewrite Htmp.
  split; [done|]. split; [done|]. split; [apply PathFacts.Base_Join_image|].
  split; [by eapply TempDir_free|].
  split; [by rewrite lookup_insert_eq|]. split; [done|].
  intros q Hq Hq'. rewrite lookup_insert_ne by done.
  apply TempDir_inr in Ht as [(_ & _ & _ & -> & _)|(_ & _ & _ & ->)]; [done|].
  by rewrite lookup_insert_ne.
Qed.

Lemma CreateImageFromOVA_image_and_checksum_witness :
  exists perm data,
    fs ova_world !! "/in/image.ova" = Some (File perm data) /\
    Image (CreateImageFromOVA sample_TempDir toy_gzip toy_sha1hex ova_config
             "/in/image.ova" ova_world).1.2
    = Path.Join (tmpdir (CreateImageFromOVA sample_TempDir toy_gzip toy_sha1hex ova_config
                           "/in/image.ova" ova_world).1.2) "image" /\
    fs (CreateImageFromOVA sample_TempDir toy_gzip toy_sha1hex ova_config
          "/in/image.ova" ova_world).2 !! "/tmp/ova2stemcell-1/image"
    = Some (File 420 (toy_gzip data)) /\
    Sha1sum (CreateImageFromOVA sample_TempDir toy_gzip toy_sha1hex ova_config
               "/in/image.ova" ova_world).1.2
    = toy_sha1hex (toy_gzip data).
Proof.
  destruct (CreateImageFromOVA_image_and_checksum sample_TempDir toy_gzip toy_sha1hex
              ova_config "/in/image.ova" ova_world
              (CreateImageFromOVA sample_TempDir toy_gzip toy_sha1hex ova_config
                 "/in/image.ova" ova_world).1.2
              (CreateImageFromOVA sample_TempDir toy_gzip toy_sha1hex ova_config
                 "/in/image.ova" ova_world).2)
    as (perm & data & H1 & H2 & _ & _ & H4 & H5 & _).
  - reflexivity.
  - exists perm, data. split; [exact H1|]. split; [exact H2|]. split; [exact H4|exact H5].
Defined.

(** X20.  A [CreateImageFromOVF] that returns [nil] has made the image
    file in the workspace, holding the gzip compression of the tar
    archive of the files that [ioutil.ReadDir] listed (names that exist
    in the directory), in the order of the listing, each under the last
    element of its path and with the bytes it had on the disk.  The checksum recorded
    in the [Config] is that of the tar archive before compression - not,
    as for [CreateImageFromOVA], that of the image file on the disk. *)
Theorem CreateImageFromOVF_image_and_checksum
    (ioutil_TempDir : FS -> Error + string)
    (ioutil_ReadDir : FS -> string -> Error + list string)
    (gzip : bytes -> bytes) (tar : list (string * Node) -> bytes)
    (sha1hex : bytes -> string)
    (c : Config) (dirname : string) (w : World) (c1 : Config) (w1 : World) :
  (forall names name, ioutil_ReadDir (fs w) dirname = inr names -> name ∈ names ->
     is_Some (fs w !! Path.Join dirname name)) ->
  CreateImageFromOVF ioutil_TempDir ioutil_ReadDir gzip tar sha1hex c dirname w
  = (None, c1, w1) ->
  exists names files,
    ioutil_ReadDir (fs w) dirname = inr names /\
    Forall2 (fun name f =>
               f.1 = Path.Base (Path.Join dirname name) /\
               exists perm data, f.2 = File perm data /\
                 fs w !! Path.Join dirname name = Some (File perm data))
            names files /\
    Image c1 = Path.Join (tmpdir c1) "image" /\
    fs w !! Image c1 = None /\
    fs w1 !! Image c1 = Some (File 420 (gzip (tar files))) /\
    Sha1sum c1 = sha1hex (tar files).
Proof.
  intros Hlisted Hok.
  apply CreateImageFromOVF_Ok_inv in Hok
    as (names & tmp & c0 & fs0 & files & Hdir & Ht & Hfree & Hfiles & _ & -> & ->).
  pose proof (TempDir_tmpdir _ _ _ _ _ _ Ht) as Htmp.
  assert (fs w !! Path.Join tmp "image" = None) as Hfree' by by eapply TempDir_free.
  exists names, files. simpl. rewrite Htmp.
  split; [done|]. split; [|by rewrite lookup_insert_eq].
  apply add_files_inr in Hfiles. simpl in Hfiles.
  eapply (Forall2_impl_Forall
            (fun name => is_Some (fs w !! Path.Join dirname name))); [|exact Hfiles|].
  { apply Forall_forall. intros name Hin. by eapply Hlisted. }
  intros name f [n Hn] (Hname & perm & data & Hf & Hdisk). split; [done|].
  exists perm, data. split; [done|].
  rewrite lookup_insert_ne in Hdisk by congruence.
  by eapply TempDir_files.
Qed.

Lemma CreateImageFromOVF_image_and_checksum_witness :
  exists names files,
    ovf_ReadDir ovf_fs "/in/pkg" = inr names /\
    Forall2 (fun name f =>
               f.1 = Path.Base (Path.Join "/in/pkg" name) /\
               exists perm data, f.2 = File perm data /\
                 ovf_fs !! Path.Join "/in/pkg" name = Some (File perm data))
            names files /\
    Image (CreateImageFromOVF sample_TempDir ovf_ReadDir toy_gzip toy_tar toy_sha1hex
             ova_config "/in/pkg" (mkWorld ovf_fs open_heap)).1.2
    = Path.Join (tmpdir (CreateImageFromOVF sample_TempDir ovf_ReadDir toy_gzip toy_tar
                           toy_sha1hex ova_config "/in/pkg"
                           (mkWorld ovf_fs open_heap)).1.2) "image" /\
    ovf_fs !! Image (CreateImageFromOVF sample_TempDir ovf_ReadDir toy_gzip toy_tar
                       toy_sha1hex ova_config "/in/pkg" (mkWorld ovf_fs open_heap)).1.2
    = None /\
    fs (CreateImageFromOVF sample_TempDir ovf_ReadDir toy_gzip toy_tar toy_sha1hex
          ova_config "/in/pkg" (mkWorld ovf_fs open_heap)).2
      !! Image (CreateImageFromOVF sample_TempDir ovf_ReadDir toy_gzip toy_tar toy_sha1hex
                  ova_config "/in/pkg" (mkWorld ovf_fs open_heap)).1.2
    = Some (File 420 (toy_gzip (toy_tar files))) /\
    Sha1sum (CreateImageFromOVF sample_TempDir ovf_ReadDir toy_gzip toy_tar toy_sha1hex
               ova_config "/in/pkg" (mkWorld ovf_fs open_heap)).1.2
    = toy_sha1hex (toy_tar files).
Proof.
  apply (CreateImageFromOVF_image_and_checksum sample_TempDir ovf_ReadDir
           toy_gzip toy_tar toy_sha1hex ova_config "/in/pkg" (mkWorld ovf_fs open_heap)).
  - intros names name Hnames Hin. injection Hnames as <-.
    apply elem_of_cons in Hin as [->|Hin]; [eexists; reflexivity|].
    apply elem_of_cons in Hin as [->|Hin]; [eexists; reflexivity|].
    by apply elem_of_nil in Hin.
  - reflexivity.
Defined.

(** X21.  The three stages in the order of [main]: when
    [CreateImageFromOVA], [WriteManifest] and [CreateStemcell] each
    return [nil], the stemcell file holds the gzip compression of a tar
    archive of exactly two files, first [image] and then
    [stemcell.MF]; the image is the compressed archive file, and the
    manifest gives the global [Version] and the checksum of that image.  Image and manifest are
    still in place next to the stemcell. *)
Theorem stemcell_of_an_ova
    (Version : string) (ioutil_TempDir : FS -> Error + string)
    (gzip : bytes -> bytes) (tar : list (string * Node) -> bytes)
    (sha1hex : bytes -> string)
    (c : Config) (name : string) (w : World)
    (c1 : Config) (w1 : World) (c2 : Config) (fs2 : FS) (c3 : Config) (w3 : World) :
  CreateImageFromOVA ioutil_TempDir gzip sha1hex c name w = (Ok, c1, w1) ->
  WriteManifest Version ioutil_TempDir c1 (fs w1) = (Ok, c2, fs2) ->
  CreateStemcell Version ioutil_TempDir gzip tar c2 (mkWorld fs2 (chans w1))
  = (Ok, c3, w3) ->
  exists perm data,
    fs w !! name = Some (File perm data) /\
    fs w3 !! Image c3 = Some (File 420 (gzip data)) /\
    fs w3 !! Manifest c3
    = Some (File 420 (bytes_of (manifest_text Version (sha1hex (gzip data))))) /\
    fs w3 !! Stemcell c3
    = Some (File 420 (gzip (tar
        [("image", File 420 (gzip data));
         ("stemcell.MF",
          File 420 (bytes_of (manifest_text Version (sha1hex (gzip data)))))]))) /\
    Stemcell c3 = Path.Join (tmpdir c3) (StemcellFilename Version).
Proof.
  intros Himage Hmanifest Hstemcell.
  apply CreateImageFromOVA_Ok_inv in Himage
    as (tmp1 & cA & fsA & perm & data & _ & _ & Hname & _ & -> & ->).
  apply WriteManifest_Ok_inv in Hmanifest
    as (tmp2 & cB & fsB & _ & HtB & HfreeM & -> & ->).
  apply CreateStemcell_Ok_inv in Hstemcell
    as (tmp3 & cC & fsC & ip & idata & mp & mdata & _ & _ & HtC & HfreeS
        & Hi & Hm & _ & -> & ->).
  destruct (TempDir_fields _ _ _ _ _ _ HtB) as (HiB & _ & _ & HsumB & _).
  destruct (TempDir_fields _ _ _ _ _ _ HtC) as (HiC & HmC & _ & _ & _).
  pose proof (TempDir_tmpdir _ _ _ _ _ _ HtC) as HtmpC.
  simpl in *. rewrite HiB in *. rewrite HsumB in *. clear HiB HsumB.
  set (I := Path.Join tmp1 "image") in *.
  set (M := Path.Join tmp2 "stemcell.MF") in *.
  set (S := Path.Join tmp3 (StemcellFilename Version)) in *.
  set (text := bytes_of (manifest_text Version (sha1hex (gzip data)))) in *.
  (* the image is in use from its creation on, so it is neither the
     manifest nor the stemcell *)
  assert (is_Some (fsB !! I)) as HIB.
  { eapply TempDir_in_use; [exact HtB|]. by rewrite lookup_insert_eq. }
  assert (I <> M) as HIM by (intros Heq; rewrite Heq, HfreeM in HIB; by destruct HIB).
  assert (is_Some (fsC !! I)) as HIC.
  { eapply TempDir_in_use; [exact HtC|]. by rewrite lookup_insert_ne. }
  assert (I <> S) as HIS by (intros Heq; rewrite Heq, HfreeS in HIC; by destruct HIC).
  assert (is_Some (fsC !! M)) as HMC.
  { eapply TempDir_in_use; [exact HtC|]. by rewrite lookup_insert_eq. }
  assert (M <> S) as HMS by (intros Heq; rewrite Heq, HfreeS in HMC; by destruct HMC).
  (* what the stemcell stage read *)
  rewrite lookup_insert_ne in Hi by done. rewrite lookup_insert_ne in Hm by done.
  assert (File ip idata = File 420 (gzip data)) as Himg.
  { pose proof (TempDir_files _ _ _ _ _ _ _ _ _ HtC Hi) as Hi2.
    rewrite lookup_insert_ne in Hi2 by done.
    pose proof (TempDir_files _ _ _ _ _ _ _ _ _ HtB Hi2) as Hi1.
    rewrite lookup_insert_eq in Hi1. congruence. }
  assert (File mp mdata = File 420 text) as Hmf.
  { pose proof (TempDir_files _ _ _ _ _ _ _ _ _ HtC Hm) as Hm2.
    rewrite lookup_insert_eq in Hm2. congruence. }
  rewrite Himg in *. rewrite Hmf in *.
  unfold I, M. rewrite PathFacts.Base_Join_image, PathFacts.Base_Join_manifest.
  fold I M.
  exists perm, data. rewrite HiC, HmC, HtmpC.
  split; [done|].
  split; [by rewrite lookup_insert_ne|].
  split; [by rewrite lookup_insert_ne|].
  split; [by rewrite lookup_insert_eq|done].
Qed.

Lemma stemcell_of_an_ova_witness :
  exists perm data,
    fs ova_world !! "/in/image.ova" = Some (File perm data) /\
    fs ova_stemcell_run.2 !! Image ova_stemcell_run.1.2
    = Some (File 420 (toy_gzip data)) /\
    fs ova_stemcell_run.2 !! Manifest ova_stemcell_run.1.2
    = Some (File 420 (bytes_of (manifest_text "1.2" (toy_sha1hex (toy_gzip data))))) /\
    fs ova_stemcell_run.2 !! Stemcell ova_stemcell_run.1.2
    = Some (File 420 (toy_gzip (toy_tar
        [("image", File 420 (toy_gzip data));
         ("stemcell.MF",
          File 420 (bytes_of (manifest_text "1.2" (toy_sha1hex (toy_gzip data)))))]))) /\
    Stemcell ova_stemcell_run.1.2
    = Path.Join (tmpdir ova_stemcell_run.1.2) (StemcellFilename "1.2").
Proof.
  apply (stemcell_of_an_ova "1.2" sample_TempDir toy_gzip toy_tar toy_sha1hex
           ova_config "/in/image.ova" ova_world
           ova_image_run.1.2 ova_image_run.2
           ova_manifest_run.1.2 ova_manifest_run.2).
  - reflexivity.
  - reflexivity.
  - reflexivity.
Defined.

Example stemcell_of_an_ova_paths :
  Image ova_stemcell_run.1.2 = "/tmp/ova2stemcell-1/image" /\
  Manifest ova_stemcell_run.1.2 = "/tmp/ova2stemcell-1/stemcell.MF" /\
  Stemcell ova_stemcell_run.1.2
  = "/tmp/ova2stemcell-1/bosh-stemcell-1.2-vsphere-esxi-windows2012R2-go_agent.tgz".
Proof. repeat split; reflexivity. Qed.

(** X22.  The wrappers a [Config] hands out follow the signal of that
    [Config].  While its [stop] channel is open, a write through
    [c.Writer(w)] and a read through [c.Reader(r)] are the write and
    the read of the wrapped stream.  After a [Stop] that returned, every
    such write and read - on wrappers made before or after the [Stop] -
    returns [(0, ErrInterupt)] and leaves the wrapped stream alone. *)
Theorem Config_wrappers_follow_Stop
    {W R : Type} `{Cancel.Writer W} `{Cancel.Reader R}
    (c : Config) (w : World) (x : W) (y : R) (p : bytes) (n : nat) :
  (Chan.closed (chans w) (stop c) = false ->
     Cancel.CancelWriter_Write (chans w) (Config_Writer c x) p
     = (Config_Writer c (Cancel.Write x p).1, (Cancel.Write x p).2) /\
     Cancel.CancelReader_Read (chans w) (Config_Reader c y) n
     = (Config_Reader c (Cancel.Read y n).1, (Cancel.Read y n).2)) /\
  ((Stop c w).1 = Ok ->
     Cancel.CancelWriter_Write (chans (Stop c w).2) (Config_Writer c x) p
     = (Config_Writer c x, (0, Some ErrInterupt)) /\
     Cancel.CancelReader_Read (chans (Stop c w).2) (Config_Reader c y) n
     = (Config_Reader c y, ([], Some ErrInterupt))).
Proof.
  split.
  - intros Hopen. unfold Cancel.CancelWriter_Write, Cancel.CancelReader_Read.
    simpl. rewrite Hopen.
    destruct (Cancel.Write x p) as [x' r]. by destruct (Cancel.Read y n) as [y' r'].
  - intros Hok. unfold Stop in *.
    destruct (Chan.close (chans w) (stop c)) as [msg|h'] eqn:Hclose; [done|].
    apply CancelFacts.close_closed in Hclose. simpl.
    unfold Cancel.CancelWriter_Write, Cancel.CancelReader_Read. simpl.
    by rewrite Hclose.
Qed.

Lemma Config_wrappers_follow_Stop_witness :
  (Cancel.CancelWriter_Write (chans fresh_world)
     (Config_Writer fresh_config (Cancel.mkCounter 0)) (bytes_of "abc")
   = (Config_Writer fresh_config (Cancel.mkCounter 1), (3, None))) /\
  (Cancel.CancelWriter_Write (chans (Stop fresh_config fresh_world).2)
     (Config_Writer fresh_config (Cancel.mkCounter 0)) (bytes_of "abc")
   = (Config_Writer fresh_config (Cancel.mkCounter 0), (0, Some ErrInterupt))).
Proof.
  destruct (Config_wrappers_follow_Stop fresh_config fresh_world
              (Cancel.mkCounter 0) (Cancel.mkCounter 0) (bytes_of "abc") 4)
    as [Hopen Hstopped].
  split.
  - apply Hopen. reflexivity.
  - apply Hstopped. reflexivity.
Defined.

End StagesFacts.

(** ** Validation of the command line *)

Module FlagsFacts.
Import OS Flags Samples MoreSamples.

(** *** [ValidateInputFlags] *)

Lemma validFile_empty_name (fs : FS) :
  fs !! "" = None -> validFile fs "" = Some (ErrStat (ENOENT "")).
Proof. intros Hnone. unfold validFile, Stat, Open. rewrite Hnone. reflexivity. Qed.

(** X23.  [ValidateInputFlags] of [main.go] accepts no command line at
    all.  It first requires exactly one of [vhd] and [delta] to be set,
    and then requires both to name a regular file; the one that is not
    set is the empty name, which [os.Stat] cannot find.  So with [vhd]
    alone (a regular file, no extra arguments) the answer is the
    invalid-[delta] error, and in general the answer is never [nil]. *)
Theorem ValidateInputFlags_never_accepts
    (args : list string) (vhd delta : string) (fs : FS) :
  fs !! "" = None ->
  ValidateInputFlags args vhd delta fs <> None /\
  (vhd <> "" -> delta = "" -> args = [] -> validFile fs vhd = None ->
     ValidateInputFlags args vhd delta fs
     = Some (ErrInvalidDelta (ErrStat (ENOENT "")))) /\
  (vhd = "" -> delta <> "" -> args = [] ->
     ValidateInputFlags args vhd delta fs
     = Some (ErrInvalidVhd (ErrStat (ENOENT "")))).
Proof.
  intros Hnone. unfold ValidateInputFlags. split; [|split].
  - destruct (decide (vhd = "")) as [->|Hv]; destruct (decide (delta = "")) as [->|Hd].
    + done.
    + rewrite (bool_decide_eq_false_2 (delta = "")) by done. simpl.
      destruct (negb _); [done|]. by rewrite validFile_empty_name.
    + rewrite (bool_decide_eq_false_2 (vhd = "")) by done. simpl.
      destruct (negb _); [done|]. destruct (validFile fs vhd); [done|].
      by rewrite validFile_empty_name.
    + rewrite (bool_decide_eq_false_2 (vhd = "")) by done.
      by rewrite (bool_decide_eq_false_2 (delta = "")) by done.
  - intros Hv -> -> Hvalid.
    rewrite (bool_decide_eq_false_2 (vhd = "")) by done. simpl.
    by rewrite Hvalid, validFile_empty_name.
  - intros -> Hd ->.
    rewrite (bool_decide_eq_false_2 (delta = "")) by done. simpl.
    by rewrite validFile_empty_name.
Qed.

Lemma ValidateInputFlags_never_accepts_witness :
  ValidateInputFlags [] "/in/basis" "/in/delta" (patch_fs good_delta) <> None /\
  ValidateInputFlags [] "/in/basis" "" (patch_fs good_delta)
  = Some (ErrInvalidDelta (ErrStat (ENOENT ""))).
Proof.
  split.
  - apply (ValidateInputFlags_never_accepts [] "/in/basis" "/in/delta" (patch_fs good_delta)).
    reflexivity.
  - apply (ValidateInputFlags_never_accepts [] "/in/basis" "" (patch_fs good_delta)).
    + reflexivity.
    + discriminate.
    + reflexivity.
    + reflexivity.
    + reflexivity.
Defined.

(** *** [ValidateFlags] *)

Lemma add_if_nil b err errs : add_if b err errs = [] <-> b = false /\ errs = [].
Proof.
  unfold add_if. destruct b.
  - split; [intros Heq; by apply app_nil in Heq as [_ ?]|by intros [? _]].
  - split; [by intros ->|by intros [_ ->]].
Qed.

Lemma add_opt_nil err wrap errs : add_opt err wrap errs = [] <-> err = None /\ errs = [].
Proof.
  unfold add_opt. destruct err.
  - split; [intros Heq; by apply app_nil in Heq as [_ ?]|by intros [? _]].
  - split; [by intros ->|by intros [_ ->]].
Qed.

Lemma validFile_None (fs : FS) name :
  validFile fs name = None <-> exists perm data, fs !! name = Some (File perm data).
Proof.
  unfold validFile, Stat, Open. destruct (fs !! name) as [[|perm data]|]; simpl.
  - split; [done|]. by intros (? & ? & ?).
  - split; [by eauto|done].
  - split; [done|]. by intros (? & ? & ?).
Qed.

(** [os.IsNotExist] of what [os.Stat] answers: nothing under the name,
    and no regular file on the way to it. *)
Lemma IsNotExist_Stat (fs : FS) name :
  IsNotExist (match Stat fs name with inl err => Some err | inr _ => None end) = true <->
  fs !! name = None /\ forall d, d ∈ dirs_above name -> is_file fs d = false.
Proof.
  unfold Stat, Open. destruct (fs !! name) as [n|]; simpl.
  - split; [done|]. by intros [? _].
  - rewrite <- OSFacts.missing_ENOENT.
    destruct (OSFacts.missing_cases fs name) as [->| ->]; simpl.
    + by split.
    + split; [done|]. by intros [_ ?].
Qed.

(** X24.  [ValidateFlags] panics instead of reporting a missing output
    directory: when nothing is there under [OutputDir] (the empty name
    of a flag that was not given, or a name in resolved form),
    [os.Stat(OutputDir)] fails and the error is added to the list, but
    the next statement calls [IsDir] on the [nil] [FileInfo], so the
    list (the missing-argument message included) is never returned.
    When the output path exists the function returns.  For names in
    resolved form the list is empty exactly when there are no extra
    arguments, [vhd] and [delta] name regular files, the output path is
    a directory, the version is accepted by [validateVersion], and
    [os.Stat] of the name of the stemcell in the output directory fails
    with a not-exist error: nothing is there under that name, and no
    regular file lies on the way to it (as one could with a version
    like [1/2]). *)
Theorem ValidateFlags_panics_without_output_dir
    (args : list string) (VHDFile DeltaFile OutputDir Version : string) (fs : FS) :
  (OutputDir = "" \/ resolved OutputDir = true ->
   fs !! OutputDir = None ->
     ValidateFlags args VHDFile DeltaFile OutputDir Version fs
     = inl "runtime error: invalid memory address or nil pointer dereference") /\
  (is_Some (fs !! OutputDir) ->
     exists errs, ValidateFlags args VHDFile DeltaFile OutputDir Version fs = inr errs) /\
  (resolved VHDFile = true -> resolved DeltaFile = true -> resolved OutputDir = true ->
   resolved (Path.Join OutputDir (Pipeline.StemcellFilename Version)) = true ->
   (ValidateFlags args VHDFile DeltaFile OutputDir Version fs = inr [] <->
      args = [] /\
      (exists perm data, fs !! VHDFile = Some (File perm data)) /\
      (exists perm data, fs !! DeltaFile = Some (File perm data)) /\
      fs !! OutputDir = Some Dir /\
      validateVersion Version = None /\
      fs !! Path.Join OutputDir (Pipeline.StemcellFilename Version) = None /\
      (forall d, d ∈ dirs_above (Path.Join OutputDir (Pipeline.StemcellFilename Version)) ->
         is_file fs d = false))).
Proof.
  split; [|split].
  - intros _ Hnone. unfold ValidateFlags, Stat, Open. by rewrite Hnone.
  - intros [fi Hfi]. unfold ValidateFlags, Stat at 1, Open. rewrite Hfi. by eexists.
  - intros Hrv Hrd Hro _.
    apply OSFacts.resolved_nonempty in Hrv, Hrd, Hro.
    rewrite <- IsNotExist_Stat. unfold ValidateFlags.
    unfold Stat at 1, Open at 1.
    destruct (fs !! OutputDir) as [fi|] eqn:Hout.
    + split.
      * intros Heq. simplify_eq.
        apply add_if_nil in Heq as [Hstem Heq].
        apply add_opt_nil in Heq as [Hversion Heq].
        apply add_if_nil in Heq as [Hdir Heq].
        apply add_if_nil in Heq as [_ Heq].
        apply add_opt_nil in Heq as [Hdelta Heq].
        apply add_if_nil in Heq as [_ Heq].
        apply add_opt_nil in Heq as [Hvhd Heq].
        apply add_if_nil in Heq as [_ Heq].
        apply add_if_nil in Heq as [Hargs _].
        split; [by destruct args|].
        split; [by apply validFile_None|]. split; [by apply validFile_None|].
        split; [by destruct fi|]. split; [done|].
        by apply negb_false_iff in Hstem.
      * intros (-> & Hvhd & Hdelta & Hdir & Hversion & Hstem).
        apply validFile_None in Hvhd, Hdelta. simplify_eq.
        rewrite Hvhd, Hdelta, Hversion, Hstem.
        rewrite !bool_decide_eq_false_2 by done. done.
    + split; [done|]. intros (_ & _ & _ & ? & _). done.
Qed.

Lemma ValidateFlags_panics_without_output_dir_witness :
  ValidateFlags [] "/in/basis" "/in/delta" "" "1.2" (patch_fs good_delta)
  = inl "runtime error: invalid memory address or nil pointer dereference" /\
  ValidateFlags [] "/in/basis" "/in/delta" "/nowhere" "1.2" (patch_fs good_delta)
  = inl "runtime error: invalid memory address or nil pointer dereference" /\
  (exists errs,
    ValidateFlags [] "/in/basis" "/in/delta" "/out" "1.2" (patch_fs good_delta) = inr errs) /\
  ValidateFlags [] "/in/basis" "/in/delta" "/out" "1.2" (patch_fs good_delta) = inr [].
Proof.
  split; [|split; [|split]].
  - apply (ValidateFlags_panics_without_output_dir
             [] "/in/basis" "/in/delta" "" "1.2" (patch_fs good_delta)).
    + left. reflexivity.
    + reflexivity.
  - apply (ValidateFlags_panics_without_output_dir
             [] "/in/basis" "/in/delta" "/nowhere" "1.2" (patch_fs good_delta)).
    + right. vm_compute. reflexivity.
    + reflexivity.
  - apply (ValidateFlags_panics_without_output_dir
             [] "/in/basis" "/in/delta" "/out" "1.2" (patch_fs good_delta)).
    eexists. reflexivity.
  - apply (ValidateFlags_panics_without_output_dir
             [] "/in/basis" "/in/delta" "/out" "1.2" (patch_fs good_delta)).
    + vm_compute. reflexivity.
    + vm_compute. reflexivity.
    + vm_compute. reflexivity.
    + vm_compute. reflexivity.
    + split; [reflexivity|]. split; [by eexists _, _|]. split; [by eexists _, _|].
      split; [reflexivity|]. split; [reflexivity|]. split; [reflexivity|].
      apply Forall_forall. vm_compute. repeat constructor.
Defined.

(** A version with a separator in it puts the stemcell below a
    directory of its own: with a regular file in the place of that
    directory, [os.Stat] fails with [ENOTDIR], and the stemcell is
    reported as being there already. *)
Example ValidateFlags_version_with_separator :
  validateVersion "1/2" = None /\
  ValidateFlags [] "/in/basis" "/in/delta" "/out" "1/2"
    (<["/out/bosh-stemcell-1" := File 420 []]> (patch_fs good_delta))
  = inr [ErrStemcellExists
           "/out/bosh-stemcell-1/2-vsphere-esxi-windows2012R2-go_agent.tgz"].
Proof. split; reflexivity. Qed.

(** *** [validateVersion] *)

Lemma rune_width_bounds c s :
  (1 <= rune_width (c :: s) <= length (c :: s))%nat.
Proof.
  unfold rune_width. repeat case_match; simpl; lia.
Qed.

Lemma digits_then_true k s :
  digits_then k s = true <->
  exists d rest, s = d ++ rest /\ d <> [] /\
                 Forall (fun c => is_digit c = true) d /\ k rest = true.
Proof.
  split.
  - induction s as [|c s IH]; [done|]. simpl.
    intros [Hc Hrest]%andb_true_iff.
    apply orb_true_iff in Hrest as [Hk|Hmore].
    + exists [c], s. split; [done|]. split; [done|]. split; [|done].
      by apply Forall_singleton.
    + destruct (IH Hmore) as (d & rest & -> & _ & Hd & Hk).
      exists (c :: d), rest. split; [done|]. split; [done|]. split; [|done].
      by apply Forall_cons.
  - intros (d & rest & -> & Hne & Hd & Hk).
    induction d as [|c d IH]; [done|].
    apply Forall_cons in Hd as [Hc Hd]. simpl. rewrite Hc. simpl.
    destruct d as [|c' d]; [simpl; by rewrite Hk|].
    rewrite IH by done. by rewrite orb_true_r.
Qed.

Lemma any_then_true k s :
  any_then k s = true <->
  exists r rest, s = r ++ rest /\ r <> [] /\ length r = rune_width s /\
                 head r <> Some "010"%char /\ k rest = true.
Proof.
  split.
  - destruct s as [|c s]; [done|]. unfold any_then.
    intros [Hc Hk]%andb_true_iff.
    pose proof (rune_width_bounds c s) as Hw.
    exists (take (rune_width (c :: s)) (c :: s)), (drop (rune_width (c :: s)) (c :: s)).
    split; [by rewrite take_drop|].
    destruct (rune_width (c :: s)) as [|n] eqn:Hn; [lia|].
    split; [done|]. split; [rewrite length_take; lia|]. split; [|done].
    simpl. intros Heq. by simplify_eq.
  - intros (r & rest & -> & Hne & Hlen & Hhead & Hk).
    destruct r as [|c r]; [done|]. unfold any_then.
    change ((c :: r) ++ rest) with (c :: (r ++ rest)) in *.
    rewrite <- Hlen.
    change (c :: (r ++ rest)) with ((c :: r) ++ rest).
    rewrite drop_app_length, Hk.
    destruct (Ascii.eqb_spec c "010") as [->|_]; done.
Qed.

Lemma end_of_text_true s : end_of_text s = true <-> s = [].
Proof. by destruct s. Qed.

(** What [validateVersion] accepts. *)
Lemma validateVersion_None (s : string) :
  validateVersion s = None <->
  exists d1 r d2 : list ascii,
    list_ascii_of_string s = d1 ++ r ++ d2 /\
    d1 <> [] /\ Forall (fun c => is_digit c = true) d1 /\
    d2 <> [] /\ Forall (fun c => is_digit c = true) d2 /\
    r <> [] /\ length r = rune_width (r ++ d2) /\ head r <> Some "010"%char.
Proof.
  unfold validateVersion, version_MatchString.
  destruct (decide (s = "")) as [->|Hs].
  - split; [done|]. intros (d1 & r & d2 & Heq & Hd1 & _). by destruct d1.
  - rewrite bool_decide_eq_false_2 by done.
    destruct (digits_then _ _) eqn:Hmatch; simpl.
    + split; [intros _|done].
      apply digits_then_true in Hmatch as (d1 & rest1 & Heq & Hne1 & Hd1 & Hmatch).
      apply any_then_true in Hmatch as (r & rest2 & -> & Hner & Hlen & Hhead & Hmatch).
      apply digits_then_true in Hmatch as (d2 & rest3 & -> & Hne2 & Hd2 & Hend).
      apply end_of_text_true in Hend as ->. rewrite app_nil_r in *.
      by exists d1, r, d2.
    + split; [done|].
      intros (d1 & r & d2 & Heq & Hne1 & Hd1 & Hne2 & Hd2 & Hner & Hlen & Hhead).
      rewrite Heq in Hmatch.
      assert (digits_then (any_then (digits_then end_of_text)) (d1 ++ r ++ d2) = true);
        [|congruence].
      apply digits_then_true. exists d1, (r ++ d2). do 3 (split; [done|]).
      apply any_then_true. exists r, d2. do 4 (split; [done|]).
      apply digits_then_true. exists d2, []. rewrite app_nil_r. done.
Qed.

Lemma is_digit_ascii c : is_digit c = true -> (code c < 128)%N.
Proof.
  unfold is_digit, in_range. intros [_ Hc%N.leb_le]%andb_true_iff. lia.
Qed.

Lemma rune_width_ascii c s : (code c < 128)%N -> rune_width (c :: s) = 1%nat.
Proof. intros Hc. unfold rune_width. by destruct (N.ltb_spec (code c) 128); [|lia]. Qed.

(** X25.  [validateVersion] accepts exactly the strings made of one or
    more ASCII digits, then one character, then one or more ASCII
    digits, where the character in the middle is any single rune other
    than a newline (a byte that is no valid UTF-8 counting as one
    rune).  An accepted version therefore has at least three bytes and
    starts and ends with a digit; the empty string, a number without a
    second part and a string with a letter at either end are all turned
    away. *)
Theorem validateVersion_accepts_iff (s : string) :
  (validateVersion s = None <->
   exists d1 r d2 : list ascii,
     list_ascii_of_string s = d1 ++ r ++ d2 /\
     d1 <> [] /\ Forall (fun c => is_digit c = true) d1 /\
     d2 <> [] /\ Forall (fun c => is_digit c = true) d2 /\
     r <> [] /\ length r = rune_width (r ++ d2) /\ head r <> Some "010"%char) /\
  (validateVersion s = None ->
   (3 <= String.length s)%nat /\
   (exists c, head (list_ascii_of_string s) = Some c /\ is_digit c = true) /\
   (exists c, last (list_ascii_of_string s) = Some c /\ is_digit c = true)).
Proof.
  split; [apply validateVersion_None|].
  intros (d1 & r & d2 & Heq & Hne1 & Hd1 & Hne2 & Hd2 & Hner & _)%validateVersion_None.
  rewrite <- (string_of_list_ascii_of_string s) at 1.
  rewrite Heq. split; [|split].
  - assert (forall l, String.length (string_of_list_ascii l) = length l) as Hlen.
    { induction l as [|a l IH]; simpl; congruence. }
    rewrite Hlen, !length_app.
    destruct d1, r, d2; simpl; (done || lia).
  - destruct d1 as [|c d1]; [done|]. apply Forall_cons in Hd1 as [Hc _].
    by exists c.
  - destruct d2 as [|c d2' _] using rev_ind; [done|].
    apply Forall_app in Hd2 as [_ Hc]. apply Forall_inv in Hc.
    exists c. split; [|done]. by rewrite !app_assoc, last_snoc.
Qed.

Lemma validateVersion_accepts_iff_witness :
  (3 <= String.length "001.002")%nat /\
  (exists c, head (list_ascii_of_string "001.002") = Some c /\ is_digit c = true) /\
  (exists c, last (list_ascii_of_string "001.002") = Some c /\ is_digit c = true).
Proof.
  apply (proj2 (validateVersion_accepts_iff "001.002")). reflexivity.
Defined.

(** X26.  The version needs no dot.  For two non-empty strings of
    ASCII digits and any ASCII character between them except a newline
    - a dot, but also a slash, a space, a letter or another digit -
    [validateVersion] accepts; so it accepts every string of three or
    more digits. *)
Theorem validateVersion_needs_no_dot (d1 d2 : list ascii) (c : ascii) :
  d1 <> [] -> Forall (fun c => is_digit c = true) d1 ->
  d2 <> [] -> Forall (fun c => is_digit c = true) d2 ->
  (code c < 128)%N -> c <> "010"%char ->
  validateVersion (string_of_list_ascii (d1 ++ c :: d2)) = None.
Proof.
  intros Hne1 Hd1 Hne2 Hd2 Hc Hnl. apply validateVersion_None.
  exists d1, [c], d2. rewrite list_ascii_of_string_of_list_ascii.
  do 6 (split; [done|]). change ([c] ++ d2) with (c :: d2).
  split; [by rewrite rune_width_ascii|].
  simpl. congruence.
Qed.

Lemma validateVersion_needs_no_dot_witness :
  validateVersion "1/2" = None /\ validateVersion "2016" = None.
Proof.
  split.
  - apply (validateVersion_needs_no_dot ["1"%char] ["2"%char] "/"%char).
    + discriminate.
    + apply Forall_singleton. reflexivity.
    + discriminate.
    + apply Forall_singleton. reflexivity.
    + reflexivity.
    + discriminate.
  - apply (validateVersion_needs_no_dot ["2"%char] ["1"%char; "6"%char] "0"%char).
    + discriminate.
    + apply Forall_singleton. reflexivity.
    + discriminate.
    + repeat (apply Forall_cons; split; [reflexivity|]). apply Forall_nil_2.
    + reflexivity.
    + discriminate.
Defined.

(** The table of [TestValidateVersion]. *)
Example validateVersion_table :
  validateVersion "1.2" = None /\ validateVersion "001.002" = None /\
  validateVersion "0a1.002" = Some (ErrInvalidVersion "0a1.002") /\
  validateVersion "1.a" = Some (ErrInvalidVersion "1.a") /\
  validateVersion "a1.2" = Some (ErrInvalidVersion "a1.2") /\
  validateVersion "a.2" = Some (ErrInvalidVersion "a.2") /\
  validateVersion "" = Some ErrMissingVersion.
Proof. repeat split; reflexivity. Qed.

End FlagsFacts.

(** ** The run of the program *)

Module MainFacts.
Import OS Pipeline PipelineFacts StagesFacts Main Samples MoreSamples.

Lemma Patch_returns
    (Header : Node -> Error + (Z * bytes))
    (ReadOperations : bytes -> RDiff.Decoded)
    (ApplyDelta : Z -> Node -> list RDiff.Operation -> bytes * option Error)
    (md5sum : bytes -> bytes) basis delta newfile checkFile (fs : FS) msg :
  (RDiff.Patch Header ReadOperations ApplyDelta md5sum basis delta newfile checkFile fs).1
  <> Panic msg.
Proof.
  unfold RDiff.Patch.
  destruct (Open fs basis); [done|]. destruct (Open fs delta); [done|].
  destruct (Create fs newfile) as [err|fs1]; [done|].
  destruct (fs1 !! basis); [|done]. destruct (fs1 !! delta); [|done].
  destruct (Header _) as [err|[blockSize rest]]; [done|].
  destruct (ApplyDelta _ _ _) as [written [err|]]; [done|].
  destruct (RDiff.decode_error _); [done|].
  destruct (negb checkFile); [done|].
  destruct (RDiff.Data _); [|done]. by destruct (negb _).
Qed.

(** [CreateStemcell] on a [Config] with a manifest and no image. *)
Lemma CreateStemcell_no_image Version ioutil_TempDir gzip tar c w :
  Manifest c <> "" -> Image c = "" ->
  CreateStemcell Version ioutil_TempDir gzip tar c w
  = (Panic "CreateStemcell: empty image", c, w).
Proof.
  intros Hm Hi. unfold CreateStemcell.
  destruct (decide (Manifest c = "")); [done|].
  by destruct (decide (Image c = "")).
Qed.

(** X27.  [realMain], as it stands in [main.go], never returns [nil] on
    the [Config] that [main] makes (no image, no manifest).  No step of
    it sets the [Image] field, so when the patch, the template, the
    conversion and [WriteManifest] have all succeeded, [CreateStemcell]
    panics with "CreateStemcell: empty image"; before that point the
    run can only end with an error.  This holds whatever the patch
    library, [VMXTemplate], the conversion tool, [os.Mkdir] and
    [os.Rename] do. *)
Theorem realMain_never_returns_nil
    (Header : Node -> Error + (Z * bytes))
    (ReadOperations : bytes -> RDiff.Decoded)
    (ApplyDelta : Z -> Node -> list RDiff.Operation -> bytes * option Error)
    (md5sum : bytes -> bytes)
    (Version OutputDir : string) (ioutil_TempDir : FS -> Error + string)
    (gzip : bytes -> bytes) (tar : list (string * Node) -> bytes)
    (VMXTemplate : string -> bytes * option Error)
    (ConvertVMX2OVA : string -> string -> FS -> option Error * FS)
    (os_Mkdir : FS -> string -> Error + FS)
    (os_Rename : FS -> string -> string -> Error + FS)
    (vhd delta version : string) (c : Config) (w : World) :
  Image c = "" -> Manifest c = "" ->
  (realMain Header ReadOperations ApplyDelta md5sum Version OutputDir ioutil_TempDir
     gzip tar VMXTemplate ConvertVMX2OVA os_Mkdir os_Rename
     vhd delta version c w).1.1 <> Ok /\
  (forall msg,
     (realMain Header ReadOperations ApplyDelta md5sum Version OutputDir ioutil_TempDir
        gzip tar VMXTemplate ConvertVMX2OVA os_Mkdir os_Rename
        vhd delta version c w).1.1 = Panic msg ->
     msg = "CreateStemcell: empty image").
Proof.
  intros Hi Hm. unfold realMain.
  destruct (TempDir ioutil_TempDir c (fs w)) as [[[err|tmp] c1] fs1] eqn:Ht; [done|].
  destruct (TempDir_fields _ _ _ _ _ _ Ht) as (Hi1 & Hm1 & _).
  rewrite Hi in Hi1. rewrite Hm in Hm1.
  pose proof (Patch_returns Header ReadOperations ApplyDelta md5sum vhd delta
                (Path.Join tmp "image.vmdk") true fs1) as Hpatch.
  destruct (RDiff.Patch _ _ _ _ _ _ _ _ _) as [[|err|msg] fs2];
    [|done|by destruct (Hpatch msg)].
  destruct (OpenFile _ _ _ _) as [err|fs3]; [done|].
  destruct (VMXTemplate _) as [text [err|]]; [done|].
  destruct (ConvertVMX2OVA _ _ _) as [[err|] fs5]; [done|].
  set (fs6 := match os_Mkdir _ _ with inr fs' => fs' | inl _ => fs5 end).
  destruct (WriteManifest Version ioutil_TempDir c1 fs6) as [[[|err|msg] c2] fs7] eqn:Hw;
    [|done|].
  - assert (Manifest c2 <> "") as Hm2 by by eapply WriteManifest_Ok.
    assert (Image c2 = "") as Hi2.
    { apply WriteManifest_Ok_inv in Hw as (tmp' & c0 & fs0 & _ & Ht' & _ & -> & _).
      destruct (TempDir_fields _ _ _ _ _ _ Ht') as (Hi0 & _).
      simpl. congruence. }
    rewrite (CreateStemcell_no_image Version ioutil_TempDir gzip tar c2 _ Hm2 Hi2).
    simpl. split; [done|]. by intros msg [= <-].
  - exfalso. unfold WriteManifest in Hw.
    destruct (decide (Manifest c1 <> "")); [done|].
    destruct (TempDir ioutil_TempDir c1 fs6) as [[[err|tmp'] c0] fs0]; [done|].
    simpl in Hw. by destruct (OpenFile _ _ _ _).
Qed.

Lemma realMain_never_returns_nil_witness :
  (toy_realMain "/in/basis" "/in/delta" "1.2" fresh_config
     (mkWorld (patch_fs good_delta) open_heap)).1.1 <> Ok /\
  (toy_realMain "/in/basis" "/in/delta" "1.2" fresh_config
     (mkWorld (patch_fs good_delta) open_heap)).1.1
  = Panic "CreateStemcell: empty image".
Proof.
  split; [|reflexivity].
  apply (realMain_never_returns_nil RDiff.toy_Header RDiff.toy_ReadOperations
           RDiff.toy_ApplyDelta RDiff.toy_md5sum "1.2" "/out" sample_TempDir
           toy_gzip toy_tar toy_VMXTemplate toy_ConvertVMX2OVA toy_Mkdir toy_Rename
           "/in/basis" "/in/delta" "1.2" fresh_config
           (mkWorld (patch_fs good_delta) open_heap)).
  - reflexivity.
  - reflexivity.
Defined.


End MainFacts.

(** ** The patch on open streams *)

Module ApplyFacts.
Import OS RDiff Apply OSFacts Samples MoreSamples.

Section Facts.
Variable Header : Node -> Error + (Z * bytes).
Variable ReadOperations : bytes -> Decoded.
Variable ApplyDelta : Z -> Node -> list Operation -> bytes * option Error.
Variable md5sum : bytes -> bytes.

(** On a fresh target and with the same inputs, [rdiff.Patch] with the
    check and [main.Patch] write the same bytes and fail alike. *)
Lemma Patch_fresh_target basis delta newfile (fs : FS) basisFile deltaFile :
  fs !! basis = Some basisFile -> fs !! delta = Some deltaFile ->
  fs !! newfile = None -> fs !! Path.Dir newfile = Some Dir ->
  RDiff.Patch Header ReadOperations ApplyDelta md5sum basis delta newfile true fs
  = (match (Apply.Patch Header ReadOperations ApplyDelta md5sum basisFile deltaFile).2 with
     | Some err => Err err
     | None => Ok
     end,
     <[newfile := File 438
         (Apply.Patch Header ReadOperations ApplyDelta md5sum basisFile deltaFile).1]> fs).
Proof.
  intros Hb Hd Hnew Hdir. unfold RDiff.Patch, Apply.Patch, Open. rewrite Hb, Hd.
  rewrite Create_result, Hnew, Hdir.
  assert (basis <> newfile) as Hbn by congruence.
  assert (delta <> newfile) as Hdn by congruence.
  rewrite !lookup_insert_ne, Hb, Hd by done.
  destruct (Header deltaFile) as [err|[blockSize rest]].
  { simpl. unfold append_file. done. }
  destruct (ApplyDelta _ _ _) as [written applyErr].
  rewrite append_file_insert. simpl.
  destruct applyErr; [done|]. destruct (decode_error _); [done|].
  destruct (Data _); [|done]. by destruct (negb _).
Qed.

(** The bytes [main.Patch] writes to the target: what [ApplyDelta]
    wrote, and nothing when the header of the delta cannot be read. *)
Lemma Patch_written (basis delta : Node) :
  (forall err, Header delta = inl err ->
     (Apply.Patch Header ReadOperations ApplyDelta md5sum basis delta).1 = []) /\
  (forall bs rest, Header delta = inr (bs, rest) ->
     (Apply.Patch Header ReadOperations ApplyDelta md5sum basis delta).1
     = (ApplyDelta bs basis (sent_ops (ReadOperations rest))).1).
Proof.
  unfold Apply.Patch. split.
  - intros err Hh. by rewrite Hh.
  - intros bs rest Hh. rewrite Hh.
    destruct (ApplyDelta bs basis (sent_ops (ReadOperations rest))) as [written aerr].
    destruct aerr; [done|]. destruct (decode_error _); [done|].
    destruct (Data _); [|done]. by destruct (negb _).
Qed.

(** The ways [ApplyPatch] ends. *)
Lemma ApplyPatch_cases GzipPatch gzip_NewReader vhd delta vmdk (fs : FS) :
  (exists err,
     ApplyPatch Header ReadOperations ApplyDelta md5sum GzipPatch gzip_NewReader
       vhd delta vmdk fs = (Some err, fs) /\
     forall e, err <> ErrPatchingFile e) \/
  (exists fv fd wd,
     fs !! vhd = Some fv /\ fs !! delta = Some fd /\
     (if GzipPatch then gzip_NewReader fd else inr fd) = inr wd /\
     fs !! vmdk = None /\ fs !! Path.Dir vmdk = Some Dir /\
     ApplyPatch Header ReadOperations ApplyDelta md5sum GzipPatch gzip_NewReader
       vhd delta vmdk fs
     = (match (Apply.Patch Header ReadOperations ApplyDelta md5sum fv wd).2 with
        | Some e => Some (ErrPatchingFile e)
        | None => None
        end,
        <[vmdk := File 420
            (Apply.Patch Header ReadOperations ApplyDelta md5sum fv wd).1]> fs)).
Proof.
  unfold ApplyPatch, Open.
  destruct (fs !! vhd) as [fv|] eqn:Hv; [|left; by eexists].
  destruct (fs !! delta) as [fd|] eqn:Hd; [|left; by eexists].
  destruct (if GzipPatch then gzip_NewReader fd else inr fd) as [err|wd] eqn:Hwd;
    [left; by eexists|].
  destruct (OpenFile fs vmdk Ova.excl_flags 420) as [err|fs1] eqn:Hopen;
    [left; by eexists|].
  apply OvaMore.OpenFile_excl_inr in Hopen as (Hfree & Hdir & ->).
  right. exists fv, fd, wd. do 5 (split; [done|]).
  destruct (Apply.Patch _ _ _ _ fv wd) as [written err].
  rewrite append_file_insert. simpl. by destruct err.
Qed.

End Facts.

(** X28.  [ApplyPatch] only ever adds its target.  For path names in
    resolved form, whatever the inputs are and however the call ends,
    everything that was on the disk is still there unchanged, and no
    path other than [vmdk] is touched.  The target is created
    exclusively: when something exists at [vmdk] the call fails and the
    disk is as before.  And a target that was created is not removed
    when the patch fails: after a patching-file error the disk is the
    one the call found with, at [vmdk], a new file of mode 0644 that
    holds the bytes written so far - exactly the bytes [ApplyDelta]
    wrote from the [vhd] and the delta as it is read (through
    [gzip.NewReader] under [GzipPatch]), and none when the header of
    the delta could not be read. *)
Theorem ApplyPatch_only_adds_the_target
    (Header : Node -> Error + (Z * bytes))
    (ReadOperations : bytes -> Decoded)
    (ApplyDelta : Z -> Node -> list Operation -> bytes * option Error)
    (md5sum : bytes -> bytes)
    (GzipPatch : bool) (gzip_NewReader : Node -> Error + Node)
    (vhd delta vmdk : string) (fs : FS) :
  resolved vhd = true -> resolved delta = true -> resolved vmdk = true ->
  fs ⊆ (ApplyPatch Header ReadOperations ApplyDelta md5sum GzipPatch gzip_NewReader
          vhd delta vmdk fs).2 /\
  (forall q, q <> vmdk ->
     (ApplyPatch Header ReadOperations ApplyDelta md5sum GzipPatch gzip_NewReader
        vhd delta vmdk fs).2 !! q = fs !! q) /\
  (is_Some (fs !! vmdk) ->
     (ApplyPatch Header ReadOperations ApplyDelta md5sum GzipPatch gzip_NewReader
        vhd delta vmdk fs).1 <> None /\
     (ApplyPatch Header ReadOperations ApplyDelta md5sum GzipPatch gzip_NewReader
        vhd delta vmdk fs).2 = fs) /\
  (forall e,
     (ApplyPatch Header ReadOperations ApplyDelta md5sum GzipPatch gzip_NewReader
        vhd delta vmdk fs).1 = Some (ErrPatchingFile e) ->
     exists fv fd wd,
       fs !! vhd = Some fv /\ fs !! delta = Some fd /\
       (if GzipPatch then gzip_NewReader fd else inr fd) = inr wd /\
       fs !! vmdk = None /\
       (forall err, Header wd = inl err ->
          (ApplyPatch Header ReadOperations ApplyDelta md5sum GzipPatch gzip_NewReader
             vhd delta vmdk fs).2 = <[vmdk := File 420 []]> fs) /\
       (forall bs rest, Header wd = inr (bs, rest) ->
          (ApplyPatch Header ReadOperations ApplyDelta md5sum GzipPatch gzip_NewReader
             vhd delta vmdk fs).2
          = <[vmdk := File 420 (ApplyDelta bs fv (sent_ops (ReadOperations rest))).1]> fs)).
Proof.
  intros _ _ _.
  destruct (ApplyPatch_cases Header ReadOperations ApplyDelta md5sum
              GzipPatch gzip_NewReader vhd delta vmdk fs)
    as [(err & -> & Hnot)|(fv & fd & wd & Hv & Hd & Hwd & Hfree & _ & ->)]; simpl.
  - split; [done|]. split; [done|]. split; [done|].
    intros e Heq. simplify_eq. by destruct (Hnot e).
  - split; [by apply insert_subseteq|].
    split; [intros q Hq; by rewrite lookup_insert_ne|].
    split; [intros [n Hn]; congruence|].
    intros e _. exists fv, fd, wd. do 4 (split; [done|]).
    destruct (Patch_written Header ReadOperations ApplyDelta md5sum fv wd)
      as [Hfail Hgo].
    split.
    + intros err Hh. by rewrite (Hfail err).
    + intros bs rest Hh. by rewrite (Hgo bs rest).
Qed.

Lemma ApplyPatch_only_adds_the_target_witness :
  ((Apply.ApplyPatch toy_Header toy_ReadOperations toy_ApplyDelta toy_md5sum
      false (fun f => inr f) "/in/basis" "/in/delta" "/out/new" taken_fs).1 <> None /\
   (Apply.ApplyPatch toy_Header toy_ReadOperations toy_ApplyDelta toy_md5sum
      false (fun f => inr f) "/in/basis" "/in/delta" "/out/new" taken_fs).2 = taken_fs) /\
  (Apply.ApplyPatch toy_Header toy_ReadOperations toy_ApplyDelta toy_md5sum
     false (fun f => inr f) "/in/basis" "/in/delta" "/out/new" (patch_fs bad_sum_delta)).2
  = <["/out/new" := File 420 [Byte.x41; Byte.x42; Byte.x43]]> (patch_fs bad_sum_delta).
Proof.
  split.
  - apply (ApplyPatch_only_adds_the_target toy_Header toy_ReadOperations toy_ApplyDelta
             toy_md5sum false (fun f => inr f) "/in/basis" "/in/delta" "/out/new" taken_fs).
    + vm_compute. reflexivity.
    + vm_compute. reflexivity.
    + vm_compute. reflexivity.
    + eexists. reflexivity.
  - destruct (ApplyPatch_only_adds_the_target toy_Header toy_ReadOperations
                toy_ApplyDelta toy_md5sum false (fun f => inr f)
                "/in/basis" "/in/delta" "/out/new" (patch_fs bad_sum_delta)
                eq_refl eq_refl eq_refl)
      as (_ & _ & _ & Hleft).
    destruct (Hleft HashNoMatchError eq_refl)
      as (fv & fd & wd & Hv & Hd & Hwd & _ & _ & Hgo).
    change (patch_fs bad_sum_delta !! "/in/basis")
      with (Some (File 420 (bytes_of "AAAABBBBCCCC"))) in Hv.
    change (patch_fs bad_sum_delta !! "/in/delta")
      with (Some (File 420 bad_sum_delta)) in Hd.
    injection Hv as <-. injection Hd as <-. injection Hwd as <-.
    exact (Hgo 4 [Byte.x01; Byte.x09; Byte.x41; Byte.x42; Byte.x43] eq_refl).
Defined.

(** X29.  On an uncompressed delta and a target path that is free,
    [ApplyPatch] patches as [rdiff.Patch] does with the check on: it
    returns [nil] exactly when [rdiff.Patch] does, it fails with the
    patching-file error of [e] exactly when [rdiff.Patch] fails with
    [e], and it leaves the same bytes in the target - in a file of mode
    0644 where [os.Create] makes one of mode 0666.  When it returns
    [nil] the MD5 sum of those bytes is the checksum record of the
    delta. *)
Theorem ApplyPatch_agrees_with_rdiff_Patch
    (Header : Node -> Error + (Z * bytes))
    (ReadOperations : bytes -> Decoded)
    (ApplyDelta : Z -> Node -> list Operation -> bytes * option Error)
    (md5sum : bytes -> bytes)
    (gzip_NewReader : Node -> Error + Node)
    (vhd delta vmdk : string) (fs : FS) :
  is_Some (fs !! vhd) -> is_Some (fs !! delta) ->
  fs !! vmdk = None -> fs !! Path.Dir vmdk = Some Dir ->
  ((ApplyPatch Header ReadOperations ApplyDelta md5sum false gzip_NewReader
      vhd delta vmdk fs).1 = None <->
   (RDiff.Patch Header ReadOperations ApplyDelta md5sum vhd delta vmdk true fs).1 = Ok) /\
  (forall e,
     (ApplyPatch Header ReadOperations ApplyDelta md5sum false gzip_NewReader
        vhd delta vmdk fs).1 = Some (ErrPatchingFile e) <->
     (RDiff.Patch Header ReadOperations ApplyDelta md5sum vhd delta vmdk true fs).1
     = Err e) /\
  (exists data,
     (ApplyPatch Header ReadOperations ApplyDelta md5sum false gzip_NewReader
        vhd delta vmdk fs).2 !! vmdk = Some (File 420 data) /\
     (RDiff.Patch Header ReadOperations ApplyDelta md5sum vhd delta vmdk true fs).2
       !! vmdk = Some (File 438 data) /\
     ((ApplyPatch Header ReadOperations ApplyDelta md5sum false gzip_NewReader
         vhd delta vmdk fs).1 = None ->
      exists deltaFile blockSize rest,
        fs !! delta = Some deltaFile /\
        Header deltaFile = inr (blockSize, rest) /\
        Data (recv_hash (ReadOperations rest)) = Some (md5sum data))).
Proof.
  intros [fv Hv] [fd Hd] Hfree Hdir.
  rewrite (Patch_fresh_target Header ReadOperations ApplyDelta md5sum
             vhd delta vmdk fs fv fd) by done.
  unfold ApplyPatch, Open. rewrite Hv, Hd.
  rewrite OpenFile_excl_fresh by done.
  change (syscallMode 420) with 420.
  destruct (Apply.Patch Header ReadOperations ApplyDelta md5sum fv fd)
    as [written err] eqn:Hpatch.
  rewrite append_file_insert. simpl.
  destruct err as [e0|]; simpl.
  - split; [done|]. split; [intros e; split; intros Heq; by simplify_eq|].
    exists written. rewrite !lookup_insert_eq. by do 2 (split; [done|]).
  - split; [done|]. split; [intros e; split; intros Heq; by simplify_eq|].
    exists written. rewrite !lookup_insert_eq. do 2 (split; [done|]).
    intros _. unfold Apply.Patch in Hpatch.
    destruct (Header fd) as [e|[blockSize rest]] eqn:Hheader; [by simplify_eq|].
    destruct (ApplyDelta _ _ _) as [written' applyErr].
    destruct applyErr; [by simplify_eq|].
    destruct (decode_error _); [by simplify_eq|].
    destruct (Data _) as [sum|] eqn:Hsum; [|by simplify_eq].
    destruct (bytes_Equal sum (md5sum written')) eqn:Heq; simpl in Hpatch; simplify_eq.
    apply bool_decide_eq_true_1 in Heq as ->.
    by exists fd, blockSize, rest.
Qed.

Lemma ApplyPatch_agrees_with_rdiff_Patch_witness :
  ((Apply.ApplyPatch toy_Header toy_ReadOperations toy_ApplyDelta toy_md5sum
      false (fun f => inr f) "/in/basis" "/in/delta" "/out/new" (patch_fs good_delta)).1
   = None <->
   (toy_Patch "/in/basis" "/in/delta" "/out/new" true (patch_fs good_delta)).1 = Ok) /\
  (forall e,
     (Apply.ApplyPatch toy_Header toy_ReadOperations toy_ApplyDelta toy_md5sum
        false (fun f => inr f) "/in/basis" "/in/delta" "/out/new"
        (patch_fs bad_sum_delta)).1 = Some (ErrPatchingFile e) <->
     (toy_Patch "/in/basis" "/in/delta" "/out/new" true (patch_fs bad_sum_delta)).1
     = Err e).
Proof.
  split.
  - apply (ApplyPatch_agrees_with_rdiff_Patch toy_Header toy_ReadOperations
             toy_ApplyDelta toy_md5sum (fun f => inr f)
             "/in/basis" "/in/delta" "/out/new" (patch_fs good_delta)).
    + eexists. reflexivity.
    + eexists. reflexivity.
    + reflexivity.
    + reflexivity.
  - apply (ApplyPatch_agrees_with_rdiff_Patch toy_Header toy_ReadOperations
             toy_ApplyDelta toy_md5sum (fun f => inr f)
             "/in/basis" "/in/delta" "/out/new" (patch_fs bad_sum_delta)).
    + eexists. reflexivity.
    + eexists. reflexivity.
    + reflexivity.
    + reflexivity.
Defined.

Example ApplyPatch_runs :
  (Apply.ApplyPatch toy_Header toy_ReadOperations toy_ApplyDelta toy_md5sum
     false (fun f => inr f) "/in/basis" "/in/delta" "/out/new" (patch_fs good_delta)).1
  = None /\
  (Apply.ApplyPatch toy_Header toy_ReadOperations toy_ApplyDelta toy_md5sum
     false (fun f => inr f) "/in/basis" "/in/delta" "/out/new"
     (patch_fs bad_sum_delta)).1
  = Some (ErrPatchingFile HashNoMatchError).
Proof. split; reflexivity. Qed.

End ApplyFacts.
